(** * The [deploy] and [simulate] commands of [cli/main.py]

    A shallow embedding of the two orchestration commands of the nucypher
    command line: [deploy] (arm / deploy / make-agent over the ordered table
    of contract deployers) and [simulate start] (bootstrap a tester chain,
    spawn one worker process per remaining account, block on the reactor and
    tear the swarm down). The embedding follows the module as it stands:
    the name [DEFAULT_SIMULATION_REGISTRY_FILEPATH], which [simulate start]
    reads on lines 649 and 728, is defined nowhere in it, and reading it
    raises [NameError] here as it does there.

    The commands are effectful Python.  They are written here in a state and
    exception monad over one [State] record: the answers the user will give,
    the entropy and random sources, the [config] object, the dictionaries
    shared by the closures of [deploy], and the chronological [trace] of
    every call that leaves the program. *)

From stdpp Require Import gmap strings list pretty.
From Equations Require Import Equations.
From Stdlib Require Import ZArith Lia.
From Stdlib.Strings Require Import Byte Ascii.

Local Open Scope Z_scope.
Local Open Scope string_scope.
Local Open Scope list_scope.

#[local] Instance byte_eq_dec : EqDecision byte := Byte.byte_eq_dec.

(** ** Python values used by the two commands *)

(** The exceptions that can leave a command. [Abort] is [click.Abort];
    [NameError name] is raised when the global [name] is read and is not
    defined; [Raised] is an exception of a collaborator (a deployer, the
    ledger client, the reactor), carried by its message. *)
Inductive Exn :=
| Abort
| KeyError (key : string)
| IndexError
| ValueError (msg : string)
| TypeError (msg : string)
| NameError (name : string)
| RecursionError
| ConfigurationError (msg : string)
| AttributeError (name : string)
| KeyboardInterrupt
| Raised (msg : string).

(** An agent is an opaque handle on a deployed contract. *)
Inductive Agent := AgentRef (id : N).

(** A value of the keyword dictionary a deployer class is built from. *)
Inductive Arg :=
| ABlockchain
| AAddress (a : string)
| AAgent (ag : Agent)
| ASecret (s : list byte).

(** The three deployer classes imported from
    [nucypher.blockchain.eth.deployers]. *)
Inductive DeployerClass :=
| NucypherTokenDeployer
| MinerEscrowDeployer
| PolicyManagerDeployer.

(** [cls.__name__] *)
Definition __name__ (cls : DeployerClass) : string :=
  match cls with
  | NucypherTokenDeployer => "NucypherTokenDeployer"
  | MinerEscrowDeployer => "MinerEscrowDeployer"
  | PolicyManagerDeployer => "PolicyManagerDeployer"
  end.

(** [cls._contract_name]: class constants of the deployers, which live
    outside [cli/main.py]; the values are those of the nucypher deployers. *)
Definition _contract_name (cls : DeployerClass) : string :=
  match cls with
  | NucypherTokenDeployer => "NuCypherToken"
  | MinerEscrowDeployer => "MinerEscrow"
  | PolicyManagerDeployer => "PolicyManager"
  end.

(** A deployer instance: its class and the keyword arguments it was built
    from. *)
Record Deployer := mkDeployer {
  deployer_class_of : DeployerClass;
  init_args : gmap string Arg
}.

(** What [deploy()] returns: the ordered (label, transaction id) pairs. *)
Definition Transactions := list (string * string).

(** A process object returned by [reactor.spawnProcess]. Python compares
    such objects by identity, which [obj] stands for. *)
Record Process := mkProcess { obj : nat; pid : Z }.

#[local] Instance Process_eq_dec : EqDecision Process.
Proof. solve_decision. Defined.

(** ** Insertion-ordered dictionaries

    [dict] and [OrderedDict] keep insertion order, and assigning to a key
    already present keeps the key where it is. *)
Section Dict.
Context {V : Type}.

Fixpoint dict_set (k : string) (v : V) (d : list (string * V)) : list (string * V) :=
  match d with
  | [] => [(k, v)]
  | (k', v') :: d' =>
      if decide (k = k') then (k, v) :: d' else (k', v') :: dict_set k v d'
  end.

Fixpoint dict_get (k : string) (d : list (string * V)) : option V :=
  match d with
  | [] => None
  | (k', v') :: d' => if decide (k = k') then Some v' else dict_get k d'
  end.

Definition dict_keys (d : list (string * V)) : list string := d.*1.
End Dict.

(** [sep.join(parts)] *)
Fixpoint join (sep : string) (parts : list string) : string :=
  match parts with
  | [] => ""
  | [p] => p
  | p :: ps => p +:+ sep +:+ join sep ps
  end.

(** Truth value of a Python [str]. *)
Definition truthy (s : string) : bool := bool_decide (s ≠ "").

(** ** What leaves the program *)

Inductive Event :=
| Echo (text : string)
| Confirm (text : string)
| Prompt (text : string)
| Connect
| Construct (d : Deployer)
| Arm (d : Deployer)
| Deploy (d : Deployer)
| MakeAgent (d : Deployer)
| WriteJson (filepath : string) (content : list (string * Transactions))
| External (call : string)
| SpawnProcess (executable : string) (args : list string) (checksum_address : string)
| Kill (pid : Z) (signal : Z)
| Remove (filepath : string)
| ReactorRun.

(** ** The collaborators

    Everything [cli/main.py] imports and calls is a parameter: how a
    deployer answers [arm], [deploy] and [make_agent], what the ledger
    connection yields, how the pseudo-random generator steps, whether a
    process can be spawned, how the reactor returns. *)
Class Collaborators := {
  (** [deployer.arm(abort=False)]: the pair (is_armed, disqualifications) *)
  arm_outcome : Deployer → bool * list string;
  (** [deployer.deploy()]: the transactions, or the exception it raises *)
  deploy_outcome : Deployer → Exn + Transactions;
  (** [deployer.make_agent()] *)
  agent_of : Deployer → Agent;
  (** [Blockchain.connect(...)] and the accounts of the connected node *)
  connect_outcome : Exn + list string;
  (** [config.blockchain.interface.registry.filepath] *)
  registry_filepath : string;
  (** [open(filepath, 'w')] followed by [file.write]: the exception, if any *)
  write_outcome : string → option Exn;
  (** the step of the generator behind [random.randint]: [randbelow n st]
      is the next draw below [n] and the next generator state *)
  randbelow : Z → Z → Z * Z;
  randbelow_range : ∀ n st, 0 < n → 0 ≤ (randbelow n st).1 < n;
  (** a collaborator call of the simulation bootstrap, by name: the
      exception it raises, if any *)
  external_outcome : string → option Exn;
  (** [TesterBlockchain(test_accounts=nodes).interface.w3.eth.accounts] *)
  tester_accounts : Z → list string;
  (** [simulation_registry.filepath] *)
  simulation_registry_filepath : string;
  (** [reactor.spawnProcess(...)], by argument vector: the pid of the
      child, or the exception raised *)
  spawn_outcome : list string → Exn + Z;
  (** how [reactor.run()] returns: normally, or by the exception given *)
  reactor_outcome : option Exn;
  (** constants imported by [cli/main.py] *)
  MIN_ALLOWED_LOCKED : Z;
  MIN_LOCKED_PERIODS : Z;
  MAX_MINTING_PERIODS : Z;
  DEVELOPMENT_TOKEN_AIRDROP_AMOUNT : Z;
  DISPATCHER_SECRET_LENGTH : nat;
  BASE_DIR : string
}.

(** ** The state the commands run in *)

Record State := mkState {
  (** the answers the user will give to successive [click.confirm] calls *)
  confirms : list bool;
  (** the values the user will type at successive [click.prompt] calls *)
  prompts : list string;
  (** the operating system's entropy source ... *)
  entropy : nat → byte;
  (** ... and how much of it was consumed *)
  cursor : nat;
  (** the state of the generator of the [random] module *)
  rng : Z;
  (** identity of the next object allocated *)
  next_obj : nat;
  (** [config.deployer] *)
  deployer_flag : bool;
  (** [config.federated_only] *)
  federated_only : bool;
  (** [config.compile] *)
  compile_flag : bool;
  (** [config.provider_uri] *)
  provider_uri : string;
  (** [config.accounts] *)
  accounts : list string;
  (** [config.blockchain.interface.deployer_address] *)
  deployer_address : string;
  (** [config.sim_processes]; [None] is [NO_SIMULATION_RUNNING] *)
  sim_processes : option (list Process);
  (** the dictionaries shared by the closures of [deploy] ... *)
  __deployment_transactions : list (string * Transactions);
  (** ... transactions by contract name, agents by agent name *)
  __deployment_agents : gmap string Agent;
  (** every call that left the program, oldest first *)
  trace : list Event
}.

Definition M (A : Type) : Type := State → (Exn + A) * State.

Definition ret {A} (a : A) : M A := λ s, (inr a, s).
Definition raise {A} (e : Exn) : M A := λ s, (inl e, s).
Definition bind {A B} (m : M A) (k : A → M B) : M B :=
  λ s, match m s with
       | (inr a, s') => k a s'
       | (inl e, s') => (inl e, s')
       end.

#[export] Instance M_ret : MRet M := @ret.
#[export] Instance M_bind : MBind M := λ A B k m, bind m k.
#[export] Instance M_throw : MThrow Exn M := @raise.

(** [try: body finally: handler] *)
Definition try_finally {A} (body : M A) (handler : M unit) : M A :=
  λ s, match body s with
       | (r, s') =>
           match handler s' with
           | (inr _, s'') => (r, s'')
           | (inl e, s'') => (inl e, s'')
           end
       end.

(** [for x in xs: body(x)] over a list that the body does not change *)
Fixpoint for_each {A} (xs : list A) (body : A → M unit) : M unit :=
  match xs with
  | [] => mret tt
  | x :: xs' => body x;; for_each xs' body
  end.

Definition get : M State := λ s, (inr s, s).
Definition modify (f : State → State) : M unit := λ s, (inr tt, f s).

(** The state after one more event. *)
Definition record (e : Event) (s : State) : State :=
  mkState (confirms s) (prompts s) (entropy s) (cursor s) (rng s)
    (next_obj s) (deployer_flag s) (federated_only s)
    (compile_flag s) (provider_uri s) (accounts s)
    (deployer_address s) (sim_processes s)
    (__deployment_transactions s) (__deployment_agents s)
    (trace s ++ [e]).
Definition emit (e : Event) : M unit := modify (record e).

Definition with_confirms (v : list bool) (s : State) : State :=
  mkState v (prompts s) (entropy s) (cursor s) (rng s)
    (next_obj s) (deployer_flag s) (federated_only s)
    (compile_flag s) (provider_uri s) (accounts s)
    (deployer_address s) (sim_processes s)
    (__deployment_transactions s) (__deployment_agents s)
    (trace s).
Definition set_confirms (v : list bool) : M unit := modify (with_confirms v).

Definition with_prompts (v : list string) (s : State) : State :=
  mkState (confirms s) v (entropy s) (cursor s) (rng s)
    (next_obj s) (deployer_flag s) (federated_only s)
    (compile_flag s) (provider_uri s) (accounts s)
    (deployer_address s) (sim_processes s)
    (__deployment_transactions s) (__deployment_agents s)
    (trace s).
Definition set_prompts (v : list string) : M unit := modify (with_prompts v).

Definition with_cursor (v : nat) (s : State) : State :=
  mkState (confirms s) (prompts s) (entropy s) v (rng s)
    (next_obj s) (deployer_flag s) (federated_only s)
    (compile_flag s) (provider_uri s) (accounts s)
    (deployer_address s) (sim_processes s)
    (__deployment_transactions s) (__deployment_agents s)
    (trace s).
Definition set_cursor (v : nat) : M unit := modify (with_cursor v).

Definition with_rng (v : Z) (s : State) : State :=
  mkState (confirms s) (prompts s) (entropy s) (cursor s) v
    (next_obj s) (deployer_flag s) (federated_only s)
    (compile_flag s) (provider_uri s) (accounts s)
    (deployer_address s) (sim_processes s)
    (__deployment_transactions s) (__deployment_agents s)
    (trace s).
Definition set_rng (v : Z) : M unit := modify (with_rng v).

Definition with_next_obj (v : nat) (s : State) : State :=
  mkState (confirms s) (prompts s) (entropy s) (cursor s) (rng s)
    v (deployer_flag s) (federated_only s) (compile_flag s)
    (provider_uri s) (accounts s) (deployer_address s)
    (sim_processes s) (__deployment_transactions s)
    (__deployment_agents s) (trace s).
Definition set_next_obj (v : nat) : M unit := modify (with_next_obj v).

Definition with_provider_uri (v : string) (s : State) : State :=
  mkState (confirms s) (prompts s) (entropy s) (cursor s) (rng s)
    (next_obj s) (deployer_flag s) (federated_only s)
    (compile_flag s) v (accounts s) (deployer_address s)
    (sim_processes s) (__deployment_transactions s)
    (__deployment_agents s) (trace s).
Definition set_provider_uri (v : string) : M unit := modify (with_provider_uri v).

Definition with_accounts (v : list string) (s : State) : State :=
  mkState (confirms s) (prompts s) (entropy s) (cursor s) (rng s)
    (next_obj s) (deployer_flag s) (federated_only s)
    (compile_flag s) (provider_uri s) v (deployer_address s)
    (sim_processes s) (__deployment_transactions s)
    (__deployment_agents s) (trace s).
Definition set_accounts (v : list string) : M unit := modify (with_accounts v).

Definition with_deployer_address (v : string) (s : State) : State :=
  mkState (confirms s) (prompts s) (entropy s) (cursor s) (rng s)
    (next_obj s) (deployer_flag s) (federated_only s)
    (compile_flag s) (provider_uri s) (accounts s) v
    (sim_processes s) (__deployment_transactions s)
    (__deployment_agents s) (trace s).
Definition set_deployer_address (v : string) : M unit := modify (with_deployer_address v).

Definition with_sim_processes (v : option (list Process)) (s : State) : State :=
  mkState (confirms s) (prompts s) (entropy s) (cursor s) (rng s)
    (next_obj s) (deployer_flag s) (federated_only s)
    (compile_flag s) (provider_uri s) (accounts s)
    (deployer_address s) v (__deployment_transactions s)
    (__deployment_agents s) (trace s).
Definition set_sim_processes (v : option (list Process)) : M unit := modify (with_sim_processes v).

Definition with_deployment_transactions (v : list (string * Transactions)) (s : State) : State :=
  mkState (confirms s) (prompts s) (entropy s) (cursor s) (rng s)
    (next_obj s) (deployer_flag s) (federated_only s)
    (compile_flag s) (provider_uri s) (accounts s)
    (deployer_address s) (sim_processes s) v
    (__deployment_agents s) (trace s).
Definition set_deployment_transactions (v : list (string * Transactions)) : M unit := modify (with_deployment_transactions v).

Definition with_deployment_agents (v : gmap string Agent) (s : State) : State :=
  mkState (confirms s) (prompts s) (entropy s) (cursor s) (rng s)
    (next_obj s) (deployer_flag s) (federated_only s)
    (compile_flag s) (provider_uri s) (accounts s)
    (deployer_address s) (sim_processes s)
    (__deployment_transactions s) v (trace s).
Definition set_deployment_agents (v : gmap string Agent) : M unit := modify (with_deployment_agents v).

(** ** [click] and [os] *)

(** [click.echo(text)] *)
Definition click_echo (text : string) : M unit := emit (Echo text).

(** [click.confirm(text, abort=...)]: shows the question and reads the
    answer; end of input raises [Abort], and so does a negative answer when
    [abort] is set. *)
Definition click_confirm (text : string) (abort : bool) : M bool :=
  emit (Confirm text);;
  s ← get;
  match confirms s with
  | [] => raise Abort
  | answer :: rest =>
      set_confirms rest;;
      if abort && negb answer then raise Abort else mret answer
  end.

(** [click.prompt(text)]: shows the question and reads a value; end of
    input raises [Abort]. *)
Definition click_prompt (text : string) : M string :=
  emit (Prompt text);;
  s ← get;
  match prompts s with
  | [] => raise Abort
  | value :: rest => set_prompts rest;; mret value
  end.

(** [os.urandom(n)]: the next [n] bytes of the entropy source. *)
Definition os_urandom (n : nat) : M (list byte) :=
  s ← get;
  set_cursor (cursor s + n)%nat;;
  mret (entropy s <$> seq (cursor s) n).

(** [os.kill(pid, sig)]. The signal is taken to be delivered, as it is to
    a child that is still running. For a child that the reactor has reaped
    [process.pid] is [None] and the call raises: that case is left out, so
    the statements about the loops of lines 579-581 and 730-732 are about
    runs whose signals go through. *)
Definition os_kill (pid : Z) (sig : Z) : M unit := emit (Kill pid sig).

(** [os.remove(path)] *)
Definition os_remove (path : string) : M unit := emit (Remove path).

(** Reading the global [DEFAULT_SIMULATION_REGISTRY_FILEPATH]. The name
    occurs on lines 649 and 728 of [cli/main.py] and nowhere else: the module
    neither imports nor assigns it, so the read raises [NameError]. *)
Definition DEFAULT_SIMULATION_REGISTRY_FILEPATH : M string :=
  raise (NameError "DEFAULT_SIMULATION_REGISTRY_FILEPATH").

(** The newline character of the banner lines. *)
Definition nl : string := String (Ascii.ascii_of_nat 10) "".

(** ** [NucypherClickConfig.connect_to_blockchain]

    The registry path and the proof-of-authority middleware it also sets
    are not read by the commands below. *)
Section Commands.
Context `{Collaborators}.

Definition connect_to_blockchain : M unit :=
  s ← get;
  if federated_only s
  then raise (ConfigurationError "Cannot connect to blockchain in federated mode")
  else
    (if compile_flag s
     then click_confirm "Compile solidity source?" true;; mret tt
     else mret tt);;
    emit Connect;;
    match connect_outcome with
    | inl e => raise e
    | inr accts => set_accounts accts
    end.

(** ** The [deploy] command *)

(** [DeployerInfo = namedtuple('DeployerInfo',
      'deployer_class upgradeable agent_name dependant')] *)
Record DeployerInfo := mkDeployerInfo {
  deployer_class : DeployerClass;
  upgradeable : bool;
  agent_name : string;
  dependant : option string
}.

(** The table built by [__get_deployers], in the order of its literal. *)
Definition deployers_table : list (string * DeployerInfo) :=
  dict_set (_contract_name PolicyManagerDeployer)
    (mkDeployerInfo PolicyManagerDeployer true "policy_agent" (Some "miner_agent"))
    (dict_set (_contract_name MinerEscrowDeployer)
       (mkDeployerInfo MinerEscrowDeployer true "miner_agent" (Some "token_agent"))
       (dict_set (_contract_name NucypherTokenDeployer)
          (mkDeployerInfo NucypherTokenDeployer false "token_agent" None)
          [])).

(** [deployer_address or config.accounts[0]] *)
Definition address_or_first_account (deployer_address : option string) : M string :=
  s ← get;
  let first := match accounts s with
               | [] => raise IndexError
               | a :: _ => mret a
               end in
  match deployer_address with
  | Some a => if truthy a then mret a else first
  | None => first
  end.

Definition __get_deployers (deployer_address : option string)
  : M (list (string * DeployerInfo)) :=
  connect_to_blockchain;;
  a ← address_or_first_account deployer_address;
  set_deployer_address a;;
  click_confirm "Continue?" true;;
  mret deployers_table.

(** Depth at which the interpreter stops a recursion with
    [RecursionError] (the default of [sys.getrecursionlimit()]). *)
Definition recursion_limit : nat := 1000.

(** Lines 833-844 of [__collect_secret], for the secret and the
    confirmation obtained on lines 830-831; [again] is the recursive call.
    The result is the updated [__deployer_init_args] and the secret. *)
Definition secret_checks (again : M (gmap string Arg * list byte))
    (secret secret_confirmation : list byte) (__deployer_init_args : gmap string Arg)
  : M (gmap string Arg * list byte) :=
  let compare :=
    if bool_decide (secret ≠ secret_confirmation)
    then
      click_echo "Secrets did not match";;
      answer ← click_prompt "Try again?";
      if truthy answer then again else raise Abort
    else mret (<["secret_hash" := ASecret secret]> __deployer_init_args, secret) in
  if bool_decide (length secret ≠ 32%nat)
  then
    click_echo "Deployer secret must be 32 bytes.";;
    answer ← click_prompt "Try again?";
    if truthy answer then again else compare
  else compare.

Fixpoint __collect_secret (depth : nat) (__deployer_init_args : gmap string Arg)
  : M (gmap string Arg * list byte) :=
  match depth with
  | O => raise RecursionError
  | S depth' =>
      secret ← os_urandom 32;
      let secret_confirmation := secret in
      secret_checks (__collect_secret depth' __deployer_init_args)
        secret secret_confirmation __deployer_init_args
  end.

(** [__deployment_agents[dependant]] *)
Definition lookup_agent (dependant : string) : M Agent :=
  s ← get;
  match __deployment_agents s !! dependant with
  | Some ag => mret ag
  | None => raise (KeyError dependant)
  end.

Definition __deploy_contract (force : bool) (deployer_class : DeployerClass)
    (upgradeable : bool) (agent_name : string) (dependant : option string)
  : M (Transactions * Agent) :=
  let __contract_name := _contract_name deployer_class in
  s ← get;
  let args0 : gmap string Arg :=
    <["deployer_address" := AAddress (deployer_address s)]>
      (<["blockchain" := ABlockchain]> ∅) in
  args1 ← match dependant with
          | Some d => ag ← lookup_agent d; mret (<[d := AAgent ag]> args0)
          | None => mret args0
          end;
  args2 ← (if upgradeable
           then r ← __collect_secret recursion_limit args1; mret r.1
           else mret args1);
  let __deployer := mkDeployer deployer_class args2 in
  emit (Construct __deployer);;
  (* Arm *)
  (if negb force
   then click_confirm ("Arm " +:+ __name__ deployer_class +:+ "?") true;; mret tt
   else mret tt);;
  emit (Arm __deployer);;
  let '(is_armed, disqualifications) := arm_outcome __deployer in
  if negb is_armed
  then
    click_echo ("Failed to arm " +:+ __contract_name +:+ ". Disqualifications: "
                +:+ join ", " disqualifications);;
    raise Abort
  else
    (* Deploy *)
    (if negb force
     then click_confirm ("Deploy " +:+ __contract_name +:+ "?") true;; mret tt
     else mret tt);;
    emit (Deploy __deployer);;
    match deploy_outcome __deployer with
    | inl e => raise e
    | inr __transactions =>
        s' ← get;
        set_deployment_transactions
          (dict_set __contract_name __transactions (__deployment_transactions s'));;
        emit (MakeAgent __deployer);;
        let __agent := agent_of __deployer in
        s'' ← get;
        set_deployment_agents (<[agent_name := __agent]> (__deployment_agents s''));;
        mret (__transactions, __agent)
    end.

(** Lines 849-872 of [__deploy_contract]: what is done with the deployer
    [__deployer] that line 847 has built. *)
Definition arm_and_deploy (force : bool) (deployer_class : DeployerClass)
    (agent_name : string) (__deployer : Deployer) : M (Transactions * Agent) :=
  let __contract_name := _contract_name deployer_class in
  (* Arm *)
  (if negb force
   then click_confirm ("Arm " +:+ __name__ deployer_class +:+ "?") true;; mret tt
   else mret tt);;
  emit (Arm __deployer);;
  let '(is_armed, disqualifications) := arm_outcome __deployer in
  if negb is_armed
  then
    click_echo ("Failed to arm " +:+ __contract_name +:+ ". Disqualifications: "
                +:+ join ", " disqualifications);;
    raise Abort
  else
    (* Deploy *)
    (if negb force
     then click_confirm ("Deploy " +:+ __contract_name +:+ "?") true;; mret tt
     else mret tt);;
    emit (Deploy __deployer);;
    match deploy_outcome __deployer with
    | inl e => raise e
    | inr __transactions =>
        s' ← get;
        set_deployment_transactions
          (dict_set __contract_name __transactions (__deployment_transactions s'));;
        emit (MakeAgent __deployer);;
        let __agent := agent_of __deployer in
        s'' ← get;
        set_deployment_agents (<[agent_name := __agent]> (__deployment_agents s''));;
        mret (__transactions, __agent)
    end.

Definition deploy_info (force : bool) (info : DeployerInfo) : M unit :=
  __deploy_contract force (deployer_class info) (upgradeable info)
    (agent_name info) (dependant info);;
  mret tt.

(** The lines echoed by [deploy] after the table is built. *)
Definition deploy_banner (available_deployers : string) : M unit :=
  s ← get;
  click_echo (nl +:+ "-----------------------------------------------");;
  click_echo ("Available Deployers: " +:+ available_deployers);;
  click_echo ("Blockchain Provider URI ... " +:+ provider_uri s);;
  click_echo ("Registry Output Filepath .. " +:+ registry_filepath);;
  click_echo ("Deployer's Address ........ " +:+ deployer_address s);;
  click_echo ("-----------------------------------------------" +:+ nl).

(** The two closing questions of [deploy], asked only without [--force]. *)
Definition view_transactions (force : bool) : M unit :=
  view ← (if negb force
          then answer ← click_prompt "View deployment transaction hashes?";
               mret (truthy answer)
          else mret false);
  if view : bool
  then
    s ← get;
    for_each (__deployment_transactions s) (λ '(contract_name, transactions),
      click_echo contract_name;;
      for_each transactions (λ '(tx_name, txhash),
        click_echo (tx_name +:+ ":" +:+ txhash)))
  else mret tt.

Definition save_transactions (force : bool) : M unit :=
  save ← (if negb force
          then click_confirm "Save transaction hashes to JSON file?" false
          else mret false);
  if save : bool
  then
    filepath ← click_prompt "Enter output filepath";
    s ← get;
    emit (WriteJson filepath (__deployment_transactions s));;
    match write_outcome filepath with
    | Some e => raise e
    | None =>
        click_echo ("Successfully wrote transaction hashes file to " +:+ filepath)
    end
  else mret tt.

(** Lines 874-895: one named contract, or every contract of the table in
    its order. *)
Definition deploy_phase (force : bool) (contract_name : option string)
    (deployers : list (string * DeployerInfo)) (available_deployers : string) : M unit :=
  let deploy_all := for_each deployers.*2 (deploy_info force) in
  match contract_name with
  | Some name =>
      if truthy name
      then
        (* Deploy Single Contract *)
        match dict_get name deployers with
        | None =>
            click_echo ("No such contract " +:+ name
                        +:+ ". Available contracts are " +:+ available_deployers)
        | Some deployer_info => deploy_info force deployer_info
        end
      else deploy_all
  | None =>
      (* Deploy All Contracts *)
      deploy_all
  end.

Definition deploy (action : string) (deployer_address contract_name : option string)
    (force : bool) : M unit :=
  s ← get;
  if negb (deployer_flag s)
  then
    click_echo "The --deployer flag must be used to issue the deploy command.";;
    raise Abort
  else if bool_decide (action = "contracts")
  then
    deployers ← __get_deployers deployer_address;
    set_deployment_transactions [];;
    set_deployment_agents ∅;;
    let available_deployers := join ", " (dict_keys deployers) in
    deploy_banner available_deployers;;
    deploy_phase force contract_name deployers available_deployers;;
    view_transactions force;;
    save_transactions force
  else mret tt.

(** ** The [simulate] command *)

(** [list.remove(x)]: drops the first element equal to [x]; [None] when
    there is none (Python raises [ValueError]). *)
Fixpoint list_remove (x : Process) (l : list Process) : option (list Process) :=
  match l with
  | [] => None
  | y :: l' => if decide (x = y) then Some l' else (y ::.) <$> list_remove x l'
  end.

(** [enumerate(xs, start=start)] *)
Fixpoint enumerate {A} (xs : list A) (start : Z) : list (Z * A) :=
  match xs with
  | [] => []
  | x :: xs' => (start, x) :: enumerate xs' (start + 1)
  end.

(** Characters [str.split()] separates on (the ASCII white space). *)
Definition is_space (c : ascii) : bool :=
  let n := Ascii.nat_of_ascii c in
  bool_decide (n = 32 ∨ 9 ≤ n ≤ 13 ∨ 28 ≤ n ≤ 31)%nat.

(** [text.split()]: the maximal runs of characters that are not white
    space. [word] is the run being read, most recent character first. *)
Fixpoint split_go (text : string) (word : string) : list string :=
  match text with
  | EmptyString => if bool_decide (word = "") then [] else [String.rev word]
  | String c text' =>
      if is_space c
      then (if bool_decide (word = "") then [] else [String.rev word])
             ++ split_go text' ""
      else split_go text' (String c word)
  end.

Definition split (text : string) : list string := split_go text "".

(** [os.path.join(a, b)] for a relative [b] *)
Fixpoint ends_with_slash (a : string) : bool :=
  match a with
  | EmptyString => false
  | String c EmptyString => bool_decide (c = "/"%char)
  | String _ a' => ends_with_slash a'
  end.

Definition path_join (a b : string) : string :=
  if bool_decide (a = "") then b
  else if ends_with_slash a then a +:+ b
  else a +:+ "/" +:+ b.

(** Calls on a deployer object, as [simulate] makes them: [arm()] with
    its default [abort=True] raises when the deployer is disqualified. *)
Definition deployer_arm (d : Deployer) : M unit :=
  emit (Arm d);;
  let '(is_armed, disqualifications) := arm_outcome d in
  if is_armed : bool then mret tt else raise (Raised (join ", " disqualifications)).

Definition deployer_deploy (d : Deployer) : M Transactions :=
  emit (Deploy d);;
  match deploy_outcome d with
  | inl e => raise e
  | inr transactions => mret transactions
  end.

Definition deployer_make_agent (d : Deployer) : M Agent :=
  emit (MakeAgent d);;
  mret (agent_of d).

(** A call of a collaborator that only succeeds or raises. *)
Definition external (call : string) : M unit :=
  emit (External call);;
  match external_outcome call with
  | Some e => raise e
  | None => mret tt
  end.

(** The message of [random.randrange(start, stop)] for an empty range. *)
Definition empty_range (start stop : Z) : string :=
  "empty range for randrange() (" +:+ pretty start +:+ "," +:+ pretty stop
  +:+ ", " +:+ pretty (stop - start) +:+ ")".

(** [random.randint(a, b)], which is [randrange(a, b + 1)]: a draw in
    [a..b], both included; [ValueError] on an empty range. *)
Definition random_randint (a b : Z) : M Z :=
  if bool_decide (b < a)
  then raise (ValueError (empty_range a (b + 1)))
  else
    s ← get;
    let '(r, st) := randbelow (b - a + 1) (rng s) in
    set_rng st;;
    mret (a + r).

(** Lines 685-688: the stake of one node. *)
Definition random_stake : M (Z * Z) :=
  let '(min_stake, balance) := (MIN_ALLOWED_LOCKED, DEVELOPMENT_TOKEN_AIRDROP_AMOUNT) in
  value ← random_randint min_stake balance;
  let '(min_locktime, max_locktime) := (MIN_LOCKED_PERIODS, MAX_MINTING_PERIODS) in
  periods ← random_randint min_locktime max_locktime;
  mret (value, periods).

(** [reactor.spawnProcess(processProtocol, executable, args, env)] *)
Definition reactor_spawnProcess (executable : string) (args : list string)
    (checksum_address : string) : M Process :=
  emit (SpawnProcess executable args checksum_address);;
  match spawn_outcome args with
  | inl e => raise e
  | inr child =>
      s ← get;
      set_next_obj (S (next_obj s));;
      mret (mkProcess (next_obj s) child)
  end.

(** [config.sim_processes.append(process)] *)
Definition sim_processes_append (process : Process) : M unit :=
  s ← get;
  match sim_processes s with
  | Some l => set_sim_processes (Some (l ++ [process]))
  | None => raise (AttributeError "append")
  end.

(** The text of a process object in a message: the [repr] of a twisted
    [Process], whose [status] is -1 until the reactor reaps the child. *)
Definition process_text (process : Process) : string :=
  "<Process pid=" +:+ pretty (pid process) +:+ " status=-1>".

(** The processes tracked by [config.sim_processes]. *)
Definition tracked (s : State) : list Process := default [] (sim_processes s).

Definition inspect {A} (a : A) : {b | a = b} := exist _ a eq_refl.

(** Lines 579-581: [for process in config.sim_processes:] with the body
    removing [process] from the very list the loop runs over. The
    iterator of a Python list is an index into the live list: round [i]
    reads position [i] of the list as it is then, and the loop ends when
    [i] reaches its current length. *)
Equations? prestart_cleanup (i : nat) (s : State) : (Exn + unit) * State
  by wf (length (tracked s) - i)%nat lt :=
prestart_cleanup i s with inspect (tracked s !! i) := {
  | exist _ None _ => (inr tt, s)
  | exist _ (Some process) Hi with inspect (list_remove process (tracked s)) := {
      | exist _ None _ => (inl (ValueError "list.remove(x): x not in list"), s)
      | exist _ (Some l') Hl' =>
          match (set_sim_processes (Some l');; os_kill (pid process) 9) s
                as r return r = (set_sim_processes (Some l');; os_kill (pid process) 9) s → _
          with
          | (inr _, s') => λ Hs', prestart_cleanup (S i) s'
          | (inl e, s') => λ _, (inl e, s')
          end eq_refl
    }
}.
Proof.
  apply lookup_lt_Some in Hi as Hlt.
  assert (∃ l'', list_remove process (tracked s) = Some l''
                 ∧ S (length l'') = length (tracked s)) as (l'' & Hrm & Hlen).
  { clear Hlt prestart_cleanup. revert i Hi.
    induction (tracked s) as [|y l IH]; intros i Hi; [done|].
    simpl. destruct (decide (process = y)) as [->|Hne]; [by eauto|].
    destruct i as [|i]; simplify_eq/=.
    destruct (IH _ Hi) as (l'' & -> & Hlen). simpl. eauto with lia. }
  unfold tracked at 1. simpl. rewrite Hrm. simpl. lia.
Defined.

(** [origin, *everyone_else = accounts] *)
Definition unpack_origin (accounts : list string) : M (string * list string) :=
  match accounts with
  | [] => raise (ValueError "not enough values to unpack (expected at least 1, got 0)")
  | origin :: everyone_else => mret (origin, everyone_else)
  end.

Definition supported_sim_uris : list string :=
  ["tester://geth"; "tester://pyevm"; "ipc:///tmp/geth.ipc"].

(** Lines 583-649: the simulated chain and its contracts. The result is
    what the swarm loop reads afterwards: [everyone_else] and
    [sim_provider_uri]. *)
Definition bootstrap_chain (nodes : Z) (geth pyevm : bool) : M (list string * string) :=
  (if geth then set_provider_uri "ipc:///tmp/geth.ipc"
   else if pyevm then set_provider_uri "tester://pyevm"
   else mret tt);;
  s ← get;
  let sim_provider_uri := provider_uri s in
  (* Sanity check *)
  if bool_decide (provider_uri s ∉ supported_sim_uris)
  then
    click_echo (provider_uri s +:+ " is not a supported simulation node backend. "
                +:+ "Supported URIs are ('tester://geth', 'tester://pyevm', "
                +:+ "'ipc:///tmp/geth.ipc')");;
    raise Abort
  else
    external "TemporaryEthereumContractRegistry";;
    external "BlockchainDeployerInterface";;
    external "TesterBlockchain";;
    '(origin, everyone_else) ← unpack_origin (tester_accounts nodes);
    (* Set the deployer address from the freshly created test account *)
    set_deployer_address origin;;
    external "ether_airdrop";;
    click_confirm ("Deploy all nucypher contracts to " +:+ provider_uri s +:+ "?") true;;
    click_echo "Bootstrapping simulated blockchain network";;
    (* Deploy contracts *)
    let token_deployer :=
      mkDeployer NucypherTokenDeployer
        (<["deployer_address" := AAddress origin]> (<["blockchain" := ABlockchain]> ∅)) in
    emit (Construct token_deployer);;
    deployer_arm token_deployer;;
    deployer_deploy token_deployer;;
    sim_token_agent ← deployer_make_agent token_deployer;
    miners_escrow_secret ← os_urandom DISPATCHER_SECRET_LENGTH;
    let miner_escrow_deployer :=
      mkDeployer MinerEscrowDeployer
        (<["secret_hash" := ASecret miners_escrow_secret]>
           (<["deployer_address" := AAddress origin]>
              (<["token_agent" := AAgent sim_token_agent]> ∅))) in
    emit (Construct miner_escrow_deployer);;
    deployer_arm miner_escrow_deployer;;
    deployer_deploy miner_escrow_deployer;;
    sim_miner_agent ← deployer_make_agent miner_escrow_deployer;
    policy_manager_secret ← os_urandom DISPATCHER_SECRET_LENGTH;
    let policy_manager_deployer :=
      mkDeployer PolicyManagerDeployer
        (<["secret_hash" := ASecret policy_manager_secret]>
           (<["deployer_address" := AAddress origin]>
              (<["miner_agent" := AAgent sim_miner_agent]> ∅))) in
    emit (Construct policy_manager_deployer);;
    deployer_arm policy_manager_deployer;;
    deployer_deploy policy_manager_deployer;;
    deployer_make_agent policy_manager_deployer;;
    click_echo ("Airdropping tokens " +:+ pretty DEVELOPMENT_TOKEN_AIRDROP_AMOUNT
                +:+ " to " +:+ pretty (length everyone_else) +:+ " addresses");;
    external "token_airdrop";;
    (* Commit the current state of deployment to a registry file. *)
    click_echo "Writing filesystem registry";;
    filepath ← DEFAULT_SIMULATION_REGISTRY_FILEPATH;
    external ("registry.commit(filepath=" +:+ filepath +:+ ")");;
    mret (everyone_else, sim_provider_uri).

(** Lines 671-690: the argument vector of one simulated node. *)
Definition ursula_params (sim_port_number : Z) : list string :=
  let sim_db_name := "sim-" +:+ pretty sim_port_number in
  split ("ursula run --rest-port " +:+ pretty sim_port_number
         +:+ " --db-name " +:+ sim_db_name).

Definition process_params_of (geth : bool) (sim_provider_uri : string)
    (sim_port_number : Z) (sim_address : string) : M (list string) :=
  s ← get;
  let process_params := ["nucypher-cli"; "--dev"] in
  let process_params :=
    if geth then process_params ++ ["--poa"] else process_params in
  let process_params :=
    if federated_only s
    then process_params ++ ["--federated-only"]
    else process_params
         ++ split ("--registry-filepath " +:+ simulation_registry_filepath
                   +:+ " --provider-uri " +:+ sim_provider_uri) in
  let process_params := process_params ++ ursula_params sim_port_number in
  if negb (federated_only s)
  then
    '(value, periods) ← random_stake;
    mret (process_params
          ++ split ("--checksum-address " +:+ sim_address)
          ++ split ("--stake-amount " +:+ pretty value
                    +:+ " --stake-periods " +:+ pretty periods))
  else mret process_params.

(** Lines 665-719: one round of the swarm loop. *)
Definition spawn_node (geth : bool) (sim_provider_uri : string) (counter : Z)
    (sim_port_number : Z) (sim_address : string) : M unit :=
  process_params ← process_params_of geth sim_provider_uri sim_port_number sim_address;
  (* Spawn *)
  click_echo ("Spawning node #" +:+ pretty (counter + 1));;
  let cli_exec := path_join (path_join BASE_DIR "cli") "main.py" in
  ursula_process ← reactor_spawnProcess cli_exec process_params sim_address;
  sim_processes_append ursula_process;;
  (* post-spawnProcess *)
  s ← get;
  let rest_uri := "https://" +:+ "localhost" +:+ ":" +:+ pretty sim_port_number in
  let sim_data := "prepared simulated Ursula | ReST " +:+ rest_uri in
  let sim_data :=
    if negb (federated_only s)
    then sim_data +:+ "| ETH address " +:+ sim_address
    else sim_data in
  click_echo sim_data.

Fixpoint spawn_swarm (geth : bool) (sim_provider_uri : string)
    (nodes : list (Z * string)) (counter : Z) : M unit :=
  match nodes with
  | [] => mret tt
  | (sim_port_number, sim_address) :: nodes' =>
      spawn_node geth sim_provider_uri counter sim_port_number sim_address;;
      spawn_swarm geth sim_provider_uri nodes' (counter + 1)
  end.

(** [reactor.run()] *)
Definition reactor_run : M unit :=
  emit ReactorRun;;
  match reactor_outcome with
  | Some e => raise e
  | None => mret tt
  end.

(** Lines 726-733: the [finally] block. *)
Definition teardown : M unit :=
  s ← get;
  (if negb (federated_only s)
   then
     click_echo "Removing simulation registry";;
     filepath ← DEFAULT_SIMULATION_REGISTRY_FILEPATH;
     os_remove filepath
   else mret tt);;
  click_echo "Stopping simulated Ursula processes";;
  s' ← get;
  for_each (tracked s') (λ process,
    os_kill (pid process) 9;;
    click_echo ("Killed " +:+ process_text process));;
  click_echo "Simulation Stopped".

Definition start_port : Z := 8787.

(** Lines 576-581. *)
Definition reset_sim_processes : M unit :=
  s ← get;
  match sim_processes s with
  | None => set_sim_processes (Some [])
  | Some l =>
      if bool_decide (length l ≠ 0%nat) then prestart_cleanup 0 else mret tt
  end.

(** Lines 659-719: the swarm loop over [sim_addresses]; [None] is
    [NotImplemented], the value of [sim_addresses] in federated mode. *)
Definition swarm (geth : bool) (chain : option (list string * string)) : M unit :=
  match chain with
  | None => raise (TypeError "'NotImplementedType' object is not iterable")
  | Some (sim_addresses, sim_provider_uri) =>
      spawn_swarm geth sim_provider_uri (enumerate sim_addresses start_port) 0
  end.

(** Lines 576-722: everything [simulate start] does before it enters
    the reactor. *)
Definition prepare_swarm (nodes : Z) (geth pyevm : bool) : M unit :=
  (* Blockchain Connection *)
  reset_sim_processes;;
  s ← get;
  chain ← (if negb (federated_only s)
           then r ← bootstrap_chain nodes geth pyevm; mret (Some r)
           else mret None);
  click_echo "Ready to run swarm.";;
  (* Swarm *)
  swarm geth chain;;
  click_echo "Starting the reactor";;
  click_confirm "Start the reactor?" true;;
  mret tt.

Definition simulate_start (nodes : Z) (geth pyevm : bool) : M unit :=
  prepare_swarm nodes geth pyevm;;
  try_finally reactor_run teardown.

Definition simulate (action : string) (nodes : Z) (geth pyevm : bool) : M unit :=
  if bool_decide (action = "start") then simulate_start nodes geth pyevm
  else if bool_decide (action = "stop") then raise (AttributeError "ursula_processes")
  else if bool_decide (action = "status") then raise (AttributeError "simulation_running")
  else mret tt.

End Commands.

(** ** Positions of a list *)

(** The elements at positions 0, 2, 4, ... and at positions 1, 3, 5, ... *)
Fixpoint evens {A} (l : list A) : list A :=
  match l with
  | [] => []
  | x :: l' => x :: match l' with [] => [] | _ :: l'' => evens l'' end
  end.

Fixpoint odds {A} (l : list A) : list A :=
  match l with
  | [] => []
  | _ :: l' => match l' with [] => [] | y :: l'' => y :: odds l'' end
  end.

(** ** A concrete world

    One instance of the collaborators, on which the statements below are
    exercised: every deployer arms and deploys, the generator is a linear
    congruential one, every process can be spawned. *)
Program Definition reference_world : Collaborators := {|
  arm_outcome _ := (true, []);
  deploy_outcome d := inr [("txhash", _contract_name (deployer_class_of d))];
  agent_of d := match deployer_class_of d with
                | NucypherTokenDeployer => AgentRef 1
                | MinerEscrowDeployer => AgentRef 2
                | PolicyManagerDeployer => AgentRef 3
                end;
  connect_outcome := inr ["0xA"; "0xB"];
  registry_filepath := "registry.json";
  write_outcome _ := None;
  randbelow n st := (st `mod` n, (st * 1103515245 + 12345) `mod` 2147483648);
  external_outcome _ := None;
  tester_accounts n := (λ i, "0x" +:+ pretty i) <$> seq 0 (Z.to_nat n);
  simulation_registry_filepath := "/tmp/sim-registry.json";
  spawn_outcome args := inr 4242;
  reactor_outcome := None;
  MIN_ALLOWED_LOCKED := 15000;
  MIN_LOCKED_PERIODS := 30;
  MAX_MINTING_PERIODS := 365;
  DEVELOPMENT_TOKEN_AIRDROP_AMOUNT := 1000000;
  DISPATCHER_SECRET_LENGTH := 32;
  BASE_DIR := "/opt/nucypher"
|}.
Next Obligation. intros. simpl. apply Z.mod_pos_bound. lia. Qed.

(** The reference world with other deployers, processes and reactor. *)
Definition world_with (arm : Deployer → bool * list string)
    (dep : Deployer → Exn + Transactions) (spawn : list string → Exn + Z)
    (reactor : option Exn) : Collaborators := {|
  arm_outcome := arm;
  deploy_outcome := dep;
  agent_of := @agent_of reference_world;
  connect_outcome := @connect_outcome reference_world;
  registry_filepath := @registry_filepath reference_world;
  write_outcome := @write_outcome reference_world;
  randbelow := @randbelow reference_world;
  randbelow_range := @randbelow_range reference_world;
  external_outcome := @external_outcome reference_world;
  tester_accounts := @tester_accounts reference_world;
  simulation_registry_filepath := @simulation_registry_filepath reference_world;
  spawn_outcome := spawn;
  reactor_outcome := reactor;
  MIN_ALLOWED_LOCKED := @MIN_ALLOWED_LOCKED reference_world;
  MIN_LOCKED_PERIODS := @MIN_LOCKED_PERIODS reference_world;
  MAX_MINTING_PERIODS := @MAX_MINTING_PERIODS reference_world;
  DEVELOPMENT_TOKEN_AIRDROP_AMOUNT := @DEVELOPMENT_TOKEN_AIRDROP_AMOUNT reference_world;
  DISPATCHER_SECRET_LENGTH := @DISPATCHER_SECRET_LENGTH reference_world;
  BASE_DIR := @BASE_DIR reference_world
|}.

(** A world in which the MinerEscrow deployer is disqualified at arming. *)
Definition disqualifying_world : Collaborators :=
  world_with
    (λ d, match deployer_class_of d with
          | MinerEscrowDeployer => (false, ["Dispatcher secret is not set"])
          | _ => (true, [])
          end)
    (@deploy_outcome reference_world) (@spawn_outcome reference_world) None.

(** A world in which the [deploy()] of the MinerEscrow deployer raises an
    error of the ledger client. *)
Definition underfunded_world : Collaborators :=
  world_with (@arm_outcome reference_world)
    (λ d, match deployer_class_of d with
          | MinerEscrowDeployer =>
              inl (Raised "insufficient funds for gas * price + value")
          | _ => @deploy_outcome reference_world d
          end)
    (@spawn_outcome reference_world) None.

(** A state in which nothing has happened yet: the answers [cs] and [ps]
    are pending, and [config] is the one of [nucypher --deployer]. *)
Definition initial (cs : list bool) (ps : list string) : State :=
  mkState cs ps (λ _, x00) 0 42 0 true false false "tester://pyevm" [] "" None [] ∅ [].

(** A state in which [ps] are the processes of an earlier simulation. *)
Definition crowded (ps : list Process) : State :=
  mkState [true; true] [] (λ _, x00) 0 42 (length ps) true false false
    "tester://pyevm" [] "" (Some ps) [] ∅ [].

Definition five_processes : list Process :=
  [mkProcess 0 10; mkProcess 1 11; mkProcess 2 12; mkProcess 3 13; mkProcess 4 14].

(** ** Observations on a trace *)

(** The calls made on deployer objects. *)
Definition is_deployer_call (e : Event) : bool :=
  match e with
  | Construct _ | Arm _ | Deploy _ | MakeAgent _ => true
  | _ => false
  end.

Definition deployer_calls (t : list Event) : list Event :=
  filter (λ e, is_deployer_call e = true) t.

(** The questions of [click.confirm]. *)
Definition is_confirm (e : Event) : bool :=
  match e with
  | Confirm _ => true
  | _ => false
  end.

(** A trace without the questions of [click.confirm]. *)
Definition unprompted (t : list Event) : list Event :=
  filter (λ e, is_confirm e = false) t.

(** The four calls [__deploy_contract] makes on the deployer it builds. *)
Definition unit_calls (d : Deployer) : list Event :=
  [Construct d; Arm d; Deploy d; MakeAgent d].

(** [text] contains [name]. *)
Definition mentions (name text : string) : Prop :=
  ∃ before after, text = before +:+ name +:+ after.

(** Whether [text] begins with [name], and whether it contains it. *)
Fixpoint starts_with (name text : string) : bool :=
  match name, text with
  | EmptyString, _ => true
  | String a name', String b text' => bool_decide (a = b) && starts_with name' text'
  | String _ _, EmptyString => false
  end.

Fixpoint contains (name text : string) : bool :=
  starts_with name text
  || match text with
     | EmptyString => false
     | String _ text' => contains name text'
     end.

(** The state after the loop has dropped processes and sent its kills. *)
Definition cleaned (s : State) (l : list Process) (killed : list Process) : State :=
  mkState (confirms s) (prompts s) (entropy s) (cursor s) (rng s) (next_obj s)
    (deployer_flag s) (federated_only s) (compile_flag s) (provider_uri s)
    (accounts s) (deployer_address s) (Some l) (__deployment_transactions s)
    (__deployment_agents s) (trace s ++ ((λ p, Kill (pid p) 9) <$> killed)).

(** The deployer [__deploy_contract] builds in state [s]: its keyword
    arguments are the ledger, the deployer address, the agent of the unit it
    depends on, and a fresh secret when the contract is upgradeable. *)
Definition deployer_built `{Collaborators} (cls : DeployerClass) (up : bool)
    (dependant : option string) (s : State) : Deployer :=
  let args0 : gmap string Arg :=
    <["deployer_address" := AAddress (deployer_address s)]>
      (<["blockchain" := ABlockchain]> ∅) in
  let args1 :=
    match dependant with
    | Some d =>
        match __deployment_agents s !! d with
        | Some ag => <[d := AAgent ag]> args0
        | None => args0
        end
    | None => args0
    end in
  let args2 :=
    if up then <["secret_hash" := ASecret (entropy s <$> seq (cursor s) 32)]> args1
    else args1 in
  mkDeployer cls args2.

(** The state after [__deploy_contract] has put the question [q] of a
    confirmation it asks without [--force], and whether the run goes on. *)
Definition asked (force : bool) (q : string) (s : State) : State :=
  if force then s
  else match confirms s with
       | [] => record (Confirm q) s
       | _ :: cs => with_confirms cs (record (Confirm q) s)
       end.

Definition agreed (force : bool) (s : State) : bool :=
  force || match confirms s with
           | true :: _ => true
           | _ => false
           end.

(** The agent name [__deploy_contract] looks up without finding it. *)
Definition missing_dependency (dep : option string) (s : State) : option string :=
  match dep with
  | Some k =>
      match __deployment_agents s !! k with
      | None => Some k
      | Some _ => None
      end
  | None => None
  end.

(** The paths through [__deploy_contract], one after the other: the
    dependency is missing; the user does not confirm arming; the deployer
    is disqualified; the user does not confirm deploying; [deploy()]
    raises; the contract is deployed and its agent registered. *)
Definition unit_run `{Collaborators} (force : bool) (cls : DeployerClass) (up : bool)
    (name : string) (dep : option string) (s : State)
  : (Exn + (Transactions * Agent)) * State :=
  match missing_dependency dep s with
  | Some k => (inl (KeyError k), s)
  | None =>
      let d := deployer_built cls up dep s in
      let s1 := record (Construct d)
                  (if up then with_cursor (cursor s + 32)%nat s else s) in
      let q1 := "Arm " +:+ __name__ cls +:+ "?" in
      if negb (agreed force s1) then (inl Abort, asked force q1 s1)
      else
        let s2 := record (Arm d) (asked force q1 s1) in
        if negb (arm_outcome d).1
        then (inl Abort,
              record (Echo ("Failed to arm " +:+ _contract_name cls
                            +:+ ". Disqualifications: "
                            +:+ join ", " (arm_outcome d).2)) s2)
        else
          let q2 := "Deploy " +:+ _contract_name cls +:+ "?" in
          if negb (agreed force s2) then (inl Abort, asked force q2 s2)
          else
            let s3 := record (Deploy d) (asked force q2 s2) in
            match deploy_outcome d with
            | inl e => (inl e, s3)
            | inr txs =>
                (inr (txs, agent_of d),
                 with_deployment_agents
                   (<[name := agent_of d]> (__deployment_agents s))
                   (record (MakeAgent d)
                      (with_deployment_transactions
                         (dict_set (_contract_name cls) txs
                            (__deployment_transactions s)) s3)))
            end
  end.

(** ** Commands that stay within a relation

    [sat R c]: from every state, [c] ends in a state related to it by [R],
    whether it returns or raises. For a preorder [R] this goes through
    sequencing, loops and [finally]. *)
Definition sat {A} (R : State → State → Prop) (c : M A) : Prop :=
  ∀ s, R s (c s).2.

(** The events added are all in [P]. *)
Definition extends (P : Event → Prop) (s s' : State) : Prop :=
  ∃ new, trace s' = trace s ++ new ∧ Forall P new.

(** The component [f] of the state is unchanged. *)
Definition keeps {B} (f : State → B) (s s' : State) : Prop := f s' = f s.

Definition both (R1 R2 : State → State → Prop) (s s' : State) : Prop :=
  R1 s s' ∧ R2 s s'.

(** Events that are not calls on a deployer. *)
Definition quiet (e : Event) : Prop := is_deployer_call e = false.

(** The order in which the deploy-all path calls three deployers. *)
Definition chain_calls (token escrow policy : Deployer) : list Event :=
  unit_calls token ++ unit_calls escrow ++ unit_calls policy.

(** What the banner and the closing questions of [deploy] leave alone:
    they call no deployer and keep both dictionaries. *)
Definition closing : State → State → Prop :=
  both (extends quiet)
    (both (keeps __deployment_agents) (keeps __deployment_transactions)).

(** The deployer address [__get_deployers] settles on. *)
Definition resolved_address (a : option string) (first : string) : string :=
  match a with
  | Some x => if truthy x then x else first
  | None => first
  end.

(** The state in which [deploy] reaches its contracts, from a state [s] of
    a deployer who is not asked to compile, whose node answers with the
    accounts [accts] and who confirms; [cs] are the answers still pending. *)
Definition contracts_reached `{Collaborators} (a : option string) (first : string)
    (rest : list string) (cs : list bool) (s : State) : State :=
  let addr := resolved_address a first in
  let s0 :=
    with_deployment_agents ∅
      (with_deployment_transactions []
         (with_confirms cs
            (record (Confirm "Continue?")
               (with_deployer_address addr
                  (with_accounts (first :: rest) (record Connect s)))))) in
  record (Echo ("-----------------------------------------------" +:+ nl))
    (record (Echo ("Deployer's Address ........ " +:+ addr))
       (record (Echo ("Registry Output Filepath .. " +:+ registry_filepath))
          (record (Echo ("Blockchain Provider URI ... " +:+ provider_uri s))
             (record (Echo ("Available Deployers: "
                            +:+ join ", " (dict_keys deployers_table)))
                (record (Echo (nl +:+ "-----------------------------------------------"))
                   s0))))).

(** Two states that differ at most in the confirmations asked and
    answered. *)
Definition alike (s1 s2 : State) : Prop :=
  unprompted (trace s1) = unprompted (trace s2)
  ∧ prompts s1 = prompts s2
  ∧ entropy s1 = entropy s2
  ∧ cursor s1 = cursor s2
  ∧ deployer_address s1 = deployer_address s2
  ∧ __deployment_transactions s1 = __deployment_transactions s2
  ∧ __deployment_agents s1 = __deployment_agents s2.

(** A run without [--force] that ended at a confirmation the user did not
    give, next to the run with [--force]. *)
Definition declined {A} (asked_confirmations : nat) (s : State)
    (nf f : (Exn + A) * State) : Prop :=
  nf.1 = inl Abort
  ∧ (∃ q, last (trace nf.2) = Some (Confirm q))
  ∧ unprompted (trace nf.2) `prefix_of` unprompted (trace f.2)
  ∧ ∃ n, (n < asked_confirmations)%nat ∧ confirms s !! n ≠ Some true.

(** ** The arming of a deployer, as specified *)

(** Modelled from the spec: the secret commitment of an upgradeable unit
    and the [arm] method of a deployer. The deployer classes are defined in
    [nucypher.blockchain.eth.deployers], which [cli/main.py] only imports.
    A commitment is a secret paired with its confirmation; it is valid when
    both are 32 bytes long and equal. *)
Record SecretCommitment := mkCommitment {
  secret : list byte;
  confirmation : list byte
}.

Definition commitment_valid (c : SecretCommitment) : bool :=
  bool_decide (length (secret c) = 32%nat)
  && bool_decide (length (confirmation c) = 32%nat)
  && bool_decide (secret c = confirmation c).

(** Modelled from the spec: what [arm] is given: whether the deployer
    address is set, whether the unit is upgradeable and with which
    commitment, and whether the unit depends on another one, with the agent
    of that unit when the registry holds it. *)
Record ArmInput := mkArmInput {
  address_set : bool;
  arm_upgradeable : bool;
  commitment : option SecretCommitment;
  depends_on : option (option Agent)
}.

(** Modelled from the spec: [arm] checks its three preconditions in
    order, each one that is violated adds a disqualification, and the
    deployer is armed when there is none. The wording of the two secret
    disqualifications is the one [cli/main.py] echoes. *)
Definition secret_disqualifications (c : SecretCommitment) : list string :=
  (if bool_decide (length (secret c) = 32%nat)
      && bool_decide (length (confirmation c) = 32%nat)
   then [] else ["Deployer secret must be 32 bytes."])
  ++ (if bool_decide (secret c = confirmation c)
      then [] else ["Secrets did not match"]).

Definition arm_spec (i : ArmInput) : bool * list string :=
  let disqualifications :=
    (if address_set i then [] else ["Deployer address is not set"])
    ++ (if arm_upgradeable i
        then match commitment i with
             | None => ["No deployer secret was supplied"]
             | Some c => secret_disqualifications c
             end
        else [])
    ++ (match depends_on i with
        | Some None => ["The agent of the dependency is not in the registry"]
        | _ => []
        end) in
  (bool_decide (disqualifications = []), disqualifications).

(** Modelled from the spec: what the [arm] of the specification is given
    when it is called on a deployer that [__deploy_contract] has built. The
    address and the agent of the dependency are the keyword arguments of
    lines 820-824, whether the unit is upgradeable and what it depends on is
    its entry in the table of [__get_deployers], and the commitment is the
    secret of line 843 paired with itself: [__collect_secret] hands over the
    secret alone, after the comparison with its copy of line 831. *)
Definition arm_input (d : Deployer) : ArmInput :=
  let info := dict_get (_contract_name (deployer_class_of d)) deployers_table in
  {| address_set :=
       match init_args d !! "deployer_address" with
       | Some (AAddress a) => truthy a
       | _ => false
       end;
     arm_upgradeable := from_option upgradeable false info;
     commitment :=
       match init_args d !! "secret_hash" with
       | Some (ASecret x) => Some (mkCommitment x x)
       | _ => None
       end;
     depends_on :=
       match info ≫= dependant with
       | Some k =>
           Some (match init_args d !! k with
                 | Some (AAgent ag) => Some ag
                 | _ => None
                 end)
       | None => None
       end |}.

(** The reference world, with deployers that arm as specified. *)
Definition specified_world : Collaborators :=
  world_with (λ d, arm_spec (arm_input d))
    (@deploy_outcome reference_world) (@spawn_outcome reference_world) None.

(** A MinerEscrow deployer that was given a secret of 31 bytes. *)
Definition short_secret_deployer : Deployer :=
  mkDeployer MinerEscrowDeployer
    (<["secret_hash" := ASecret (replicate 31 x00)]>
       (<["token_agent" := AAgent (AgentRef 1)]>
          (<["deployer_address" := AAddress "0xA"]>
             (<["blockchain" := ABlockchain]> ∅)))).

(** ** Observations on a simulation *)

(** The argument vector and the address of a [reactor.spawnProcess] call. *)
Definition spawn_of (e : Event) : option (list string * string) :=
  match e with
  | SpawnProcess _ args checksum_address => Some (args, checksum_address)
  | _ => None
  end.

(** The processes a run tried to spawn, in order. *)
Definition spawns (t : list Event) : list (list string * string) := omap spawn_of t.

(** Events other than a [reactor.spawnProcess] call. *)
Definition calm (e : Event) : Prop := spawn_of e = None.

(** The calls of the teardown: [os.kill] and [os.remove]. *)
Definition is_teardown (e : Event) : bool :=
  match e with
  | Kill _ _ | Remove _ => true
  | _ => false
  end.

Definition teardown_calls (t : list Event) : list Event :=
  filter (λ e, is_teardown e = true) t.

(** The state after the further events [es]. *)
Definition recorded (es : list Event) (s : State) : State :=
  mkState (confirms s) (prompts s) (entropy s) (cursor s) (rng s) (next_obj s)
    (deployer_flag s) (federated_only s) (compile_flag s) (provider_uri s)
    (accounts s) (deployer_address s) (sim_processes s)
    (__deployment_transactions s) (__deployment_agents s) (trace s ++ es).

(** The executable of a simulated node. *)
Definition cli_exec `{Collaborators} : string :=
  path_join (path_join BASE_DIR "cli") "main.py".

(** The part of an argument vector that [ursula_params] contributes. *)
Definition worker_params (port : Z) : list string :=
  ["ursula"; "run"; "--rest-port"; pretty port; "--db-name"; "sim-" +:+ pretty port].

(** The spawn [spawn] is the one of the node [(port, address)]: it carries
    the address of the node and runs it on the port, with the database of
    that port. *)
Definition worker_of (node : Z * string) (spawn : list string * string) : Prop :=
  spawn.2 = node.2
  ∧ ∃ pre post, spawn.1 = pre ++ worker_params node.1 ++ post.

(** What the finally block of [simulate start] does for the processes
    [ps] in federated mode. *)
Definition teardown_events (ps : list Process) : list Event :=
  [Echo "Stopping simulated Ursula processes"]
  ++ flat_map (λ p, [Kill (pid p) 9; Echo ("Killed " +:+ process_text p)]) ps
  ++ [Echo "Simulation Stopped"].

(** The reference world, except that spawning the node whose argument
    vector mentions [port] raises [e]. *)
Definition failing_at (port : string) (e : Exn) : Collaborators :=
  world_with (@arm_outcome reference_world) (@deploy_outcome reference_world)
    (λ args, if bool_decide (port ∈ args) then inl e else inr 4242) None.

(** A word of [str.split()]: not empty and free of white space. *)
Fixpoint no_space (w : string) : bool :=
  match w with
  | EmptyString => true
  | String c w' => negb (is_space c) && no_space w'
  end.

Definition is_word (w : string) : Prop := w ≠ "" ∧ no_space w = true.

(** [c] never returns: from every state it ends in an exception. *)
Definition fails {A} (c : M A) : Prop := ∀ s, ∃ e, (c s).1 = inl e.

(** What [simulate start] leaves alone before its swarm loop: it spawns
    nothing and stays in its mode. *)
Definition preparing : State → State → Prop :=
  both (extends calm) (keeps federated_only).

(** The chain is set up without touching the tracked processes. *)
Definition bootstrapping : State → State → Prop :=
  both preparing (keeps sim_processes).

(** ** The parts of [simulate start] *)

Section SimulateParts.
Context `{Collaborators}.

(** Lines 584-587: the backend flags. *)
Definition select_backend (geth pyevm : bool) : M unit :=
  if geth then set_provider_uri "ipc:///tmp/geth.ipc"
  else if pyevm then set_provider_uri "tester://pyevm"
  else mret tt.

(** The deployers of lines 628-645. *)
Definition sim_token_deployer (origin : string) : Deployer :=
  mkDeployer NucypherTokenDeployer
    (<["deployer_address" := AAddress origin]> (<["blockchain" := ABlockchain]> ∅)).

Definition sim_escrow_deployer (origin : string) (secret : list byte)
    (token_agent : Agent) : Deployer :=
  mkDeployer MinerEscrowDeployer
    (<["secret_hash" := ASecret secret]>
       (<["deployer_address" := AAddress origin]>
          (<["token_agent" := AAgent token_agent]> ∅))).

Definition sim_policy_deployer (origin : string) (secret : list byte)
    (miner_agent : Agent) : Deployer :=
  mkDeployer PolicyManagerDeployer
    (<["secret_hash" := ASecret secret]>
       (<["deployer_address" := AAddress origin]>
          (<["miner_agent" := AAgent miner_agent]> ∅))).

(** Lines 596-649: the chain of the simulation and its contracts, once
    the backend [sim_provider_uri] has passed the check. *)
Definition bootstrap_contracts (nodes : Z) (sim_provider_uri : string)
    : M (list string * string) :=
  external "TemporaryEthereumContractRegistry";;
  external "BlockchainDeployerInterface";;
  external "TesterBlockchain";;
  '(origin, everyone_else) ← unpack_origin (tester_accounts nodes);
  set_deployer_address origin;;
  external "ether_airdrop";;
  click_confirm ("Deploy all nucypher contracts to " +:+ sim_provider_uri +:+ "?") true;;
  click_echo "Bootstrapping simulated blockchain network";;
  let token_deployer := sim_token_deployer origin in
  emit (Construct token_deployer);;
  deployer_arm token_deployer;;
  deployer_deploy token_deployer;;
  sim_token_agent ← deployer_make_agent token_deployer;
  miners_escrow_secret ← os_urandom DISPATCHER_SECRET_LENGTH;
  let miner_escrow_deployer :=
    sim_escrow_deployer origin miners_escrow_secret sim_token_agent in
  emit (Construct miner_escrow_deployer);;
  deployer_arm miner_escrow_deployer;;
  deployer_deploy miner_escrow_deployer;;
  sim_miner_agent ← deployer_make_agent miner_escrow_deployer;
  policy_manager_secret ← os_urandom DISPATCHER_SECRET_LENGTH;
  let policy_manager_deployer :=
    sim_policy_deployer origin policy_manager_secret sim_miner_agent in
  emit (Construct policy_manager_deployer);;
  deployer_arm policy_manager_deployer;;
  deployer_deploy policy_manager_deployer;;
  deployer_make_agent policy_manager_deployer;;
  click_echo ("Airdropping tokens " +:+ pretty DEVELOPMENT_TOKEN_AIRDROP_AMOUNT
              +:+ " to " +:+ pretty (length everyone_else) +:+ " addresses");;
  external "token_airdrop";;
  click_echo "Writing filesystem registry";;
  filepath ← DEFAULT_SIMULATION_REGISTRY_FILEPATH;
  external ("registry.commit(filepath=" +:+ filepath +:+ ")");;
  mret (everyone_else, sim_provider_uri).

(** Lines 583-722: [simulate start] between the cleanup and the reactor. *)
Definition after_cleanup (nodes : Z) (geth pyevm : bool) : M unit :=
  s ← get;
  chain ← (if negb (federated_only s)
           then r ← bootstrap_chain nodes geth pyevm; mret (Some r)
           else mret None);
  click_echo "Ready to run swarm.";;
  swarm geth chain;;
  click_echo "Starting the reactor";;
  click_confirm "Start the reactor?" true;;
  mret tt.

End SimulateParts.

(** The message of the backend check. *)
Definition unsupported_backend (uri : string) : string :=
  uri +:+ " is not a supported simulation node backend. "
  +:+ "Supported URIs are ('tester://geth', 'tester://pyevm', "
  +:+ "'ipc:///tmp/geth.ipc')".

(** The reactor and the calls of the teardown. *)
Definition is_closing_call (e : Event) : bool :=
  match e with
  | Kill _ _ | Remove _ | ReactorRun => true
  | _ => false
  end.

(** Events of a simulation that has not reached its reactor. *)
Definition unattended (e : Event) : Prop := is_closing_call e = false.

(** The tracked processes are kept, in their order, and may be followed
    by more. *)
Definition tracking (s s' : State) : Prop := tracked s `prefix_of` tracked s'.

(** What [simulate start] does before its reactor runs: no call of the
    teardown, and no tracked process is dropped. *)
Definition early : State → State → Prop := both (extends unattended) tracking.

(** The lines [deploy] shows for the transactions [d]: the name of each
    contract, followed by one line per transaction. *)
Definition hash_lines (d : list (string * Transactions)) : list Event :=
  flat_map (λ '(contract_name, transactions),
    Echo contract_name
    :: ((λ '(tx_name, txhash), Echo (tx_name +:+ ":" +:+ txhash)) <$> transactions)) d.

(** ** The [ursula] command *)

(** Truth value of an option of the command line that holds a string, and
    of one that holds an integer: absent, empty and zero are false. *)
Definition given (option : option string) : bool :=
  match option with
  | Some value => truthy value
  | None => false
  end.

Definition nonzero (option : option Z) : bool :=
  match option with
  | Some value => bool_decide (value ≠ 0)
  | None => false
  end.

(** An optional integer, as Python prints it. *)
Definition py_int (option : option Z) : string :=
  match option with
  | Some value => pretty value
  | None => "None"
  end.

Section Ursula.
Context `{Collaborators}.

(** [URSULA.stake(amount=stake_amount, lock_periods=stake_periods)] *)
Definition ursula_stake_call (stake_amount stake_periods : option Z) : string :=
  "URSULA.stake(amount=" +:+ py_int stake_amount
  +:+ ", lock_periods=" +:+ py_int stake_periods +:+ ")".

(** Lines 1029-1035: the body of the [try]. *)
Definition ursula_body (stake_amount stake_periods : option Z) : M unit :=
  click_prompt "Enter passphrase to unlock account";;
  external "ursula_config.produce";;
  s ← get;
  (if negb (federated_only s)
   then external (ursula_stake_call stake_amount stake_periods)
   else mret tt);;
  external "URSULA.get_deployer";;
  external "deployer.run".

(** Lines 1038-1040: the [finally] block. *)
Definition ursula_cleanup : M unit :=
  click_echo "Cleaning up.";;
  external "ursula_config.cleanup";;
  click_echo "Exited gracefully.".

(** Lines 1002-1040. The options that only reach the constructor of
    [UrsulaConfiguration] are not parameters: the constructor is a
    collaborator. *)
Definition ursula (config_file : option string) (action : string)
    (stake_amount stake_periods : option Z) (resume : bool) : M unit :=
  if bool_decide (action = "run")
  then
    s ← get;
    (if negb (federated_only s)
     then
       if negb (nonzero stake_amount && nonzero stake_periods) && negb resume
       then
         click_echo ("Either --stake-amount and --stake-periods options "
                     +:+ "or the --resume flag is required to run a non-federated Ursula");;
         raise Abort
       else mret tt
     else mret tt);;
    (if given config_file
     then external "UrsulaConfiguration.from_configuration_file"
     else external "UrsulaConfiguration");;
    try_finally (ursula_body stake_amount stake_periods) ursula_cleanup
  else mret tt.

End Ursula.

(** ** The payload of the [status] command *)

(** Lines 955-965 of [status]: what is echoed of the two payloads, for the
    flags [--contracts] and [--network]. *)
Definition status_payload (contracts network : bool)
    (contract_payload network_payload : string) : string :=
  let subpayloads := [(contracts, contract_payload); (network, network_payload)] in
  if negb (existsb fst subpayloads)
  then join "" (snd <$> subpayloads)
  else foldl (λ payload '(requested, subpayload),
                if requested : bool then payload +:+ subpayload else payload)
         "" subpayloads.

(** * The commands that manage a node

    [configure] and [stake] raise exceptions of their own and read integers
    from the user; both run on top of the state of the other commands. *)

(** What can leave these commands: an exception of the kind the other
    commands raise, or one of three built-in exceptions. *)
Inductive Failure :=
| Core (e : Exn)
| UnboundLocalError (name : string)
| NotImplementedError
| RuntimeError (msg : string).

Record Session := mkSession {
  core : State;
  (** the integers the user will enter at successive
      [click.prompt(..., type=int)] calls *)
  numbers : list Z
}.

Definition NodeM (A : Type) : Type := Session → (Failure + A) * Session.

Definition n_ret {A} (a : A) : NodeM A := λ ss, (inr a, ss).
Definition n_raise {A} (f : Failure) : NodeM A := λ ss, (inl f, ss).
Definition n_bind {A B} (m : NodeM A) (k : A → NodeM B) : NodeM B :=
  λ ss, match m ss with
        | (inr a, ss') => k a ss'
        | (inl f, ss') => (inl f, ss')
        end.

#[export] Instance NodeM_ret : MRet NodeM := @n_ret.
#[export] Instance NodeM_bind : MBind NodeM := λ A B k m, n_bind m k.

(** A command of the other kind, run on the state within. *)
Definition lift {A} (m : M A) : NodeM A :=
  λ ss, match m (core ss) with
        | (inr a, s') => (inr a, mkSession s' (numbers ss))
        | (inl e, s') => (inl (Core e), mkSession s' (numbers ss))
        end.

(** [try: body finally: handler] *)
Definition n_try_finally {A} (body : NodeM A) (handler : NodeM unit) : NodeM A :=
  λ ss, match body ss with
        | (r, ss') =>
            match handler ss' with
            | (inr _, ss'') => (r, ss'')
            | (inl f, ss'') => (inl f, ss'')
            end
        end.

Fixpoint n_for_each {A} (xs : list A) (body : A → NodeM unit) : NodeM unit :=
  match xs with
  | [] => mret tt
  | x :: xs' => body x;; n_for_each xs' body
  end.

(** [click.prompt(text, type=int)]: shows the question and reads an
    integer; end of input raises [Abort]. *)
Definition read_number : NodeM Z :=
  λ ss, match numbers ss with
        | [] => (inl (Core Abort), ss)
        | value :: rest => (inr value, mkSession (core ss) rest)
        end.

Definition click_prompt_int (text : string) : NodeM Z :=
  lift (emit (Prompt text));;
  read_number.

(** [click.prompt(text, default=default)]: an empty answer stands for the
    default. *)
Definition click_prompt_default (text default : string) : NodeM string :=
  value ← lift (click_prompt text);
  mret (if bool_decide (value = "") then default else value).

(** [os.path.join(a, b)] *)
Definition os_path_join (a b : string) : string :=
  match b with
  | String "/" _ => b
  | _ => path_join a b
  end.

(** [l[i]] for a Python list: a negative index counts from the end. *)
Definition py_index {A} (l : list A) (i : Z) : option A :=
  if bool_decide (0 <= i)%Z then l !! Z.to_nat i
  else if bool_decide (- Z.of_nat (length l) <= i)%Z
       then l !! Z.to_nat (Z.of_nat (length l) + i)
       else None.

(** Which constructor built [config.node_configuration]. *)
Inductive NodeSource :=
| FromRoot (config_root : string)
| Temporary
| FromFile (filepath : string)
| Default.

(** How a check of the configuration ends: with its answer, with
    [NodeConfiguration.InvalidConfiguration], or with another exception. *)
Inductive Verdict :=
| Answers (is_valid : bool)
| InvalidConfiguration
| Breaks (e : Exn).

(** The collaborators of these commands. *)
Class NodeCollaborators := {
  (** attributes of a node configuration *)
  config_root_of : NodeSource → string;
  keyring_dir_of : NodeSource → string;
  known_certificates_dir_of : NodeSource → string;
  config_file_location_of : NodeSource → string;
  (** [NodeConfiguration.check_config_tree_exists(config_root=...)] *)
  check_config_tree_exists : string → Verdict;
  (** [validate_configuration_file(filepath=...)] *)
  validate_configuration_file : string → Verdict;
  (** [str.strip().lower()] *)
  strip_lower : string → string;
  (** [generate_local_wallet(passphrase, keyring_root).transacting_public_key] *)
  generate_local_wallet : string → string → Exn + string;
  (** [generate_account(w3, passphrase)] *)
  generate_account : string → Exn + string;
  (** [miner_agent.get_all_stakes(miner_address=...)], each stake as it is
      printed *)
  get_all_stakes : string → Exn + list string;
  (** [token_agent.get_balance(address=...)] *)
  get_balance : string → Exn + Z;
  (** [miner_agent.get_current_period()] *)
  get_current_period : Exn + Z;
  (** the text of [constants.MIN_LOCKED_PERIODS] and of
      [constants.MAX_REWARD_PERIODS] in a message *)
  min_locked_periods_text : string;
  max_reward_periods_text : string;
  (** [eth_utils.is_checksum_address] *)
  is_checksum_address : string → bool;
  (** [w3.eth.coinbase] and [w3.eth.etherbase] *)
  coinbase : string;
  etherbase : string;
  (** [w3.eth.getBalance(address)] *)
  eth_balance : string → Exn + Z;
  (** [token_agent.transfer(amount, target_address, sender_address)]: the
      transaction hash, as it is printed *)
  token_transfer : Z → string → string → Exn + string;
  (** [w3.eth.sendTransaction({'to': ..., 'from': ..., 'value': ...})] *)
  send_transaction : string → string → Z → Exn + string
}.

Section NodeCommands.
Context `{Collaborators} `{NodeCollaborators}.

Definition echo (text : string) : NodeM unit := lift (click_echo text).
Definition confirm (text : string) (abort : bool) : NodeM bool :=
  lift (click_confirm text abort).
Definition prompt (text : string) : NodeM string := lift (click_prompt text).

(** A call of a collaborator that returns nothing. *)
Definition call (name : string) : NodeM unit := lift (external name).

(** A call of a collaborator that returns a value or raises. *)
Definition call_for {A} (name : string) (outcome : Exn + A) : NodeM A :=
  lift (emit (External name));;
  match outcome with
  | inl e => n_raise (Core e)
  | inr value => mret value
  end.

(** ** [NucypherClickConfig.get_node_configuration] *)
Definition get_node_configuration (dev : bool) (config_root config_file : option string)
    : NodeM NodeSource :=
  if given config_root
  then call "NodeConfiguration";; mret (FromRoot (default "" config_root))
  else if dev
  then call "NodeConfiguration";; mret Temporary
  else if given config_file
  then
    echo ("Using configuration file at: " +:+ default "" config_file);;
    call "NodeConfiguration.from_configuration_file";;
    mret (FromFile (default "" config_file))
  else call "NodeConfiguration";; mret Default.

(** ** [NucypherClickConfig.create_account] *)
Definition create_account (node_configuration : NodeSource) : NodeM string :=
  answer ← click_prompt_default "Create a new Hosted or Local account?" "hosted";
  let choice := strip_lower answer in
  if bool_decide (choice ∉ ["hosted"; "local"])
  then echo "Invalid Input";; n_raise (Core Abort)
  else
    passphrase ← prompt "Enter a passphrase to encrypt your wallet's private key";
    passphrase_confirmation ←
      prompt "Confirm passphrase to encrypt your wallet's private key";
    if bool_decide (passphrase ≠ passphrase_confirmation)
    then echo "Passphrases did not match";; n_raise (Core Abort)
    else if bool_decide (choice = "local")
    then call_for "generate_local_wallet"
           (generate_local_wallet passphrase (keyring_dir_of node_configuration))
    else if bool_decide (choice = "hosted")
    then call_for "generate_account" (generate_account passphrase)
    else n_raise (Core Abort).

(** ** [NucypherClickConfig.create_node_tls_certificate] *)
Definition create_node_tls_certificate (node_configuration : NodeSource)
    (common_name full_filepath : string) : NodeM unit :=
  days ← click_prompt_int
           "How many days do you want the certificate to remain valid? (365 is default)";
  host ← click_prompt_default "Enter the node's hostname" "localhost";
  call ("generate_self_signed_certificate(common_name=" +:+ common_name
        +:+ ", host=" +:+ host +:+ ", days_valid=" +:+ pretty days +:+ ")");;
  let certificate_filepath :=
    os_path_join (known_certificates_dir_of node_configuration) full_filepath in
  call ("_save_tls_certificate(full_filepath=" +:+ certificate_filepath +:+ ")").

(** ** The [configure] command *)

(** [address], a local variable of [__initialize] that may not be bound. *)
Definition read_local (name : string) (value : option string) : NodeM string :=
  match value with
  | Some v => mret v
  | None => n_raise (UnboundLocalError name)
  end.

Definition __initialize (dev : bool) (configuration : NodeSource) : NodeM unit :=
  (if dev then echo "Using temporary storage area" else mret tt);;
  confirm "Initialize new nucypher configuration?" true;;
  call "configuration.write_defaults";;
  echo ("Created configuration files at " +:+ config_root_of configuration);;
  wallet ← confirm "Do you need to generate a new wallet to use for staking?" false;
  address ← (if wallet : bool
             then a ← create_account configuration; mret (Some a)
             else mret None);
  certificate ← confirm "Do you need to generate a new SSL certificate (Ursula)?" false;
  if certificate : bool
  then
    a ← read_local "address" address;
    let certificate_filepath :=
      os_path_join (known_certificates_dir_of configuration) (a +:+ ".pem") in
    create_node_tls_certificate configuration a certificate_filepath
  else mret tt.

(** The [try] block of [__validate]: the verdict so far, and the exception
    that leaves the block, if any. *)
Definition validation (filesystem : bool) (config_file : option string)
    (configuration : NodeSource) : bool * option Exn :=
  let first :=
    if filesystem
    then check_config_tree_exists (config_root_of configuration)
    else Answers true in
  match first with
  | InvalidConfiguration => (false, None)
  | Breaks e => (true, Some e)
  | Answers is_valid =>
      if given config_file
      then match validate_configuration_file (config_file_location_of configuration) with
           | InvalidConfiguration => (false, None)
           | Breaks e => (is_valid, Some e)
           | Answers is_valid' => (is_valid', None)
           end
      else (is_valid, None)
  end.

Definition __validate (filesystem : bool) (config_file : option string)
    (configuration : NodeSource) : NodeM unit :=
  let '(is_valid, raised) := validation filesystem config_file configuration in
  let result := if is_valid : bool then "Valid" else "Invalid" in
  echo (config_root_of configuration +:+ " is " +:+ result);;
  match raised with
  | Some e => n_raise (Core e)
  | None => mret tt
  end.

Definition __destroy (dev : bool) (configuration : NodeSource) : NodeM unit :=
  if dev
  then n_raise (Core (ConfigurationError "Cannot destroy a temporary node configuration"))
  else
    confirm ("*Permanently delete* all nucypher private keys, configurations,"
             +:+ " known nodes, certificates and files at "
             +:+ config_root_of configuration +:+ "?") true;;
    lift (emit (External ("shutil.rmtree(" +:+ config_root_of configuration
                          +:+ ", ignore_errors=True)")));;
    echo ("Deleted configuration files at " +:+ config_root_of configuration).

(** Lines 292-300: the action switch. *)
Definition configure_switch (dev : bool) (config_file : option string)
    (action : string) (filesystem : bool) (node_configuration : NodeSource) : NodeM unit :=
  if bool_decide (action = "init") then __initialize dev node_configuration
  else if bool_decide (action = "destroy") then __destroy dev node_configuration
  else if bool_decide (action = "reset")
  then __destroy dev node_configuration;; __initialize dev node_configuration
  else if bool_decide (action = "validate")
  then __validate filesystem config_file node_configuration
  else mret tt.

Definition configure (dev : bool) (config_root config_file : option string)
    (action : string) (filesystem : bool) : NodeM unit :=
  node_configuration ← get_node_configuration dev config_root config_file;
  configure_switch dev config_file action filesystem node_configuration.

End NodeCommands.

(** ** The [stake] command *)

Section StakeCommand.
Context `{Collaborators} `{NodeCollaborators}.

Definition n_get : NodeM Session := λ ss, (inr ss, ss).

(** Lines 491 and 498: the node of a stake is spawned. *)
Definition spawn_run_ursula : NodeM unit :=
  call "reactor.spawnProcess(nucypher-cli, ['run_ursula'])".

(** Lines 427-432: the rows of the accounts. *)
Definition account_row (row : Z * string) : string :=
  let '(index, address) := row in
  if bool_decide (index = 0)
  then "etherbase (0) | " +:+ address
  else pretty index +:+ " .......... | " +:+ address.

(** Lines 425-436: the account of the stake. The result is what the local
    variables [address] and [index] hold afterwards; [None] is a variable
    that is not bound, or an option that was not given. The loop over the
    accounts uses both variables for its rows. *)
Definition select_account (checksum_address : option string) (index : option Z)
    : NodeM (option string * option Z) :=
  if negb (given checksum_address)
  then
    ss ← n_get;
    let rows := enumerate (accounts (core ss)) 0 in
    n_for_each rows (λ row, echo (account_row row));;
    let index := match last rows with
                 | Some (i, _) => Some i
                 | None => index
                 end in
    echo "Select ethereum address";;
    account_selection ←
      click_prompt_int ("Enter 0-" +:+ pretty (length (accounts (core ss))));
    match py_index (accounts (core ss)) account_selection with
    | Some address => mret (Some address, index)
    | None => n_raise (Core IndexError)
    end
  else mret (None, index).

Definition staged_stake (address : string) (value duration start_period end_period : Z)
    : string :=
  nl +:+ "        " +:+ nl
  +:+ "        | Staged Stake |" +:+ nl
  +:+ "        " +:+ nl
  +:+ "        Node: " +:+ address +:+ nl
  +:+ "        Value: " +:+ pretty value +:+ nl
  +:+ "        Duration: " +:+ pretty duration +:+ nl
  +:+ "        Start Period: " +:+ pretty start_period +:+ nl
  +:+ "        End Period: " +:+ pretty end_period +:+ nl
  +:+ "        " +:+ nl
  +:+ "        ".

Definition divided_stake (stake : string) (target_value extension : Z) : string :=
  nl +:+ "        Current Stake: " +:+ stake +:+ nl
  +:+ "        " +:+ nl
  +:+ "        New target value " +:+ pretty target_value +:+ nl
  +:+ "        New end period: " +:+ pretty (target_value + extension) +:+ nl
  +:+ "        " +:+ nl
  +:+ "        ".

Definition stakes_of (miner_address : string) : NodeM (list string) :=
  call_for ("miner_agent.get_all_stakes(miner_address=" +:+ miner_address +:+ ")")
    (get_all_stakes miner_address).

(** Lines 444-491. *)
Definition stake_init (address : option string) : NodeM unit :=
  confirm "Stage a new stake?" true;;
  a ← read_local "address" address;
  live_stakes ← stakes_of a;
  if bool_decide (0 < length live_stakes)%nat
  then n_raise (RuntimeError ("There is an existing stake for " +:+ a))
  else
    (* Value *)
    balance ← call_for ("token_agent.get_balance(address=" +:+ a +:+ ")") (get_balance a);
    echo ("Current balance: " +:+ pretty balance);;
    value ← click_prompt_int "Enter stake value";
    (* Duration *)
    echo ("Minimum duration: " +:+ min_locked_periods_text
          +:+ " | Maximum Duration: " +:+ max_reward_periods_text);;
    duration ← click_prompt_int "Enter stake duration in days";
    start_period ← call_for "miner_agent.get_current_period()" get_current_period;
    let end_period := start_period + duration in
    (* Review *)
    echo (staged_stake a value duration start_period end_period);;
    correct ← confirm "Is this correct?" false;
    if negb correct
    then n_raise NotImplementedError
    else
      (* Initialize the staged stake *)
      call ("miner_agent.deposit_tokens(amount=" +:+ pretty value
            +:+ ", lock_periods=" +:+ pretty duration
            +:+ ", sender_address=" +:+ a +:+ ")");;
      spawn_run_ursula.

(** Lines 500-506. *)
Definition stake_confirm_activity (address : option string) : NodeM unit :=
  a ← read_local "address" address;
  stakes ← stakes_of a;
  if bool_decide (length stakes = 0%nat)
  then n_raise (RuntimeError ("There are no active stakes for " +:+ a))
  else call ("miner_agent.confirm_activity(node_address=" +:+ a +:+ ")").

(** Lines 508-537. *)
Definition stake_divide (address : option string) (index value : option Z) : NodeM unit :=
  a ← read_local "address" address;
  stakes ← stakes_of a;
  if bool_decide (length stakes = 0%nat)
  then n_raise (RuntimeError ("There are no active stakes for " +:+ a))
  else
    index ← (if negb (nonzero index)
             then
               n_for_each (enumerate stakes 0) (λ '(selection_index, stake_info),
                 echo (pretty selection_index +:+ " ....... " +:+ stake_info));;
               click_prompt_int "Select a stake to divide"
             else mret (default 0 index));
    target_value ← click_prompt_int "Enter new target value";
    extension ← click_prompt_int "Enter number of periods to extend";
    match py_index stakes index with
    | None => n_raise (Core IndexError)
    | Some stake =>
        echo (divided_stake stake target_value extension);;
        confirm "Is this correct?" true;;
        call ("miner_agent.divide_stake(miner_address=" +:+ a
              +:+ ", stake_index=" +:+ pretty index
              +:+ ", value=" +:+ py_int value
              +:+ ", periods=" +:+ pretty extension +:+ ")")
    end.

(** Lines 425-548: [stake], once the node is connected and
    [config.accounts] holds its accounts. *)
Definition stake (action : string) (checksum_address : option string)
    (index value duration : option Z) : NodeM unit :=
  '(address, index) ← select_account checksum_address index;
  if bool_decide (action = "list")
  then
    a ← read_local "address" address;
    live_stakes ← stakes_of a;
    n_for_each (enumerate live_stakes 0) (λ '(index, stake_info),
      echo (pretty index +:+ " | " +:+ stake_info))
  else if bool_decide (action = "init") then stake_init address
  else if bool_decide (action = "resume") then spawn_run_ursula
  else if bool_decide (action = "confirm-activity") then stake_confirm_activity address
  else if bool_decide (action = "divide") then stake_divide address index value
  else if bool_decide (action = "collect-reward") then n_raise NotImplementedError
  else if bool_decide (action = "abort")
  then
    confirm "Are you sure you want to abort the staking process?" true;;
    n_raise NotImplementedError
  else mret tt.

End StakeCommand.

(** ** The [accounts] command *)

Section AccountsCommand.
Context `{Collaborators} `{NodeCollaborators}.

(** Lines 322-328. *)
Definition __collect_transfer_details (denomination : string) : NodeM (string * Z) :=
  destination ← prompt "Enter destination checksum_address";
  if negb (is_checksum_address destination)
  then
    echo (destination +:+ " is not a valid checksum checksum_address");;
    n_raise (Core Abort)
  else
    amount ← click_prompt_int ("Enter amount of " +:+ denomination +:+ " to transfer");
    mret (destination, amount).

(** Lines 351-357: one row of [accounts list]. *)
Definition balance_row (index : Z) (address : string) (tokens eth : Z) : string :=
  let base_row :=
    " " +:+ address +:+ nl +:+ "    Tokens: " +:+ pretty tokens +:+ nl
    +:+ "    ETH: " +:+ pretty eth +:+ nl +:+ " " in
  if bool_decide (index = 0)
  then nl +:+ "etherbase |" +:+ base_row
  else pretty index +:+ " ....... |" +:+ base_row.

(** [w3.eth.defaultAccount = address], and the message that follows. *)
Definition set_default_account (address : string) : NodeM unit :=
  lift (emit (External ("w3.eth.defaultAccount = " +:+ address)));;
  echo (address +:+ " is now the node's default account.").

(** Lines 318-380: [accounts] on a node that is not federated, once it is
    connected to the ledger and to its contracts. *)
Definition accounts_connected (node_configuration : NodeSource) (action : string)
    (checksum_address : option string) : NodeM unit :=
  checksum_address ←
    (if negb (given checksum_address)
     then
       echo ("WARNING: No checksum address specified - "
             +:+ "Using the node's default account.");;
       mret coinbase
     else mret (default "" checksum_address));
  ss ← n_get;
  (if bool_decide (action = "new")
   then
     new_address ← create_account node_configuration;
     echo ("Created new ETH address " +:+ new_address);;
     set_default ← confirm "Set new address as the node's keying default account?" false;
     if set_default : bool then set_default_account new_address else mret tt
   else mret tt);;
  if bool_decide (action = "set-default")
  then set_default_account checksum_address
  else if bool_decide (action = "export")
  then
    call ("NucypherKeyring(common_name=" +:+ checksum_address +:+ ")");;
    confirm ("Export local private key for " +:+ checksum_address
             +:+ " to node's keyring: " +:+ provider_uri (core ss) +:+ "?") true;;
    prompt "Enter passphrase to decrypt account";;
    call "keyring._export"
  else if bool_decide (action = "list")
  then
    n_for_each (enumerate (accounts (core ss)) 0) (λ '(index, checksum_address),
      token_balance ←
        call_for ("token_agent.get_balance(address=" +:+ checksum_address +:+ ")")
          (get_balance checksum_address);
      eth ← call_for ("w3.eth.getBalance(" +:+ checksum_address +:+ ")")
              (eth_balance checksum_address);
      echo (balance_row index checksum_address token_balance eth))
  else if bool_decide (action = "balance")
  then
    checksum_address ←
      (if negb (truthy checksum_address)
       then
         echo ("No checksum_address supplied, Using the default " +:+ etherbase);;
         mret etherbase
       else mret checksum_address);
    token_balance ←
      call_for ("token_agent.get_balance(address=" +:+ checksum_address +:+ ")")
        (get_balance checksum_address);
    eth ← call_for ("w3.eth.getBalance(" +:+ checksum_address +:+ ")")
            (eth_balance checksum_address);
    echo ("Balance of " +:+ checksum_address +:+ " | Tokens: " +:+ pretty token_balance
          +:+ " | ETH: " +:+ pretty eth)
  else if bool_decide (action = "transfer-tokens")
  then
    '(destination, amount) ← __collect_transfer_details "tokens";
    confirm ("Are you sure you want to send " +:+ pretty amount +:+ " tokens to "
             +:+ destination +:+ "?") true;;
    txhash ← call_for ("token_agent.transfer(amount=" +:+ pretty amount
                       +:+ ", target_address=" +:+ destination
                       +:+ ", sender_address=" +:+ checksum_address +:+ ")")
               (token_transfer amount destination checksum_address);
    call "blockchain.wait_for_receipt";;
    echo ("Sent " +:+ pretty amount +:+ " tokens to " +:+ destination
          +:+ " | " +:+ txhash)
  else if bool_decide (action = "transfer-eth")
  then
    '(destination, amount) ← __collect_transfer_details "ETH";
    confirm ("Are you sure you want to send " +:+ pretty amount +:+ " tokens to "
             +:+ destination +:+ "?") true;;
    txhash ← call_for ("w3.eth.sendTransaction({'to': " +:+ destination
                       +:+ ", 'from': " +:+ checksum_address
                       +:+ ", 'value': " +:+ pretty amount +:+ "})")
               (send_transaction destination checksum_address amount);
    call "blockchain.wait_for_receipt";;
    echo ("Sent " +:+ pretty amount +:+ " ETH to " +:+ destination
          +:+ " | " +:+ txhash)
  else mret tt.

End AccountsCommand.

(** ** Observations on the commands of a node *)

(** The session after the further events [es]. *)
Definition logged (es : list Event) (ss : Session) : Session :=
  mkSession (recorded es (core ss)) (numbers ss).

(** The node configuration [get_node_configuration] settles on, and the
    call that builds it. *)
Definition configuration_source (dev : bool) (config_root config_file : option string)
    : NodeSource :=
  if given config_root then FromRoot (default "" config_root)
  else if dev then Temporary
  else if given config_file then FromFile (default "" config_file)
  else Default.

Definition reads_file (dev : bool) (config_root config_file : option string) : bool :=
  negb (given config_root) && negb dev && given config_file.

Definition configuration_constructor (dev : bool) (config_root config_file : option string)
    : string :=
  if reads_file dev config_root config_file
  then "NodeConfiguration.from_configuration_file"
  else "NodeConfiguration".

Definition configuration_events (dev : bool) (config_root config_file : option string)
    : list Event :=
  (if reads_file dev config_root config_file
   then [Echo ("Using configuration file at: " +:+ default "" config_file)]
   else [])
  ++ [External (configuration_constructor dev config_root config_file)].

(** The question of [configure destroy]. *)
Definition delete_question `{NodeCollaborators} (configuration : NodeSource) : string :=
  "*Permanently delete* all nucypher private keys, configurations,"
  +:+ " known nodes, certificates and files at "
  +:+ config_root_of configuration +:+ "?".

(** What a transfer of [accounts] is made of: the name of its action,
    the denomination it asks the amount in, the call that sends it and the
    denomination of its last message. *)
Definition transfer_action (eth : bool) : string :=
  if eth then "transfer-eth" else "transfer-tokens".

Definition transfer_denomination (eth : bool) : string :=
  if eth then "ETH" else "tokens".

Definition transfer_call (eth : bool) (amount : Z) (destination sender : string)
    : string :=
  if eth
  then "w3.eth.sendTransaction({'to': " +:+ destination
       +:+ ", 'from': " +:+ sender +:+ ", 'value': " +:+ pretty amount +:+ "})"
  else "token_agent.transfer(amount=" +:+ pretty amount
       +:+ ", target_address=" +:+ destination
       +:+ ", sender_address=" +:+ sender +:+ ")".

Definition transfer_hash `{NodeCollaborators} (eth : bool) (amount : Z)
    (destination sender : string) : Exn + string :=
  if eth then send_transaction destination sender amount
  else token_transfer amount destination sender.

(** [text.strip().lower()] on ASCII text: white space is taken off both
    ends and the letters A-Z are lowered. *)
Definition lower_char (c : ascii) : ascii :=
  let n := Ascii.nat_of_ascii c in
  if bool_decide (65 ≤ n ≤ 90)%nat then Ascii.ascii_of_nat (n + 32) else c.

Fixpoint lower (text : string) : string :=
  match text with
  | EmptyString => EmptyString
  | String c text' => String (lower_char c) (lower text')
  end.

Fixpoint lstrip (text : string) : string :=
  match text with
  | EmptyString => EmptyString
  | String c text' => if is_space c then lstrip text' else text
  end.

Definition strip (text : string) : string :=
  String.rev (lstrip (String.rev (lstrip text))).

(** Collaborators of a node on which the statements are exercised: the
    configuration lives under [/home/node/.nucypher], every check answers
    yes, wallets get the address [0xNEW], and the node has no stake. *)
Definition reference_node : NodeCollaborators := {|
  config_root_of source :=
    match source with
    | FromRoot root => root
    | _ => "/home/node/.nucypher"
    end;
  keyring_dir_of _ := "/home/node/.nucypher/keyring";
  known_certificates_dir_of _ := "/home/node/.nucypher/certificates";
  config_file_location_of source :=
    match source with
    | FromFile filepath => filepath
    | _ => "/home/node/.nucypher/nucypher.config"
    end;
  check_config_tree_exists _ := Answers true;
  validate_configuration_file _ := Answers true;
  strip_lower text := lower (strip text);
  generate_local_wallet _ _ := inr "0xNEW";
  generate_account _ := inr "0xNEW";
  get_all_stakes _ := inr [];
  get_balance _ := inr 1000000;
  get_current_period := inr 100;
  min_locked_periods_text := "MIN_LOCKED_PERIODS";
  max_reward_periods_text := "MAX_REWARD_PERIODS";
  is_checksum_address address := bool_decide (String.length address = 42%nat);
  coinbase := "0xA";
  etherbase := "0xA";
  eth_balance _ := inr 5;
  token_transfer _ _ _ := inr "0xT1";
  send_transaction _ _ _ := inr "0xT2"
|}.

(** The reference node, with other answers of the two checks. *)
Definition node_checking (tree file : Verdict) : NodeCollaborators := {|
  config_root_of := @config_root_of reference_node;
  keyring_dir_of := @keyring_dir_of reference_node;
  known_certificates_dir_of := @known_certificates_dir_of reference_node;
  config_file_location_of := @config_file_location_of reference_node;
  check_config_tree_exists _ := tree;
  validate_configuration_file _ := file;
  strip_lower := @strip_lower reference_node;
  generate_local_wallet := @generate_local_wallet reference_node;
  generate_account := @generate_account reference_node;
  get_all_stakes := @get_all_stakes reference_node;
  get_balance := @get_balance reference_node;
  get_current_period := @get_current_period reference_node;
  min_locked_periods_text := @min_locked_periods_text reference_node;
  max_reward_periods_text := @max_reward_periods_text reference_node;
  is_checksum_address := @is_checksum_address reference_node;
  coinbase := @coinbase reference_node;
  etherbase := @etherbase reference_node;
  eth_balance := @eth_balance reference_node;
  token_transfer := @token_transfer reference_node;
  send_transaction := @send_transaction reference_node
|}.

(** The reference node, holding the stakes [stakes]. *)
Definition node_staking (stakes : list string) : NodeCollaborators := {|
  config_root_of := @config_root_of reference_node;
  keyring_dir_of := @keyring_dir_of reference_node;
  known_certificates_dir_of := @known_certificates_dir_of reference_node;
  config_file_location_of := @config_file_location_of reference_node;
  check_config_tree_exists := @check_config_tree_exists reference_node;
  validate_configuration_file := @validate_configuration_file reference_node;
  strip_lower := @strip_lower reference_node;
  generate_local_wallet := @generate_local_wallet reference_node;
  generate_account := @generate_account reference_node;
  get_all_stakes _ := inr stakes;
  get_balance := @get_balance reference_node;
  get_current_period := @get_current_period reference_node;
  min_locked_periods_text := @min_locked_periods_text reference_node;
  max_reward_periods_text := @max_reward_periods_text reference_node;
  is_checksum_address := @is_checksum_address reference_node;
  coinbase := @coinbase reference_node;
  etherbase := @etherbase reference_node;
  eth_balance := @eth_balance reference_node;
  token_transfer := @token_transfer reference_node;
  send_transaction := @send_transaction reference_node
|}.

(** A session in which nothing has happened yet. *)
Definition opening (cs : list bool) (ps : list string) (ns : list Z) : Session :=
  mkSession (initial cs ps) ns.

(** A session on a node that is connected, with its accounts. *)
Definition connected (node_accounts : list string) (cs : list bool)
    (ps : list string) (ns : list Z) : Session :=
  mkSession (with_accounts node_accounts (initial cs ps)) ns.

(** * Properties *)

(** ** The pre-start loop of [simulate] *)

Section Cleanup.
Context `{Collaborators}.

Lemma prestart_cleanup_step (i : nat) (s : State) :
  prestart_cleanup i s =
  match tracked s !! i with
  | None => (inr tt, s)
  | Some process =>
      match list_remove process (tracked s) with
      | None => (inl (ValueError "list.remove(x): x not in list"), s)
      | Some l' => prestart_cleanup (S i) (cleaned s l' [process])
      end
  end.
Proof.
  rewrite prestart_cleanup_equation_1.
  generalize (inspect (tracked s !! i)). intros [[process|] Hp]; simpl;
    symmetry; rewrite Hp at 1; symmetry; [|done].
  destruct (list_remove process (tracked s)); done.
Qed.

Lemma pairs_ind {A} (P : list A → Prop) :
  P [] → (∀ x, P [x]) → (∀ x y l, P l → P (x :: y :: l)) → ∀ l, P l.
Proof.
  intros Hnil Hone Hstep l.
  cut (P l ∧ ∀ x, P (x :: l)); [tauto|].
  induction l as [|y l [IH1 IH2]]; split; auto.
Qed.

Lemma evens_lookup {A} (l : list A) (j : nat) : evens l !! j = l !! (2 * j)%nat.
Proof.
  revert j. induction l as [| x | x y l IH] using pairs_ind; intros [|j]; try done.
  simpl evens. simpl lookup at 1. rewrite IH.
  replace (2 * S j)%nat with (S (S (2 * j))) by lia. done.
Qed.

Lemma odds_lookup {A} (l : list A) (j : nat) : odds l !! j = l !! (2 * j + 1)%nat.
Proof.
  revert j. induction l as [| x | x y l IH] using pairs_ind; intros [|j]; try done.
  simpl odds. simpl lookup at 1. rewrite IH.
  replace (2 * S j + 1)%nat with (S (S (2 * j + 1))) by lia. done.
Qed.

Lemma odds_length {A} (l : list A) : length (odds l) = (length l / 2)%nat.
Proof.
  induction l as [| x | x y l IH] using pairs_ind; try done.
  simpl odds. simpl length. rewrite IH.
  change (S (S (length l))) with (1 * 2 + length l)%nat.
  rewrite Nat.div_add_l by lia. lia.
Qed.

Lemma evens_length {A} (l : list A) : length (evens l) = (length l - length l / 2)%nat.
Proof.
  induction l as [| x | x y l IH] using pairs_ind; try done.
  simpl evens. simpl length. rewrite IH.
  change (S (S (length l))) with (1 * 2 + length l)%nat.
  rewrite Nat.div_add_l by lia.
  assert (length l / 2 ≤ length l)%nat by (apply Nat.Div0.div_le_upper_bound; lia).
  lia.
Qed.

Lemma evens_odds_disjoint {A} (l : list A) (x : A) :
  NoDup l → x ∈ odds l → x ∉ evens l.
Proof.
  induction l as [| y | y z l IH] using pairs_ind; intros Hnd Hin.
  - by apply elem_of_nil in Hin.
  - by apply elem_of_nil in Hin.
  - apply NoDup_cons in Hnd as [Hy [Hz Hl]%NoDup_cons].
    assert (∀ w, w ∈ odds l → w ∈ l) as Hsub_o.
    { intros w [j Hj]%list_elem_of_lookup. rewrite odds_lookup in Hj.
      by eapply list_elem_of_lookup_2. }
    assert (∀ w, w ∈ evens l → w ∈ l) as Hsub_e.
    { intros w [j Hj]%list_elem_of_lookup. rewrite evens_lookup in Hj.
      by eapply list_elem_of_lookup_2. }
    simpl in Hin |- *. change (x ∈ z :: odds l) in Hin.
    change (x ∉ y :: evens l).
    apply elem_of_cons in Hin as [->|Hin]; rewrite elem_of_cons.
    + intros [->|Hz']; [set_solver|]. apply Hz. auto.
    + intros [->|Hx']; [apply Hy; set_solver|]. by apply (IH Hl).
Qed.

Lemma list_remove_middle (kept rest : list Process) (x : Process) :
  NoDup (kept ++ x :: rest) →
  list_remove x (kept ++ x :: rest) = Some (kept ++ rest).
Proof.
  induction kept as [|y kept IH]; simpl; intros Hnd.
  - by rewrite decide_True.
  - apply NoDup_cons in Hnd as [Hy Hnd].
    rewrite decide_False by (intros ->; apply Hy; set_solver).
    by rewrite IH.
Qed.

Lemma cleaned_cleaned (s : State) (l1 l2 : list Process) (x : Process)
    (killed : list Process) :
  cleaned (cleaned s l1 [x]) l2 killed = cleaned s l2 (x :: killed).
Proof. unfold cleaned. simpl. by rewrite <- app_assoc. Qed.

Lemma cleaned_id (s : State) (l : list Process) :
  sim_processes s = Some l → cleaned s l [] = s.
Proof. destruct s. unfold cleaned. simpl. intros ->. by rewrite app_nil_r. Qed.

(** The invariant of the loop: before round [length kept] the tracked
    list is [kept ++ rest], where [kept] are the processes the iterator
    has stepped over and [rest] is what is left of the original list. *)
Lemma prestart_cleanup_from (rest kept : list Process) (s : State) :
  sim_processes s = Some (kept ++ rest) →
  NoDup (kept ++ rest) →
  prestart_cleanup (length kept) s
  = (inr tt, cleaned s (kept ++ odds rest) (evens rest)).
Proof.
  revert kept s.
  induction rest as [| x | x y rest IH] using pairs_ind; intros kept s Hs Hnd.
  - rewrite prestart_cleanup_step. unfold tracked. rewrite Hs. simpl default.
    rewrite lookup_ge_None_2 by (rewrite length_app; simpl; lia).
    simpl. by rewrite cleaned_id.
  - rewrite prestart_cleanup_step. unfold tracked at 1 2. rewrite Hs. simpl default.
    rewrite list_lookup_middle by done. rewrite list_remove_middle by done.
    rewrite prestart_cleanup_step. unfold tracked. simpl.
    rewrite lookup_ge_None_2 by (rewrite length_app; simpl; lia).
    done.
  - rewrite prestart_cleanup_step. unfold tracked at 1 2. rewrite Hs. simpl default.
    rewrite list_lookup_middle by done. rewrite list_remove_middle by done.
    replace (S (length kept)) with (length (kept ++ [y]))
      by (rewrite length_app; simpl; lia).
    rewrite (IH (kept ++ [y])).
    + rewrite cleaned_cleaned. simpl. by rewrite <- app_assoc.
    + simpl. by rewrite <- app_assoc.
    + rewrite <- app_assoc. simpl.
      apply NoDup_app in Hnd as (Hk & Hdisj & Hr).
      apply NoDup_cons in Hr as [Hx Hr].
      apply NoDup_app. split_and!; [done| |done].
      intros w Hw Hw'. apply (Hdisj w Hw). by apply elem_of_cons; right.
Qed.

(** C10: when [simulate start] finds [k >= 1] processes already tracked
    (distinct process objects), the loop that is meant to stop them kills
    exactly the processes at positions 0, 2, 4, ... of the list and drops
    them from it; the processes at positions 1, 3, 5, ..., [k/2] of them
    (rounded down), stay tracked and receive no signal. *)
Theorem prestart_cleanup_alternates (s : State) (l : list Process) :
  sim_processes s = Some l →
  (1 ≤ length l)%nat →
  NoDup l →
  reset_sim_processes s = (inr tt, cleaned s (odds l) (evens l))
  ∧ (∀ j, evens l !! j = l !! (2 * j)%nat)
  ∧ (∀ j, odds l !! j = l !! (2 * j + 1)%nat)
  ∧ length (odds l) = (length l / 2)%nat
  ∧ (∀ p, p ∈ odds l → p ∉ evens l).
Proof.
  intros Hs Hk Hnd. split_and!.
  - unfold reset_sim_processes, mbind, M_bind, bind, get. rewrite Hs.
    rewrite bool_decide_true by lia.
    apply (prestart_cleanup_from l [] s); done.
  - apply evens_lookup.
  - apply odds_lookup.
  - apply odds_length.
  - intros p. by apply evens_odds_disjoint.
Qed.

(** Five tracked processes: the first, third and fifth are killed, the
    second and fourth stay tracked. *)
Lemma prestart_cleanup_alternates_witness :
  NoDup five_processes
  ∧ reset_sim_processes (crowded five_processes)
    = (inr tt, cleaned (crowded five_processes)
                 [mkProcess 1 11; mkProcess 3 13]
                 [mkProcess 0 10; mkProcess 2 12; mkProcess 4 14]).
Proof.
  assert (NoDup five_processes) as Hnd
    by (apply (bool_decide_unpack (NoDup five_processes)); vm_compute; exact I).
  split; [exact Hnd|].
  apply (prestart_cleanup_alternates (crowded five_processes) five_processes);
    [reflexivity | simpl; lia | exact Hnd].
Defined.

End Cleanup.

(** ** Running commands symbolically *)

(** Unfolds the monad and the primitive commands. *)
Ltac mred :=
  repeat (progress (
    unfold mbind, M_bind, bind, mret, M_ret, ret, mthrow, M_throw, raise, get, modify,
      emit, set_confirms, set_prompts, set_cursor, set_rng, set_next_obj,
      set_provider_uri, set_accounts, set_deployer_address, set_sim_processes,
      set_deployment_transactions, set_deployment_agents,
      click_echo, click_confirm, click_prompt, os_urandom, os_kill, os_remove;
    cbn beta iota zeta)).

(** Reads the fields of an updated state; the updates themselves stay
    folded. *)
Ltac sred :=
  cbn [confirms prompts entropy cursor rng next_obj deployer_flag federated_only
       compile_flag provider_uri accounts deployer_address sim_processes
       __deployment_transactions __deployment_agents trace
       record with_confirms with_prompts with_cursor with_rng with_next_obj
       with_provider_uri with_accounts with_deployer_address with_sim_processes
       with_deployment_transactions with_deployment_agents
       negb andb orb fst snd].

Ltac sred_all :=
  cbn [confirms prompts entropy cursor rng next_obj deployer_flag federated_only
       compile_flag provider_uri accounts deployer_address sim_processes
       __deployment_transactions __deployment_agents trace
       record with_confirms with_prompts with_cursor with_rng with_next_obj
       with_provider_uri with_accounts with_deployer_address with_sim_processes
       with_deployment_transactions with_deployment_agents
       negb andb orb fst snd] in *.

Ltac exec := repeat (progress (mred; sred)).

Lemma bind_run {A B} (m : M A) (k : A → M B) (s : State) :
  (m ≫= k) s
  = match m s with
    | (inr a, s') => k a s'
    | (inl e, s') => (inl e, s')
    end.
Proof. reflexivity. Qed.

(** ** Relations between states are closed under sequencing *)

#[export] Instance extends_preorder (P : Event → Prop) : PreOrder (extends P).
Proof.
  split.
  - intros s. exists []. by rewrite app_nil_r.
  - intros s1 s2 s3 (n1 & H1 & F1) (n2 & H2 & F2). exists (n1 ++ n2).
    rewrite H2, H1, app_assoc. split; [done|]. by apply Forall_app.
Qed.

#[export] Instance keeps_preorder {B} (f : State → B) : PreOrder (keeps f).
Proof.
  split; [by intros s|]. intros s1 s2 s3 H1 H2. unfold keeps in *. congruence.
Qed.

#[export] Instance both_preorder (R1 R2 : State → State → Prop)
  `{!PreOrder R1, !PreOrder R2} : PreOrder (both R1 R2).
Proof.
  split; [by intros s; split|].
  intros s1 s2 s3 [H1 H2] [H3 H4]. split; by etrans.
Qed.

Section Sat.
Context (R : State → State → Prop) `{!PreOrder R}.

Lemma sat_ret {A} (a : A) : sat R (mret a).
Proof. intros s. done. Qed.

Lemma sat_raise {A} (e : Exn) : sat R (@raise A e).
Proof. intros s. done. Qed.

Lemma sat_get : sat R get.
Proof. intros s. done. Qed.

Lemma sat_modify (f : State → State) : (∀ s, R s (f s)) → sat R (modify f).
Proof. intros Hf s. apply Hf. Qed.

Lemma sat_bind {A B} (m : M A) (k : A → M B) :
  sat R m → (∀ a, sat R (k a)) → sat R (m ≫= k).
Proof.
  intros Hm Hk s. unfold mbind, M_bind, bind.
  specialize (Hm s). destruct (m s) as [[e|a] s1]; [done|].
  etrans; [exact Hm|]. apply Hk.
Qed.

Lemma sat_for_each {A} (xs : list A) (body : A → M unit) :
  (∀ x, sat R (body x)) → sat R (for_each xs body).
Proof.
  intros Hb. induction xs as [|x xs IH]; simpl.
  - apply sat_ret.
  - apply sat_bind; [apply Hb|]. intros _. apply IH.
Qed.

Lemma sat_try_finally {A} (body : M A) (handler : M unit) :
  sat R body → sat R handler → sat R (try_finally body handler).
Proof.
  intros Hb Hh s. unfold try_finally.
  specialize (Hb s). destruct (body s) as [r s1].
  specialize (Hh s1). destruct (handler s1) as [[e|[]] s2]; simpl in *; by etrans.
Qed.

End Sat.

Lemma extends_same (P : Event → Prop) (s s' : State) :
  trace s' = trace s → extends P s s'.
Proof. intros Ht. exists []. by rewrite app_nil_r. Qed.

Lemma extends_record (P : Event → Prop) (e : Event) (s : State) :
  P e → extends P s (record e s).
Proof. intros He. exists [e]. split; [done|]. by apply Forall_singleton. Qed.

(** Closes [R s (f s)] for an update [f] of one field. *)
Ltac sat_prim :=
  repeat lazymatch goal with
  | |- both _ _ _ _ => split
  end;
  first [ reflexivity
        | apply extends_same; reflexivity
        | apply extends_record; first [reflexivity | done] ].

Ltac sat_step :=
  lazymatch goal with
  | |- sat _ (mret _) => apply sat_ret; apply _
  | |- sat _ (raise _) => apply sat_raise; apply _
  | |- sat _ (mthrow _) => apply sat_raise; apply _
  | |- sat _ get => apply sat_get; apply _
  | |- sat _ (mbind _ _) => apply sat_bind; [apply _ | | intros ?]
  | |- sat _ (for_each _ _) => apply sat_for_each; [apply _ | intros ?]
  | |- sat _ (try_finally _ _) => apply sat_try_finally; [apply _ | | ]
  | |- sat _ (modify _) => apply sat_modify; intros ?; sat_prim
  | |- sat _ (match ?x with _ => _ end) => destruct x
  | |- sat _ (emit _) => unfold emit
  | |- sat _ (click_echo _) => unfold click_echo
  | |- sat _ (click_confirm _ _) => unfold click_confirm
  | |- sat _ (click_prompt _) => unfold click_prompt
  | |- sat _ (os_urandom _) => unfold os_urandom
  | |- sat _ (os_kill _ _) => unfold os_kill
  | |- sat _ (os_remove _) => unfold os_remove
  | |- sat _ DEFAULT_SIMULATION_REGISTRY_FILEPATH =>
      unfold DEFAULT_SIMULATION_REGISTRY_FILEPATH
  | |- sat _ (set_confirms _) => unfold set_confirms
  | |- sat _ (set_prompts _) => unfold set_prompts
  | |- sat _ (set_cursor _) => unfold set_cursor
  | |- sat _ (set_rng _) => unfold set_rng
  | |- sat _ (set_next_obj _) => unfold set_next_obj
  | |- sat _ (set_provider_uri _) => unfold set_provider_uri
  | |- sat _ (set_accounts _) => unfold set_accounts
  | |- sat _ (set_deployer_address _) => unfold set_deployer_address
  | |- sat _ (set_sim_processes _) => unfold set_sim_processes
  | |- sat _ (set_deployment_transactions _) => unfold set_deployment_transactions
  | |- sat _ (set_deployment_agents _) => unfold set_deployment_agents
  end.

Ltac sat_auto := repeat sat_step.

(** ** The secret of an upgradeable contract *)

Section Secret.
Context `{Collaborators}.

(** [__collect_secret] draws 32 bytes, finds them well-formed and stores
    them, without asking anything. *)
Lemma collect_secret_run (depth : nat) (args : gmap string Arg) (s : State) :
  let secret := entropy s <$> seq (cursor s) 32 in
  __collect_secret (S depth) args s
  = (inr (<["secret_hash" := ASecret secret]> args, secret),
     with_cursor (cursor s + 32)%nat s).
Proof.
  intros secret.
  cbn [__collect_secret]. mred. unfold secret_checks.
  rewrite bool_decide_false.
  2:{ rewrite length_fmap, length_seq. intros ?; done. }
  rewrite bool_decide_false by (intros ?; done).
  mred. done.
Qed.

Lemma collect_secret_limit (args : gmap string Arg) (s : State) :
  __collect_secret recursion_limit args s
  = (inr (<["secret_hash" := ASecret (entropy s <$> seq (cursor s) 32)]> args,
          entropy s <$> seq (cursor s) 32),
     with_cursor (cursor s + 32)%nat s).
Proof. apply (collect_secret_run 999). Qed.

Lemma sat_collect_secret (R : State → State → Prop) (args : gmap string Arg) :
  (∀ s v, R s (with_cursor v s)) →
  sat R (__collect_secret recursion_limit args).
Proof. intros HR s. rewrite collect_secret_limit. apply HR. Qed.

End Secret.

(** ** One contract: what [__deploy_contract] does *)

Section Unit.
Context `{Collaborators}.

Lemma deploy_contract_run (force : bool) (cls : DeployerClass) (up : bool)
    (name : string) (dep : option string) (s : State) :
  __deploy_contract force cls up name dep s = unit_run force cls up name dep s.
Proof.
  unfold __deploy_contract, unit_run, lookup_agent, deployer_built, asked, agreed,
    missing_dependency.
  destruct dep as [k|];
    [destruct (__deployment_agents s !! k) as [ag|] eqn:Hk|].
  2:{ exec. rewrite Hk. exec. reflexivity. }
  all: exec; rewrite ?Hk; exec.
  all: destruct up; rewrite ?collect_secret_limit; exec.
  all: destruct force; exec.
  all: try (destruct (confirms s) as [|[] cs]; exec; [reflexivity| |reflexivity]).
  all: destruct (arm_outcome _) as [[] dq]; exec; [|reflexivity].
  all: try (destruct cs as [|[] cs]; exec; [reflexivity| |reflexivity]).
  all: destruct (deploy_outcome _) as [e|txs]; exec; reflexivity.
Qed.

Lemma deploy_info_run (force : bool) (info : DeployerInfo) (s : State) :
  deploy_info force info s
  = match unit_run force (deployer_class info) (upgradeable info) (agent_name info)
            (dependant info) s with
    | (inr _, s') => (inr tt, s')
    | (inl e, s') => (inl e, s')
    end.
Proof. unfold deploy_info. mred. by rewrite deploy_contract_run. Qed.

(** The deployer of a dependent unit is built on the agent found in the
    registry. *)
Lemma deployer_built_dependency (cls : DeployerClass) (up : bool) (k : string)
    (ag : Agent) (s : State) :
  __deployment_agents s !! k = Some ag →
  k ≠ "secret_hash" →
  deployer_class_of (deployer_built cls up (Some k) s) = cls
  ∧ init_args (deployer_built cls up (Some k) s) !! k = Some (AAgent ag).
Proof.
  intros Hk Hne. unfold deployer_built. rewrite Hk. split; [done|].
  destruct up; cbn [init_args].
  - rewrite lookup_insert_ne by done. apply lookup_insert_eq.
  - apply lookup_insert_eq.
Qed.

(** Closes the goal left by one path through [unit_run]. *)
Ltac unit_leaf :=
  sred; eexists; split; [rewrite <- ?app_assoc; reflexivity|];
  first [ left; split_and!; [by eexists | by eexists | reflexivity | reflexivity]
        | right; eexists; split_and!; reflexivity ].

(** Every run of [__deploy_contract] calls the deployer it builds in the
    order construct, arm, deploy, make_agent, stops at the first step that
    fails, and records the transactions and the agent only at the end. *)
Lemma unit_spec (force : bool) (cls : DeployerClass) (up : bool)
    (name : string) (dep : option string) (s : State) :
  let r := unit_run force cls up name dep s in
  let d := deployer_built cls up dep s in
  ∃ new, trace r.2 = trace s ++ new ∧
    (((∃ e, r.1 = inl e)
      ∧ deployer_calls new `prefix_of` [Construct d; Arm d; Deploy d]
      ∧ __deployment_transactions r.2 = __deployment_transactions s
      ∧ __deployment_agents r.2 = __deployment_agents s)
     ∨ (∃ txs, r.1 = inr (txs, agent_of d)
        ∧ deploy_outcome d = inr txs
        ∧ deployer_calls new = unit_calls d
        ∧ __deployment_transactions r.2
          = dict_set (_contract_name cls) txs (__deployment_transactions s)
        ∧ __deployment_agents r.2
          = <[name := agent_of d]> (__deployment_agents s))).
Proof.
  intros r d. subst r. unfold unit_run. fold d. generalize d. clear d. intros d.
  destruct (missing_dependency dep s) as [k|].
  { exists []. rewrite app_nil_r. split; [done|]. left.
    split_and!; [by eexists | by eexists | done | done]. }
  unfold agreed, asked. destruct up, force; sred.
  1,3: destruct (arm_outcome d) as [[] dq]; sred; [|unit_leaf];
       destruct (deploy_outcome d) as [e|txs]; unit_leaf.
  all: destruct (confirms s) as [|[] cs]; sred; [unit_leaf| |unit_leaf].
    all: destruct (arm_outcome d) as [[] dq]; sred; [|unit_leaf].
    all: destruct cs as [|[] cs']; sred; [unit_leaf| |unit_leaf].
    all: destruct (deploy_outcome d) as [e|txs]; unit_leaf.
Qed.

(** What a confirmation changes: the pending answers and the trace. *)
Lemma asked_confirms (force : bool) (q : string) (s : State) :
  confirms (asked force q s) = if force then confirms s else tail (confirms s).
Proof.
  unfold asked. destruct force; [done|].
  destruct (confirms s) eqn:E; sred; by rewrite ?E.
Qed.

Lemma asked_trace (force : bool) (q : string) (s : State) :
  trace (asked force q s) = trace s ++ (if force then [] else [Confirm q]).
Proof.
  unfold asked. destruct force; [by rewrite app_nil_r|]. by destruct (confirms s).
Qed.

Lemma asked_deployer_address (force : bool) (q : string) (s : State) :
  deployer_address (asked force q s) = deployer_address s.
Proof. unfold asked. destruct force; [done|]. by destruct (confirms s). Qed.

Lemma asked_entropy (force : bool) (q : string) (s : State) :
  entropy (asked force q s) = entropy s.
Proof. unfold asked. destruct force; [done|]. by destruct (confirms s). Qed.

Lemma asked_cursor (force : bool) (q : string) (s : State) :
  cursor (asked force q s) = cursor s.
Proof. unfold asked. destruct force; [done|]. by destruct (confirms s). Qed.

Lemma asked_prompts (force : bool) (q : string) (s : State) :
  prompts (asked force q s) = prompts s.
Proof. unfold asked. destruct force; [done|]. by destruct (confirms s). Qed.

Lemma asked_agents (force : bool) (q : string) (s : State) :
  __deployment_agents (asked force q s) = __deployment_agents s.
Proof. unfold asked. destruct force; [done|]. by destruct (confirms s). Qed.

Lemma asked_transactions (force : bool) (q : string) (s : State) :
  __deployment_transactions (asked force q s) = __deployment_transactions s.
Proof. unfold asked. destruct force; [done|]. by destruct (confirms s). Qed.

(** The deployer built depends on the deployer address, the entropy and
    the agent of the dependency only. *)
Lemma deployer_built_ext (cls : DeployerClass) (up : bool) (dep : option string)
    (s s' : State) :
  deployer_address s = deployer_address s' →
  entropy s = entropy s' →
  cursor s = cursor s' →
  (∀ k, dep = Some k → __deployment_agents s !! k = __deployment_agents s' !! k) →
  deployer_built cls up dep s = deployer_built cls up dep s'.
Proof.
  intros Ha He Hc Hk. unfold deployer_built. rewrite Ha, He, Hc.
  destruct dep as [k|]; [|done]. by rewrite (Hk k eq_refl).
Qed.

(** The state a unit leaves when the user has agreed to both steps. *)
Definition armed_state (force : bool) (cls : DeployerClass) (up : bool)
    (d : Deployer) (s : State) : State :=
  record (Arm d)
    (asked force ("Arm " +:+ __name__ cls +:+ "?")
       (record (Construct d)
          (if up then with_cursor (cursor s + 32)%nat s else s))).

Definition deploying_state (force : bool) (cls : DeployerClass) (up : bool)
    (d : Deployer) (s : State) : State :=
  record (Deploy d)
    (asked force ("Deploy " +:+ _contract_name cls +:+ "?")
       (armed_state force cls up d s)).

Lemma unit_run_success (force : bool) (cls : DeployerClass) (up : bool)
    (name : string) (dep : option string) (s : State) (txs : Transactions) :
  let d := deployer_built cls up dep s in
  missing_dependency dep s = None →
  (force = true ∨ ∃ cs, confirms s = true :: true :: cs) →
  (arm_outcome d).1 = true →
  deploy_outcome d = inr txs →
  unit_run force cls up name dep s
  = (inr (txs, agent_of d),
     with_deployment_agents (<[name := agent_of d]> (__deployment_agents s))
       (record (MakeAgent d)
          (with_deployment_transactions
             (dict_set (_contract_name cls) txs (__deployment_transactions s))
             (deploying_state force cls up d s)))).
Proof.
  intros d Hdep Hyes Harm Htx. unfold unit_run, deploying_state, armed_state.
  fold d. rewrite Hdep, Harm, Htx. unfold agreed.
  destruct Hyes as [->|(cs & Hcs)]; [done|].
  destruct force; [done|]. sred. rewrite asked_confirms.
  destruct up; sred; rewrite Hcs; done.
Qed.

Lemma unit_run_arm_failure (force : bool) (cls : DeployerClass) (up : bool)
    (name : string) (dep : option string) (s : State) :
  let d := deployer_built cls up dep s in
  missing_dependency dep s = None →
  (force = true ∨ ∃ cs, confirms s = true :: cs) →
  (arm_outcome d).1 = false →
  unit_run force cls up name dep s
  = (inl Abort,
     record (Echo ("Failed to arm " +:+ _contract_name cls
                   +:+ ". Disqualifications: " +:+ join ", " (arm_outcome d).2))
       (armed_state force cls up d s)).
Proof.
  intros d Hdep Hyes Harm. unfold unit_run, armed_state.
  fold d. rewrite Hdep, Harm. unfold agreed.
  destruct Hyes as [->|(cs & Hcs)]; [done|].
  destruct force; [done|]. sred.
  destruct up; sred; rewrite Hcs; done.
Qed.

Lemma unit_run_deploy_failure (force : bool) (cls : DeployerClass) (up : bool)
    (name : string) (dep : option string) (s : State) (e : Exn) :
  let d := deployer_built cls up dep s in
  missing_dependency dep s = None →
  (force = true ∨ ∃ cs, confirms s = true :: true :: cs) →
  (arm_outcome d).1 = true →
  deploy_outcome d = inl e →
  unit_run force cls up name dep s = (inl e, deploying_state force cls up d s).
Proof.
  intros d Hdep Hyes Harm Htx. unfold unit_run, deploying_state, armed_state.
  fold d. rewrite Hdep, Harm, Htx. unfold agreed.
  destruct Hyes as [->|(cs & Hcs)]; [done|].
  destruct force; [done|]. sred. rewrite asked_confirms.
  destruct up; sred; rewrite Hcs; done.
Qed.

End Unit.

(** ** The [deploy] command around its contracts *)

Section Deploy.
Context `{Collaborators}.

Lemma quiet_calls (new : list Event) : Forall quiet new → deployer_calls new = [].
Proof.
  unfold deployer_calls. induction 1 as [|e new He _ IH]; [done|].
  rewrite filter_cons_False; [done|]. unfold quiet in He. congruence.
Qed.

Lemma deployer_calls_app (t1 t2 : list Event) :
  deployer_calls (t1 ++ t2) = deployer_calls t1 ++ deployer_calls t2.
Proof. apply filter_app. Qed.

Lemma sat_connect_to_blockchain : sat (extends quiet) connect_to_blockchain.
Proof. unfold connect_to_blockchain. sat_auto. Qed.

Lemma sat_get_deployers (a : option string) : sat (extends quiet) (__get_deployers a).
Proof.
  unfold __get_deployers, address_or_first_account.
  sat_auto; apply sat_connect_to_blockchain.
Qed.

Lemma get_deployers_value (a : option string) (s s' : State)
    (ds : list (string * DeployerInfo)) :
  __get_deployers a s = (inr ds, s') → ds = deployers_table.
Proof.
  unfold __get_deployers. mred.
  destruct (connect_to_blockchain s) as [[e|[]] s1]; [discriminate|].
  destruct (address_or_first_account a s1) as [[e|x] s2]; [discriminate|].
  sred. destruct (confirms s2) as [|[] cs]; sred; congruence.
Qed.

Lemma sat_deploy_banner (text : string) : sat closing (deploy_banner text).
Proof. unfold deploy_banner, closing. sat_auto. Qed.

Lemma sat_view_transactions (force : bool) : sat closing (view_transactions force).
Proof. unfold view_transactions, closing. sat_auto. Qed.

Lemma sat_save_transactions (force : bool) : sat closing (save_transactions force).
Proof. unfold save_transactions, closing. sat_auto. Qed.

Lemma deployers_table_infos :
  deployers_table.*2
  = [mkDeployerInfo NucypherTokenDeployer false "token_agent" None;
     mkDeployerInfo MinerEscrowDeployer true "miner_agent" (Some "token_agent");
     mkDeployerInfo PolicyManagerDeployer true "policy_agent" (Some "miner_agent")].
Proof. reflexivity. Qed.

(** A run of [deploy contracts] either ends before any contract is
    touched, or reaches the contracts with empty dictionaries; it ends
    with the error of the contracts, or goes on to the closing questions,
    which leave deployers and dictionaries alone. *)
Lemma deploy_contracts_shape (a name : option string) (force : bool) (s : State) :
  let r := deploy "contracts" a name force s in
  ((∃ e, r.1 = inl e) ∧ extends quiet s r.2)
  ∨ ∃ s1, extends quiet s s1
      ∧ __deployment_agents s1 = ∅
      ∧ __deployment_transactions s1 = []
      ∧ let rp := deploy_phase force name deployers_table
                    (join ", " (dict_keys deployers_table)) s1 in
        ((∃ e, rp.1 = inl e) ∧ r = rp)
        ∨ (rp.1 = inr tt ∧ closing rp.2 r.2).
Proof.
  intros r. subst r. unfold deploy. mred.
  destruct (deployer_flag s).
  2:{ left. sred. split; [by eexists|]. by apply extends_record. }
  sred. rewrite bool_decide_true by done.
  pose proof (sat_get_deployers a s) as Hpre.
  destruct (__get_deployers a s) as [[e|ds] s0] eqn:Hds; cbn [snd] in Hpre.
  { left. split; [by eexists|done]. }
  apply get_deployers_value in Hds as ->.
  set (s0' := with_deployment_agents ∅ (with_deployment_transactions [] s0)).
  pose proof (sat_deploy_banner (join ", " (dict_keys deployers_table)) s0') as Hban.
  destruct (deploy_banner _ s0') as [[e|[]] s1]; cbn [snd] in Hban;
    destruct Hban as (Hban & Hag & Htx).
  { left. split; [by eexists|]. etrans; [exact Hpre|]. etrans; [|exact Hban].
    by apply extends_same. }
  right. exists s1. split_and!; [| exact Hag | exact Htx |].
  { etrans; [exact Hpre|]. etrans; [|exact Hban]. by apply extends_same. }
  cbv zeta.
  destruct (deploy_phase force name deployers_table _ s1) as [[e|[]] s2].
  { left. split; [by eexists|done]. }
  right. split; [done|]. cbn [snd].
  pose proof (sat_view_transactions force s2) as Hview.
  destruct (view_transactions force s2) as [[e|[]] s3]; cbn [snd] in Hview; [done|].
  etrans; [exact Hview|]. apply sat_save_transactions.
Qed.

Lemma unit_calls_prefix (d : Deployer) (l rest : list Event) :
  l `prefix_of` [Construct d; Arm d; Deploy d] → l `prefix_of` unit_calls d ++ rest.
Proof.
  intros Hl. apply prefix_app_r. etrans; [exact Hl|].
  by exists [MakeAgent d].
Qed.

Lemma deploy_reaches_contracts (a name : option string) (force : bool) (s : State)
    (first : string) (rest : list string) (cs : list bool) :
  deployer_flag s = true →
  federated_only s = false →
  compile_flag s = false →
  connect_outcome = inr (first :: rest) →
  confirms s = true :: cs →
  deploy "contracts" a name force s
  = (deploy_phase force name deployers_table (join ", " (dict_keys deployers_table));;
     view_transactions force;;
     save_transactions force) (contracts_reached a first rest cs s).
Proof.
  intros Hd Hf Hc Hconn Hcs.
  unfold deploy, __get_deployers, connect_to_blockchain, address_or_first_account,
    deploy_banner, contracts_reached, resolved_address.
  exec. rewrite Hd. exec. rewrite bool_decide_true by done.
  rewrite Hf. exec. rewrite Hc. exec. rewrite Hconn. exec.
  destruct a as [x|]; [destruct (truthy x)|]; exec; rewrite Hcs; exec; reflexivity.
Qed.

Lemma contracts_reached_fields (a : option string) (first : string)
    (rest : list string) (cs : list bool) (s : State) :
  let s1 := contracts_reached a first rest cs s in
  confirms s1 = cs
  ∧ __deployment_agents s1 = ∅
  ∧ __deployment_transactions s1 = []
  ∧ ∃ new, trace s1 = trace s ++ new
           ∧ Forall quiet new.
Proof.
  unfold contracts_reached. sred. split_and!; try done.
  eexists. split; [rewrite <- !app_assoc; reflexivity|].
  repeat (apply Forall_cons; split; [reflexivity|]). apply Forall_nil_2.
Qed.

(** What a unit that was deployed leaves to the units after it. *)
Lemma unit_run_frame (force : bool) (cls : DeployerClass) (up : bool)
    (name : string) (dep : option string) (s s' : State) (v : Transactions * Agent) :
  unit_run force cls up name dep s = (inr v, s') →
  let d := deployer_built cls up dep s in
  deployer_address s' = deployer_address s
  ∧ entropy s' = entropy s
  ∧ cursor s' = (if up then cursor s + 32 else cursor s)%nat
  ∧ __deployment_agents s' = <[name := agent_of d]> (__deployment_agents s)
  ∧ confirms s' = (if force then confirms s else drop 2 (confirms s)).
Proof.
  intros Hrun d. revert Hrun. unfold unit_run. fold d. generalize d. clear d. intros d.
  destruct (missing_dependency dep s); [done|].
  unfold agreed, asked. destruct up, force; sred.
  1,3: destruct (arm_outcome d) as [[] dq]; sred; [|done];
       destruct (deploy_outcome d) as [e|txs]; [done|]; intros [= _ <-]; by sred.
  all: destruct (confirms s) as [|[] cs]; sred; [done| |done].
  all: destruct (arm_outcome d) as [[] dq]; sred; [|done].
  all: destruct cs as [|[] cs']; sred; [done| |done].
  all: destruct (deploy_outcome d) as [e|txs]; [done|]; intros [= _ <-]; by sred.
Qed.

(** The deployers of the deploy-all path from the state [s], each built
    on the agent of the one before it, and what the path does with them. *)
Lemma deploy_all_phase (force : bool) (text : string) (s : State) :
  let token := deployer_built NucypherTokenDeployer false None s in
  let escrow :=
    deployer_built MinerEscrowDeployer true (Some "token_agent")
      (with_deployment_agents (<["token_agent" := agent_of token]> ∅) s) in
  let policy :=
    deployer_built PolicyManagerDeployer true (Some "miner_agent")
      (with_cursor (cursor s + 32)%nat
         (with_deployment_agents (<["miner_agent" := agent_of escrow]> ∅) s)) in
  let rp := deploy_phase force None deployers_table text s in
  ∃ new,
    trace rp.2 = trace s ++ new
    ∧ deployer_calls new `prefix_of` chain_calls token escrow policy
    ∧ (rp.1 = inr tt → deployer_calls new = chain_calls token escrow policy)
    ∧ ((force = true
        ∨ ∃ cs', confirms s = [true; true; true; true; true; true] ++ cs') →
       (arm_outcome token).1 = true → (∃ txs, deploy_outcome token = inr txs) →
       (arm_outcome escrow).1 = true → (∃ txs, deploy_outcome escrow = inr txs) →
       (arm_outcome policy).1 = true → (∃ txs, deploy_outcome policy = inr txs) →
       rp.1 = inr tt).
Proof.
  intros token escrow policy rp. subst rp. unfold deploy_phase.
  rewrite deployers_table_infos.
  cbn [for_each]. mred. rewrite deploy_info_run. cbn [deployer_class upgradeable
    agent_name dependant].
  pose proof (unit_spec force NucypherTokenDeployer false "token_agent" None s)
    as (n1 & Ht1 & Hu1). fold token in Hu1.
  destruct (unit_run force NucypherTokenDeployer false "token_agent" None s)
    as [[e1|v1] s1] eqn:Hrun1; cbn [fst snd] in *.
  { destruct Hu1 as [(_ & Hp & _)|(txs & ? & _)]; [|done].
    exists n1. split_and!; [done|by apply unit_calls_prefix|done|].
    intros Hyes Ha1 [tx1 Hd1] _ _ _ _.
    rewrite (unit_run_success force NucypherTokenDeployer false "token_agent"
               None s tx1) in Hrun1; [done|done| |done|done].
    destruct Hyes as [?|(cs' & ->)]; [by left|right; by eexists]. }
  destruct Hu1 as [((? & ?) & _)|(txs1 & _ & _ & Hc1 & _ & _)]; [done|].
  destruct (unit_run_frame _ _ _ _ _ _ _ _ Hrun1) as (Hda1 & Hen1 & Hcu1 & Hag1 & Hcs1).
  fold token in Hag1.
  rewrite deploy_info_run. cbn [deployer_class upgradeable agent_name dependant].
  assert (deployer_built MinerEscrowDeployer true (Some "token_agent") s1 = escrow)
    as Hescrow.
  { apply deployer_built_ext; sred; try done.
    intros k [= <-]. rewrite Hag1. by rewrite !lookup_insert_eq. }
  pose proof (unit_spec force MinerEscrowDeployer true "miner_agent"
                (Some "token_agent") s1) as (n2 & Ht2 & Hu2).
  rewrite Hescrow in Hu2.
  destruct (unit_run force MinerEscrowDeployer true "miner_agent"
              (Some "token_agent") s1) as [[e2|v2] s2] eqn:Hrun2; cbn [fst snd] in *.
  { destruct Hu2 as [(_ & Hp & _)|(txs & ? & _)]; [|done].
    exists (n1 ++ n2). split_and!.
    - by rewrite Ht2, Ht1, app_assoc.
    - rewrite deployer_calls_app, Hc1. unfold chain_calls.
      apply prefix_app. by apply unit_calls_prefix.
    - done.
    - intros Hyes _ _ Ha2 [tx2 Hd2] _ _.
      rewrite (unit_run_success force MinerEscrowDeployer true "miner_agent"
                 (Some "token_agent") s1 tx2) in Hrun2; rewrite ?Hescrow;
        [done| | |done|done].
      + unfold missing_dependency. by rewrite Hag1, lookup_insert_eq.
      + destruct Hyes as [->|(cs' & Hcs)]; [by left|right].
        rewrite Hcs1, Hcs. destruct force; by eexists. }
  destruct Hu2 as [((? & ?) & _)|(txs2 & _ & _ & Hc2 & _ & _)]; [done|].
  destruct (unit_run_frame _ _ _ _ _ _ _ _ Hrun2) as (Hda2 & Hen2 & Hcu2 & Hag2 & Hcs2).
  rewrite Hescrow in Hag2.
  rewrite deploy_info_run. cbn [deployer_class upgradeable agent_name dependant].
  assert (deployer_built PolicyManagerDeployer true (Some "miner_agent") s2 = policy)
    as Hpolicy.
  { apply deployer_built_ext; sred; try congruence.
    intros k [= <-]. rewrite Hag2. by rewrite !lookup_insert_eq. }
  pose proof (unit_spec force PolicyManagerDeployer true "policy_agent"
                (Some "miner_agent") s2) as (n3 & Ht3 & Hu3).
  rewrite Hpolicy in Hu3.
  exists (n1 ++ n2 ++ n3).
  destruct (unit_run force PolicyManagerDeployer true "policy_agent"
              (Some "miner_agent") s2) as [[e3|v3] s3] eqn:Hrun3; cbn [fst snd] in *.
  - destruct Hu3 as [(_ & Hp & _)|(txs & ? & _)]; [|done].
    split_and!.
    + by rewrite Ht3, Ht2, Ht1, !app_assoc.
    + rewrite !deployer_calls_app, Hc1, Hc2. unfold chain_calls.
      do 2 apply prefix_app. rewrite <- (app_nil_r (unit_calls policy)).
      by apply unit_calls_prefix.
    + done.
    + intros Hyes _ _ _ _ Ha3 [tx3 Hd3].
      rewrite (unit_run_success force PolicyManagerDeployer true "policy_agent"
                 (Some "miner_agent") s2 tx3) in Hrun3; rewrite ?Hpolicy;
        [done| | |done|done].
      * unfold missing_dependency. by rewrite Hag2, lookup_insert_eq.
      * destruct Hyes as [->|(cs' & Hcs)]; [by left|right].
        rewrite Hcs2, Hcs1, Hcs. destruct force; by eexists.
  - destruct Hu3 as [((? & ?) & _)|(txs3 & _ & _ & Hc3 & _)]; [done|].
    split_and!.
    + by rewrite Ht3, Ht2, Ht1, !app_assoc.
    + by rewrite !deployer_calls_app, Hc1, Hc2, Hc3.
    + intros _. by rewrite !deployer_calls_app, Hc1, Hc2, Hc3.
    + done.
Qed.

Lemma closing_questions_forced (s : State) :
  (view_transactions true;; save_transactions true) s = (inr tt, s).
Proof. unfold view_transactions, save_transactions. exec. reflexivity. Qed.

Lemma closing_questions_quiet (force : bool) (s : State) :
  extends quiet s ((view_transactions force;; save_transactions force) s).2.
Proof.
  mred. pose proof (sat_view_transactions force s) as [Hview _].
  destruct (view_transactions force s) as [[e|[]] s1]; cbn [snd] in *; [done|].
  etrans; [exact Hview|]. apply sat_save_transactions.
Qed.

(** C1: a run of the deploy-all path that reaches the contracts works on
    three deployers that the state it starts from determines: the one of
    Token, the one of MinerEscrow, constructed with the agent that the
    Token deployer made, and the one of PolicyManager, constructed with the
    agent that the MinerEscrow deployer made. Every such run calls them in
    the order Token, MinerEscrow, PolicyManager, each through construct,
    arm, deploy, make_agent, so that a dependent deployer is constructed
    after the [make_agent] of its dependency and before its own [arm]; a
    run that fails has made a prefix of these twelve calls. When the user
    agrees to every step, or [--force] is given, and every deployer arms
    and deploys, the run makes all twelve calls, and with [--force] it
    returns. *)
Theorem deploy_all_in_dependency_order (a : option string) (force : bool) (s : State)
    (first : string) (rest : list string) (cs : list bool) :
  let s1 := contracts_reached a first rest cs s in
  let token := deployer_built NucypherTokenDeployer false None s1 in
  let escrow :=
    deployer_built MinerEscrowDeployer true (Some "token_agent")
      (with_deployment_agents (<["token_agent" := agent_of token]> ∅) s1) in
  let policy :=
    deployer_built PolicyManagerDeployer true (Some "miner_agent")
      (with_cursor (cursor s1 + 32)%nat
         (with_deployment_agents (<["miner_agent" := agent_of escrow]> ∅) s1)) in
  let r := deploy "contracts" a None force s in
  deployer_flag s = true →
  federated_only s = false →
  compile_flag s = false →
  connect_outcome = inr (first :: rest) →
  confirms s = true :: cs →
  deployer_class_of token = NucypherTokenDeployer
  ∧ deployer_class_of escrow = MinerEscrowDeployer
  ∧ deployer_class_of policy = PolicyManagerDeployer
  ∧ init_args escrow !! "token_agent" = Some (AAgent (agent_of token))
  ∧ init_args policy !! "miner_agent" = Some (AAgent (agent_of escrow))
  ∧ ∃ new,
      trace r.2 = trace s ++ new
      ∧ deployer_calls new `prefix_of` chain_calls token escrow policy
      ∧ (r.1 = inr tt → deployer_calls new = chain_calls token escrow policy)
      ∧ ((force = true
          ∨ ∃ cs', cs = [true; true; true; true; true; true] ++ cs') →
         (arm_outcome token).1 = true → (∃ txs, deploy_outcome token = inr txs) →
         (arm_outcome escrow).1 = true → (∃ txs, deploy_outcome escrow = inr txs) →
         (arm_outcome policy).1 = true → (∃ txs, deploy_outcome policy = inr txs) →
         deployer_calls new = chain_calls token escrow policy
         ∧ (force = true → r.1 = inr tt)).
Proof.
  intros s1 token escrow policy r Hd Hf Hc Hconn Hcs.
  split; [done|]. split; [done|]. split; [done|].
  split.
  { apply deployer_built_dependency; [|done]. sred. apply lookup_insert_eq. }
  split.
  { apply deployer_built_dependency; [|done]. sred. apply lookup_insert_eq. }
  subst r. rewrite (deploy_reaches_contracts a None force s first rest cs) by done.
  fold s1.
  destruct (contracts_reached_fields a first rest cs s)
    as (Hcs1 & _ & _ & n0 & Hn0 & Hq0). fold s1 in Hcs1, Hn0.
  destruct (deploy_all_phase force (join ", " (dict_keys deployers_table)) s1)
    as (n1 & Hn1 & Hpre & Hfull & Hok).
  fold token escrow policy in Hpre, Hfull, Hok.
  rewrite Hcs1 in Hok. rewrite bind_run.
  destruct (deploy_phase force None deployers_table _ s1) as [[e|[]] s2];
    cbn [fst snd] in *.
  - exists (n0 ++ n1). rewrite deployer_calls_app, (quiet_calls n0 Hq0). cbn [app].
    split_and!; [by rewrite Hn1, Hn0, app_assoc|done|done|].
    intros Hyes Ha1 Hd1 Ha2 Hd2 Ha3 Hd3.
    by specialize (Hok Hyes Ha1 Hd1 Ha2 Hd2 Ha3 Hd3).
  - destruct (closing_questions_quiet force s2) as (n2 & Hn2 & Hq2).
    exists (n0 ++ n1 ++ n2).
    rewrite !deployer_calls_app, (quiet_calls n0 Hq0), (quiet_calls n2 Hq2), app_nil_r.
    cbn [app]. rewrite (Hfull eq_refl).
    split_and!; [by rewrite Hn2, Hn1, Hn0, !app_assoc|done|done|].
    intros _ _ _ _ _ _ _. split; [done|]. intros ->.
    by rewrite closing_questions_forced.
Qed.

End Deploy.

(** Every deployer arms and deploys and [--force] is given: the run
    returns after the twelve calls. *)
Lemma deploy_all_in_dependency_order_witness :
  let H := reference_world in
  let s := initial [true] [] in
  let r := deploy "contracts" None None true s in
  connect_outcome = inr ["0xA"; "0xB"]
  ∧ r.1 = inr tt
  ∧ length (deployer_calls (trace r.2)) = 12%nat.
Proof.
  intros H s r.
  destruct (@deploy_all_in_dependency_order reference_world None true s
              "0xA" ["0xB"] [])
    as (_ & _ & _ & _ & _ & new & Hnew & _ & _ & Hall);
    [reflexivity..|].
  destruct Hall as [Hcalls Hr];
    [by left | reflexivity | by eexists | reflexivity | by eexists
    | reflexivity | by eexists |].
  split; [reflexivity|]. split; [by apply Hr|].
  subst r s H. rewrite Hnew, deployer_calls_app, Hcalls. reflexivity.
Defined.

(** ** A failure in the second contract *)

Section SecondUnit.
Context `{Collaborators}.

(** C2, as the code has it: in the deploy-all path, when the first
    contract has been deployed and the deployer of the second, MinerEscrow,
    is disqualified at arming or raises in [deploy()], the run ends there:
    no PolicyManager deployer is ever constructed and the transactions of
    the first contract are the content of [__deployment_transactions].
    After a failed arming the run aborts behind the message "Failed to arm
    MinerEscrow. ...", which names the contract. After a failed deployment
    it ends with the exception the MinerEscrow deployer raised, as it is:
    the call of [deploy()] is the last event, the command echoes nothing
    and adds no name. *)
Theorem second_unit_failure_aborts (a : option string) (force : bool) (s : State)
    (first : string) (rest : list string) (cs : list bool) (txs : Transactions) :
  let s1 := contracts_reached a first rest cs s in
  let token := deployer_built NucypherTokenDeployer false None s1 in
  let escrow :=
    deployer_built MinerEscrowDeployer true (Some "token_agent")
      (with_deployment_agents (<["token_agent" := agent_of token]> ∅) s1) in
  let r := deploy "contracts" a None force s in
  deployer_flag s = true →
  federated_only s = false →
  compile_flag s = false →
  connect_outcome = inr (first :: rest) →
  confirms s = true :: cs →
  (force = true ∨ ∃ cs', cs = true :: true :: true :: true :: cs') →
  (arm_outcome token).1 = true →
  deploy_outcome token = inr txs →
  (arm_outcome escrow).1 = false
  ∨ ((arm_outcome escrow).1 = true ∧ ∃ e, deploy_outcome escrow = inl e) →
  (∃ new, trace r.2 = trace s ++ new
          ∧ ∀ d, deployer_class_of d = PolicyManagerDeployer → Construct d ∉ new)
  ∧ __deployment_transactions r.2 = [("NuCypherToken", txs)]
  ∧ ((arm_outcome escrow).1 = false →
     r.1 = inl Abort
     ∧ ∃ text, last (trace r.2) = Some (Echo text) ∧ mentions "MinerEscrow" text)
  ∧ (∀ e, (arm_outcome escrow).1 = true → deploy_outcome escrow = inl e →
       r.1 = inl e ∧ last (trace r.2) = Some (Deploy escrow)).
Proof.
  intros s1 token escrow r Hd Hf Hc Hconn Hcs Hyes Harm1 Hdep1 Hfail.
  subst r. rewrite (deploy_reaches_contracts a None force s first rest cs) by done.
  fold s1.
  destruct (contracts_reached_fields a first rest cs s)
    as (Hcs1 & Hag1 & Htx1 & n0 & Hn0 & Hq0). fold s1 in Hcs1, Hag1, Htx1, Hn0.
  unfold deploy_phase. rewrite deployers_table_infos. cbn [for_each]. mred.
  rewrite deploy_info_run. cbn [deployer_class upgradeable agent_name dependant].
  rewrite (unit_run_success force NucypherTokenDeployer false "token_agent" None s1 txs);
    [|done| |done|done].
  2:{ destruct Hyes as [?|(cs' & ->)]; [by left|right]. rewrite Hcs1. eauto. }
  fold token. rewrite Hag1, Htx1. cbn [dict_set _contract_name].
  set (sT := with_deployment_agents _ _).
  assert (deployer_built MinerEscrowDeployer true (Some "token_agent") sT = escrow)
    as Hescrow.
  { apply deployer_built_ext; subst sT; unfold deploying_state, armed_state; sred;
      rewrite ?asked_deployer_address, ?asked_entropy, ?asked_cursor; sred;
      rewrite ?asked_deployer_address, ?asked_entropy, ?asked_cursor; try done. }
  assert (missing_dependency (Some "token_agent") sT = None) as Hmiss.
  { subst sT. unfold missing_dependency. sred. by rewrite lookup_insert_eq. }
  assert (force = true ∨ ∃ cs', confirms sT = true :: true :: cs') as HyesT.
  { destruct force; [by left|]. destruct Hyes as [?|(cs' & Hcs')]; [done|].
    right. exists cs'.
    subst sT. unfold deploying_state, armed_state. sred.
    rewrite asked_confirms. sred. rewrite asked_confirms. sred.
    by rewrite Hcs1, Hcs'. }
  pose (P := λ e : Event, ∀ d, e = Construct d
                    → deployer_class_of d ≠ PolicyManagerDeployer).
  assert (Forall P n0) as HP0.
  { eapply Forall_impl; [exact Hq0|]. intros e He d ->. done. }
  assert (∀ new, Forall P new
            → ∀ d, deployer_class_of d = PolicyManagerDeployer → Construct d ∉ new)
    as HPnot.
  { intros new HF d Hcls Hin. eapply Forall_forall in HF; [|exact Hin].
    by apply (HF d). }
  assert (∃ newT, trace sT = trace s ++ newT ∧ Forall P newT) as (nT & HnT & HpT).
  { subst sT. unfold deploying_state, armed_state.
    repeat (progress (sred; rewrite ?asked_trace)). rewrite Hn0.
    eexists. split; [rewrite <- !app_assoc; reflexivity|].
    repeat first [ apply Forall_app; split | apply Forall_cons; split
                 | apply Forall_nil_2 | exact HP0 | destruct force
                 | by intros d [= <-] | by intros d [=] ]. }
  assert (Forall P [Construct escrow]) as HPe.
  { apply Forall_singleton. by intros d [= <-]. }
  destruct Hfail as [Harm2|(Harm2 & e & Hdep2)].
  - rewrite deploy_info_run. cbn [deployer_class upgradeable agent_name dependant].
    rewrite (unit_run_arm_failure force MinerEscrowDeployer true "miner_agent"
               (Some "token_agent") sT); rewrite ?Hescrow; [|done| |done].
    2:{ destruct HyesT as [?|(? & ->)]; eauto. }
    unfold armed_state. split_and!.
    + repeat (progress (sred; rewrite ?asked_trace)). rewrite HnT.
      eexists. split; [rewrite <- !app_assoc; reflexivity|]. apply HPnot.
      repeat first [ apply Forall_app; split | exact HpT | exact HPe
                   | apply Forall_cons; split
                   | apply Forall_nil_2 | destruct force
                   | by intros d [=] ].
    + repeat (progress (sred; rewrite ?asked_transactions)). done.
    + intros _. split; [done|]. eexists. split; [sred; apply last_snoc|].
      eexists "Failed to arm ", _. reflexivity.
    + intros e He. congruence.
  - rewrite deploy_info_run. cbn [deployer_class upgradeable agent_name dependant].
    rewrite (unit_run_deploy_failure force MinerEscrowDeployer true "miner_agent"
               (Some "token_agent") sT e); rewrite ?Hescrow; [|done..].
    unfold deploying_state, armed_state. split_and!.
    + repeat (progress (sred; rewrite ?asked_trace)). rewrite HnT.
      eexists. split; [rewrite <- !app_assoc; reflexivity|]. apply HPnot.
      repeat first [ apply Forall_app; split | exact HpT | exact HPe
                   | apply Forall_cons; split
                   | apply Forall_nil_2 | destruct force
                   | by intros d [=] ].
    + repeat (progress (sred; rewrite ?asked_transactions)). done.
    + intros He. congruence.
    + intros e' _ He'. sred. split; [congruence|]. apply last_snoc.
Qed.
End SecondUnit.

(** The token is deployed and the second contract fails. When the
    MinerEscrow deployer is disqualified the run aborts behind the message
    that names it; when its [deploy()] raises, the run ends with that error
    right after the call. PolicyManager is never built. *)
Lemma second_unit_failure_aborts_witness :
  (let H := disqualifying_world in
   let s := initial [true] [] in
   let r := deploy "contracts" None None true s in
   connect_outcome = inr ["0xA"; "0xB"]
   ∧ r.1 = inl Abort
   ∧ __deployment_transactions r.2 = [("NuCypherToken", [("txhash", "NuCypherToken")])]
   ∧ ∃ text, last (trace r.2) = Some (Echo text) ∧ mentions "MinerEscrow" text)
  ∧ (let H := underfunded_world in
     let s := initial [true] [] in
     let r := deploy "contracts" None None true s in
     connect_outcome = inr ["0xA"; "0xB"]
     ∧ r.1 = inl (Raised "insufficient funds for gas * price + value")
     ∧ __deployment_transactions r.2
       = [("NuCypherToken", [("txhash", "NuCypherToken")])]
     ∧ ∃ d, last (trace r.2) = Some (Deploy d)).
Proof.
  split.
  - intros H s r.
    destruct (@second_unit_failure_aborts disqualifying_world None true s
                "0xA" ["0xB"] [] [("txhash", "NuCypherToken")])
      as (_ & Htx & Harm & _);
      [reflexivity | reflexivity | reflexivity | reflexivity | reflexivity
      | left; reflexivity | reflexivity | reflexivity | left; reflexivity |].
    split; [reflexivity|]. destruct (Harm eq_refl) as [Hr Hlast].
    split; [exact Hr|]. split; [exact Htx|exact Hlast].
  - intros H s r.
    destruct (@second_unit_failure_aborts underfunded_world None true s
                "0xA" ["0xB"] [] [("txhash", "NuCypherToken")])
      as (_ & Htx & _ & Hdep);
      [reflexivity | reflexivity | reflexivity | reflexivity | reflexivity
      | left; reflexivity | reflexivity | reflexivity
      | right; split; [reflexivity|eexists; reflexivity] |].
    split; [reflexivity|].
    destruct (Hdep (Raised "insufficient funds for gas * price + value")
                eq_refl eq_refl) as [Hr Hlast].
    split; [exact Hr|]. split; [exact Htx|]. eexists. exact Hlast.
Defined.

Lemma starts_with_app (name rest : string) : starts_with name (name +:+ rest) = true.
Proof.
  induction name as [|a name IH]; [done|].
  change (String a name +:+ rest) with (String a (name +:+ rest)).
  cbn [starts_with]. by rewrite bool_decide_true, IH.
Qed.

Lemma mentions_contains (name text : string) :
  mentions name text → contains name text = true.
Proof.
  intros (before & after & ->). induction before as [|b before IH].
  - change ("" +:+ name +:+ after) with (name +:+ after).
    destruct (name +:+ after) eqn:E; cbn [contains]; rewrite <- E;
      by rewrite starts_with_app.
  - change (String b before +:+ name +:+ after)
      with (String b (before +:+ name +:+ after)).
    cbn [contains]. rewrite IH. apply orb_true_r.
Qed.

(** The [deploy()] of MinerEscrow raises an error of the ledger client:
    the run ends with that error, which does not name the contract, and
    the command has echoed nothing after the call. *)
Lemma second_unit_error_unnamed :
  let H := underfunded_world in
  let r := deploy "contracts" None None true (initial [true] []) in
  r.1 = inl (Raised "insufficient funds for gas * price + value")
  ∧ ¬ mentions "MinerEscrow" "insufficient funds for gas * price + value"
  ∧ match last (trace r.2) with
    | Some (Deploy d) => deployer_class_of d = MinerEscrowDeployer
    | _ => False
    end
  ∧ __deployment_transactions r.2 = [("NuCypherToken", [("txhash", "NuCypherToken")])].
Proof.
  intros H r. split; [vm_compute; reflexivity|]. split.
  { intros Hm%mentions_contains. vm_compute in Hm. discriminate. }
  split; vm_compute; reflexivity.
Qed.

(** ** A single contract and its dependency *)

Section SingleUnit.
Context `{Collaborators}.

Lemma deployers_table_dependants (name : string) (info : DeployerInfo) (k : string) :
  dict_get name deployers_table = Some info →
  dependant info = Some k →
  truthy name = true.
Proof.
  unfold deployers_table. cbn [dict_set _contract_name]. 
  repeat (rewrite ?decide_False by done; cbn [dict_set]).
  cbn [dict_get]. intros Hget _.
  repeat (destruct (decide _) as [->|?] in Hget; [reflexivity|]). done.
Qed.

(** C4: [__deploy_contract] for a unit that depends on the agent [k] needs
    that agent in [__deployment_agents] when it is called. Without it the
    call raises [KeyError k], the lookup error for the missing dependency,
    and leaves the state as it was: nothing is asked, built or deployed, the
    dependency included. With it, the deployer is built on that very agent.
    In the [deploy] command a single named contract meets an empty
    registry: naming a contract with a dependency deploys nothing and ends
    in an error, which is [KeyError k] once the contracts are reached. *)
Theorem single_unit_requires_agent (force : bool) (cls : DeployerClass) (up : bool)
    (agent_name k : string) (s : State) :
  (__deployment_agents s !! k = None →
   __deploy_contract force cls up agent_name (Some k) s = (inl (KeyError k), s))
  ∧ (∀ ag, __deployment_agents s !! k = Some ag → k ≠ "secret_hash" →
     ∃ d rest,
       trace (__deploy_contract force cls up agent_name (Some k) s).2
       = trace s ++ Construct d :: rest
       ∧ deployer_class_of d = cls
       ∧ init_args d !! k = Some (AAgent ag))
  ∧ (∀ a name info,
       dict_get name deployers_table = Some info →
       dependant info = Some k →
       let r := deploy "contracts" a (Some name) force s in
       (∃ e, r.1 = inl e)
       ∧ (∃ new, trace r.2 = trace s ++ new ∧ deployer_calls new = [])
       ∧ ∀ first rest cs,
           deployer_flag s = true →
           federated_only s = false →
           compile_flag s = false →
           connect_outcome = inr (first :: rest) →
           confirms s = true :: cs →
           r = (inl (KeyError k), contracts_reached a first rest cs s)).
Proof.
  split_and!.
  - intros Hk. rewrite deploy_contract_run. unfold unit_run, missing_dependency.
    by rewrite Hk.
  - intros ag Hk Hne. rewrite deploy_contract_run.
    destruct (deployer_built_dependency cls up k ag s Hk Hne) as [Hcls Harg].
    exists (deployer_built cls up (Some k) s).
    unfold unit_run, missing_dependency. rewrite Hk.
    set (d := deployer_built cls up (Some k) s) in *.
    unfold agreed, asked.
    destruct up, force; sred.
    all: try (destruct (confirms s) as [|[] cs]; sred).
    all: try (destruct (arm_outcome d) as [[] dq]; sred).
    all: try (destruct cs as [|[] cs']; sred).
    all: try (destruct (deploy_outcome d) as [e|txs]; sred).
    all: eexists; (split; [rewrite <- ?app_assoc; reflexivity|done]).
  - intros a name info Hget Hdep r.
    assert (∀ s1, __deployment_agents s1 = ∅ →
              deploy_phase force (Some name) deployers_table
                (join ", " (dict_keys deployers_table)) s1
              = (inl (KeyError k), s1)) as Hphase.
    { intros s1 Hs1. unfold deploy_phase.
      rewrite (deployers_table_dependants name info k Hget Hdep), Hget.
      rewrite deploy_info_run, Hdep. unfold unit_run, missing_dependency.
      by rewrite Hs1, lookup_empty. }
    split_and!.
    + destruct (deploy_contracts_shape a (Some name) force s)
        as [[He _]|(s1 & _ & Hag & _ & Hr)]; [exact He|].
      cbv zeta in Hr. rewrite (Hphase s1 Hag) in Hr.
      destruct Hr as [[_ Hr]|[? _]]; [|done]. fold r in Hr. rewrite Hr. by eexists.
    + destruct (deploy_contracts_shape a (Some name) force s)
        as [[_ (n0 & Hn0 & Hq0)]|(s1 & (n0 & Hn0 & Hq0) & Hag & _ & Hr)].
      * exists n0. split; [exact Hn0|]. by apply quiet_calls.
      * cbv zeta in Hr. rewrite (Hphase s1 Hag) in Hr.
        destruct Hr as [[_ Hr]|[? _]]; [|done]. fold r in Hr. rewrite Hr.
        exists n0. split; [exact Hn0|]. by apply quiet_calls.
    + intros first rest cs Hd Hf Hc Hconn Hcs. subst r.
      rewrite (deploy_reaches_contracts a (Some name) force s first rest cs) by done.
      mred. rewrite Hphase; [done|].
      by destruct (contracts_reached_fields a first rest cs s) as (_ & ? & _).
Qed.

End SingleUnit.

(** MinerEscrow on its own, in a registry without the token agent. *)
Lemma single_unit_requires_agent_witness :
  let H := reference_world in
  __deployment_agents (initial [true] []) !! "token_agent" = None
  ∧ __deploy_contract true MinerEscrowDeployer true "miner_agent"
      (Some "token_agent") (initial [true] [])
    = (inl (KeyError "token_agent"), initial [true] []).
Proof.
  intros H. split; [reflexivity|].
  apply (proj1 (@single_unit_requires_agent reference_world true MinerEscrowDeployer
                  true "miner_agent" "token_agent" (initial [true] []))).
  reflexivity.
Defined.

(** ** What [--force] changes *)

Section Force.
Context `{Collaborators}.

Lemma unprompted_snoc_confirm (t : list Event) (q : string) :
  unprompted (t ++ [Confirm q]) = unprompted t.
Proof. unfold unprompted. rewrite filter_app. cbn. by rewrite app_nil_r. Qed.

Lemma unprompted_snoc (t : list Event) (e : Event) :
  is_confirm e = false → unprompted (t ++ [e]) = unprompted t ++ [e].
Proof.
  intros He. unfold unprompted. rewrite filter_app. f_equal.
  by rewrite filter_cons_True.
Qed.

#[local] Instance alike_equiv : Equivalence alike.
Proof.
  split.
  - intros s. by repeat split.
  - intros s1 s2 (?&?&?&?&?&?&?). by repeat split.
  - intros s1 s2 s3 (?&?&?&?&?&?&?) (?&?&?&?&?&?&?). repeat split; by etrans.
Qed.

Lemma alike_deployer_built (cls : DeployerClass) (up : bool) (dep : option string)
    (s1 s2 : State) :
  alike s1 s2 → deployer_built cls up dep s1 = deployer_built cls up dep s2.
Proof.
  intros (_&_&?&?&?&_&Hag). apply deployer_built_ext; try done.
  intros k _. by rewrite Hag.
Qed.

Lemma alike_missing_dependency (dep : option string) (s1 s2 : State) :
  alike s1 s2 → missing_dependency dep s1 = missing_dependency dep s2.
Proof. intros (_&_&_&_&_&_&Hag). unfold missing_dependency. by rewrite Hag. Qed.

(** Rewrites the unprompted traces of two runs to appended lists. *)
Ltac unprompt :=
  sred; rewrite ?unprompted_snoc_confirm;
  repeat (rewrite unprompted_snoc by done; rewrite ?unprompted_snoc_confirm).

Ltac same_leaf :=
  left; split_and!;
  [ reflexivity
  | unfold alike in *; destruct_and?; split_and?; unprompt; congruence
  | first [ by intros ? [=] | by intros _ ] ].

Ltac declined_leaf Hcs :=
  right; split_and!;
  [ reflexivity
  | eexists; sred; apply last_snoc
  | unfold alike in *; destruct_and?; unprompt;
    match goal with Ht : unprompted _ = unprompted _ |- _ => rewrite Ht end;
    rewrite <- ?app_assoc; apply prefix_app; by eexists
  | first [ exists 0%nat; split; [lia|]; rewrite ?Hcs; by cbn
          | exists 1%nat; split; [lia|]; rewrite ?Hcs; by cbn ] ].

Lemma unit_force (cls : DeployerClass) (up : bool) (name : string)
    (dep : option string) (s1 s2 : State) :
  alike s1 s2 →
  let nf := unit_run false cls up name dep s1 in
  let f := unit_run true cls up name dep s2 in
  (nf.1 = f.1 ∧ alike nf.2 f.2
   ∧ (∀ v, nf.1 = inr v → confirms nf.2 = drop 2 (confirms s1)))
  ∨ declined 2 s1 nf f.
Proof.
  intros Hs nf f. subst nf f. unfold unit_run.
  rewrite (alike_deployer_built cls up dep s1 s2 Hs).
  rewrite (alike_missing_dependency dep s1 s2 Hs).
  set (d := deployer_built cls up dep s2).
  destruct (missing_dependency dep s2) as [k|]; [same_leaf|].
  unfold agreed, asked, declined.
  destruct (arm_outcome d) as [[] dq]; destruct (deploy_outcome d) as [e|txs];
    destruct up; sred;
    destruct (confirms s1) as [|[] [|[] cs]] eqn:Hcs; sred.
  all: first [same_leaf | declined_leaf Hcs].
Qed.

Lemma sat_deploy_info (force : bool) (info : DeployerInfo) :
  sat (extends (λ _, True)) (deploy_info force info).
Proof.
  intros s. rewrite deploy_info_run.
  destruct (unit_spec force (deployer_class info) (upgradeable info)
              (agent_name info) (dependant info) s) as (new & Hnew & _).
  destruct (unit_run _ _ _ _ _ s) as [[e|v] s']; cbn [snd] in *;
    exists new; split; try done; by apply Forall_forall.
Qed.

Lemma unprompted_extends (P : Event → Prop) (s s' : State) :
  extends P s s' → unprompted (trace s) `prefix_of` unprompted (trace s').
Proof.
  intros (new & -> & _). unfold unprompted. rewrite filter_app. by eexists.
Qed.

Lemma sat_forced_confirms (info : DeployerInfo) :
  sat (keeps confirms) (deploy_info true info).
Proof.
  intros s. rewrite deploy_info_run. unfold unit_run, keeps, agreed, asked.
  destruct (missing_dependency _ s); [done|]. sred.
  destruct (arm_outcome _) as [[] dq]; sred;
    [destruct (deploy_outcome _) as [e|txs]|]; destruct (upgradeable info); done.
Qed.

Lemma loop_force (infos : list DeployerInfo) (s1 s2 : State) :
  alike s1 s2 →
  let nf := for_each infos (deploy_info false) s1 in
  let f := for_each infos (deploy_info true) s2 in
  (nf.1 = f.1 ∧ alike nf.2 f.2) ∨ declined (2 * length infos) s1 nf f.
Proof.
  revert s1 s2. induction infos as [|info infos IH]; intros s1 s2 Hs nf f; subst nf f.
  { left. by split. }
  cbn [for_each]. mred. rewrite !deploy_info_run.
  pose proof (sat_for_each (extends (λ _, True)) infos (deploy_info true)
                (sat_deploy_info true)) as Hext.
  destruct (unit_force (deployer_class info) (upgradeable info) (agent_name info)
              (dependant info) s1 s2 Hs) as [(Hr & Ha & Hc)|(Hr & Hl & Hp & n & Hn & Hc)].
  - destruct (unit_run false _ _ _ _ s1) as [[e|v] s1'];
      destruct (unit_run true _ _ _ _ s2) as [[e'|v'] s2']; cbn [fst snd] in *;
      try done.
    + left. split; [congruence|done].
    + specialize (Hc v eq_refl).
      destruct (IH s1' s2' Ha) as [Hsame|(Hr' & Hl' & Hp' & n & Hn & Hc')];
        [by left|right].
      split_and!; cbn [fst snd]; try done; try (by simplify_eq). exists (2 + n)%nat. split; [cbn [length]; lia|].
      by rewrite Hc, lookup_drop in Hc'.
  - right. destruct (unit_run false _ _ _ _ s1) as [[e|v] s1']; cbn [fst snd] in *;
      [injection Hr as ->|done].
    destruct (unit_run true _ _ _ _ s2) as [[e'|v'] s2']; cbn [fst snd] in *.
    + split_and!; cbn [fst snd]; try done; try (by simplify_eq). exists n. split; [cbn [length]; lia|done].
    + split_and!; cbn [fst snd]; try done; try (by simplify_eq).
      * etrans; [exact Hp|]. eapply unprompted_extends, Hext.
      * exists n. split; [cbn [length]; lia|done].
Qed.

Lemma declined_more {A} (n m : nat) (s : State) (nf f : (Exn + A) * State) :
  (n ≤ m)%nat → declined n s nf f → declined m s nf f.
Proof.
  intros Hnm (? & ? & ? & k & ? & ?). split_and!; cbn [fst snd]; try done; try (by simplify_eq). exists k.
  split; [lia|done].
Qed.

(** C8: the contracts of one [deploy] run, with and without [--force],
    from the same state. Either the two runs end alike: the same result
    (the same [KeyError] of a missing agent, the same [Abort] behind the
    same "Failed to arm" message, the same exception of [deploy()], or the
    same success), the same secrets drawn, the same deployers built on the
    same agents and armed and deployed in the same order, the same
    dictionaries; or the run without [--force] stopped at a confirmation
    that the user did not give, one of the first six answers, having done
    until then what the forced run does. The forced run reads no answer,
    and with [--force] the two closing questions are not asked. *)
Theorem force_only_skips_confirmations (name : option string) (text : string)
    (s : State) :
  let nf := deploy_phase false name deployers_table text s in
  let f := deploy_phase true name deployers_table text s in
  ((nf.1 = f.1 ∧ alike nf.2 f.2) ∨ declined 6 s nf f)
  ∧ confirms f.2 = confirms s
  ∧ view_transactions true f.2 = (inr tt, f.2)
  ∧ save_transactions true f.2 = (inr tt, f.2).
Proof.
  intros nf f. subst nf f. split_and!; [| |done|done].
  - unfold deploy_phase. rewrite deployers_table_infos.
    assert (alike s s) as Hs by done.
    destruct name as [name|]; [destruct (truthy name)|];
      try (exact (loop_force _ s s Hs)).
    destruct (dict_get name deployers_table) as [info|]; [|by left].
    rewrite !deploy_info_run.
    destruct (unit_force (deployer_class info) (upgradeable info) (agent_name info)
                (dependant info) s s Hs) as [(Hr & Ha & _)|Hdec].
    + left. destruct (unit_run false _ _ _ _ s) as [[e|v] s1'];
        destruct (unit_run true _ _ _ _ s) as [[e'|v'] s2']; cbn [fst snd] in *;
        try done. split; [congruence|done].
    + right. apply (declined_more 2 6) ; [lia|].
      destruct Hdec as (Hr & Hl & Hp & Hn).
      destruct (unit_run false _ _ _ _ s) as [[e|v] s1']; cbn [fst snd] in *;
        [injection Hr as ->|done].
      destruct (unit_run true _ _ _ _ s) as [[e'|v'] s2']; split_and!; cbn [fst snd]; try done; by simplify_eq.
  - unfold deploy_phase.
    pose proof (sat_for_each (keeps confirms) deployers_table.*2 (deploy_info true)
                  sat_forced_confirms s) as Hall.
    destruct name as [name|]; [destruct (truthy name)|]; try exact Hall.
    destruct (dict_get name deployers_table) as [info|]; [|done].
    apply sat_forced_confirms.
Qed.

End Force.

(** ** Secrets *)

Section Secrets.
Context `{Collaborators}.

(** The checks of [__collect_secret] on a pair they are given: a secret
    of 32 bytes that equals its confirmation is stored without a question. *)
Lemma secret_checks_valid (again : M (gmap string Arg * list byte))
    (c : list byte) (args : gmap string Arg) (s : State) :
  length c = 32%nat →
  secret_checks again c c args s = (inr (<["secret_hash" := ASecret c]> args, c), s).
Proof.
  intros Hc. unfold secret_checks.
  rewrite bool_decide_false by (intros ?; done).
  by rewrite bool_decide_false by (intros ?; done).
Qed.

(** A secret of another length is reported, and collected again when
    the user says so. *)
Lemma secret_checks_retry (again : M (gmap string Arg * list byte))
    (c c' : list byte) (args : gmap string Arg) (s : State)
    (answer : string) (ps : list string) :
  length c ≠ 32%nat →
  prompts s = answer :: ps →
  truthy answer = true →
  secret_checks again c c' args s
  = again (with_prompts ps
             (record (Prompt "Try again?")
                (record (Echo "Deployer secret must be 32 bytes.") s))).
Proof.
  intros Hc Hps Hans. unfold secret_checks.
  rewrite bool_decide_true by done. exec. rewrite Hps. exec. by rewrite Hans.
Qed.

(** When the user answers the length question with an empty value, the
    checks go on to the comparison, and a secret that equals its
    confirmation is stored whatever its length. [__collect_secret] never
    meets this case, its secret being [os.urandom(32)]. *)
Lemma secret_checks_fallthrough (again : M (gmap string Arg * list byte))
    (c : list byte) (args : gmap string Arg) (s : State) (ps : list string) :
  length c ≠ 32%nat →
  prompts s = "" :: ps →
  (secret_checks again c c args s).1
  = inr (<["secret_hash" := ASecret c]> args, c).
Proof.
  intros Hc Hps. unfold secret_checks.
  rewrite bool_decide_true by done. exec. rewrite Hps. exec.
  by rewrite bool_decide_false by (intros ?; done).
Qed.

Lemma commitment_valid_iff (c : SecretCommitment) :
  commitment_valid c = true
  ↔ length (secret c) = 32%nat ∧ length (confirmation c) = 32%nat
    ∧ secret c = confirmation c.
Proof.
  unfold commitment_valid. rewrite !andb_true_iff, !bool_decide_eq_true. tauto.
Qed.

Lemma deploy_contract_parts (force : bool) (deployer_class : DeployerClass)
    (upgradeable : bool) (agent_name : string) (dependant : option string) :
  __deploy_contract force deployer_class upgradeable agent_name dependant
  = (s ← get;
     let args0 : gmap string Arg :=
       <["deployer_address" := AAddress (deployer_address s)]>
         (<["blockchain" := ABlockchain]> ∅) in
     args1 ← match dependant with
             | Some d => ag ← lookup_agent d; mret (<[d := AAgent ag]> args0)
             | None => mret args0
             end;
     args2 ← (if upgradeable
              then r ← __collect_secret recursion_limit args1; mret r.1
              else mret args1);
     let __deployer := mkDeployer deployer_class args2 in
     emit (Construct __deployer);;
     arm_and_deploy force deployer_class agent_name __deployer).
Proof. reflexivity. Qed.

(** A secret that differs from its confirmation is reported, and collected
    again when the user says so. *)
Lemma secret_checks_mismatch (again : M (gmap string Arg * list byte))
    (c c' : list byte) (args : gmap string Arg) (s : State)
    (answer : string) (ps : list string) :
  length c = 32%nat →
  c ≠ c' →
  prompts s = answer :: ps →
  truthy answer = true →
  secret_checks again c c' args s
  = again (with_prompts ps
             (record (Prompt "Try again?")
                (record (Echo "Secrets did not match") s))).
Proof.
  intros Hc Hne Hps Hans. unfold secret_checks.
  rewrite (bool_decide_false (length c ≠ 32%nat)) by (intros ?; done).
  rewrite (bool_decide_true (c ≠ c')) by done.
  exec. rewrite Hps. exec. by rewrite Hans.
Qed.

Lemma arm_spec_armed (i : ArmInput) : (arm_spec i).1 = true ↔ (arm_spec i).2 = [].
Proof. unfold arm_spec. cbn [fst snd]. apply bool_decide_eq_true. Qed.

Lemma secret_disqualifications_nil (c : SecretCommitment) :
  secret_disqualifications c = [] ↔ commitment_valid c = true.
Proof.
  unfold secret_disqualifications, commitment_valid.
  repeat case_bool_decide; cbn [andb app]; split; (done || discriminate).
Qed.

(** Modelled from the spec: with its other preconditions met, [arm]
    accepts an upgradeable unit exactly when the commitment is valid. *)
Lemma arm_spec_upgradeable (i : ArmInput) (c : SecretCommitment) :
  arm_upgradeable i = true →
  commitment i = Some c →
  (arm_spec i).1 = true
  ↔ address_set i = true ∧ commitment_valid c = true ∧ depends_on i ≠ Some None.
Proof.
  intros Hup Hc. rewrite arm_spec_armed. unfold arm_spec. cbn [snd].
  rewrite Hup, Hc. rewrite <- secret_disqualifications_nil.
  destruct (address_set i), (depends_on i) as [[ag|]|];
    destruct (secret_disqualifications c); cbn [app]; split;
    try done; try (intros (? & ? & ?); done).
Qed.

Lemma arm_spec_invalid (i : ArmInput) (c : SecretCommitment) :
  arm_upgradeable i = true →
  commitment i = Some c →
  (length (secret c) ≠ 32%nat →
   (arm_spec i).1 = false ∧ "Deployer secret must be 32 bytes." ∈ (arm_spec i).2)
  ∧ (secret c ≠ confirmation c →
     (arm_spec i).1 = false ∧ "Secrets did not match" ∈ (arm_spec i).2).
Proof.
  intros Hup Hc.
  assert (∀ text, text ∈ secret_disqualifications c →
            (arm_spec i).1 = false ∧ text ∈ (arm_spec i).2) as Hin.
  { intros text Htext.
    assert (text ∈ (arm_spec i).2) as Hmem.
    { unfold arm_spec. cbn [snd]. rewrite Hup, Hc.
      rewrite !elem_of_app. right. by left. }
    split; [|done]. apply not_true_is_false. rewrite arm_spec_armed.
    intros Hnil. rewrite Hnil in Hmem. by apply elem_of_nil in Hmem. }
  split; intros Hbad; apply Hin; unfold secret_disqualifications.
  - rewrite (bool_decide_false (length (secret c) = 32%nat)) by done.
    cbn [andb]. apply elem_of_app. left. apply list_elem_of_here.
  - rewrite (bool_decide_false (secret c = confirmation c)) by done.
    apply elem_of_app. right. apply list_elem_of_here.
Qed.

(** The block of lines 849-872 for a deployer that is not armed: it
    aborts before [deploy()] and records nothing. *)
Lemma arm_and_deploy_rejected (force : bool) (cls : DeployerClass) (name : string)
    (d : Deployer) (s : State) :
  (arm_outcome d).1 = false →
  let r := arm_and_deploy force cls name d s in
  r.1 = inl Abort
  ∧ (∃ new, trace r.2 = trace s ++ new ∧ ∀ d', Deploy d' ∉ new)
  ∧ __deployment_transactions r.2 = __deployment_transactions s
  ∧ __deployment_agents r.2 = __deployment_agents s.
Proof.
  intros Harm r. subst r. unfold arm_and_deploy.
  destruct (arm_outcome d) as [armed dq]. cbn [fst] in Harm. subst armed.
  destruct force; exec.
  2: destruct (confirms s) as [|[] cs]; exec.
  all: (split_and!; [done| |done|done]).
  all: eexists; (split; [rewrite <- ?app_assoc; reflexivity|]).
  all: intros d' Hin; rewrite ?elem_of_app, ?elem_of_cons, ?elem_of_nil in Hin.
  all: destruct_or?; done.
Qed.

(** [deploy()] is called on the deployer that was built, and only after
    it has armed. *)
Lemma deploy_only_armed (force : bool) (cls : DeployerClass) (up : bool)
    (name : string) (dep : option string) (s : State) :
  let d := deployer_built cls up dep s in
  let r := __deploy_contract force cls up name dep s in
  ∀ new d', trace r.2 = trace s ++ new → Deploy d' ∈ new →
    d' = d ∧ (arm_outcome d).1 = true.
Proof.
  intros d r new d'. subst r. rewrite deploy_contract_run. unfold unit_run.
  fold d. generalize d. clear d. intros d.
  destruct (missing_dependency dep s).
  { cbn [snd]. rewrite <- (app_nil_r (trace s)) at 1.
    intros <-%app_inv_head Hin. by apply elem_of_nil in Hin. }
  unfold agreed, asked.
  destruct (arm_outcome d) as [armed dq]. cbn [fst snd].
  destruct up, force, armed; sred.
  all: try (destruct (confirms s) as [|[] cs]; sred).
  all: try (destruct cs as [|[] cs']; sred).
  all: try (destruct (deploy_outcome d) as [e|txs]; sred).
  all: rewrite <- ?app_assoc; intros <-%app_inv_head Hin.
  all: rewrite ?elem_of_app, ?elem_of_cons, ?elem_of_nil in Hin.
  all: destruct_or?; try done.
  all: by injection Hin as ->.
Qed.

(** C3: a secret commitment is valid exactly when the secret and its
    confirmation are both 32 bytes long and equal. The [arm] of the
    specification accepts an upgradeable unit whose other preconditions
    are met exactly when its commitment is valid, with no
    disqualification then; it rejects every secret of another length, one
    of 31 bytes among them, with the disqualification about the length,
    and every secret that differs from its confirmation. On the side of
    the command: [__collect_secret] always hands over 32 bytes that are
    their own confirmation, without a question; an invalid pair is
    reported and collected again; and with deployers that arm as
    specified, the block of lines 849-872 aborts on every deployer whose
    secret is not 32 bytes long before [deploy()] is called, while
    [__deploy_contract] calls [deploy()] on the deployer it built only, and
    only once the specified [arm] has accepted it. *)
Theorem secret_commitment_gates_deploy :
  (∀ d, arm_outcome d = arm_spec (arm_input d)) →
  (∀ c, commitment_valid c = true
        ↔ length (secret c) = 32%nat ∧ length (confirmation c) = 32%nat
          ∧ secret c = confirmation c)
  ∧ (∀ i c,
       arm_upgradeable i = true → commitment i = Some c →
       address_set i = true → depends_on i ≠ Some None →
       ((arm_spec i).1 = true ↔ commitment_valid c = true)
       ∧ (commitment_valid c = true → arm_spec i = (true, [])))
  ∧ (∀ i c,
       arm_upgradeable i = true → commitment i = Some c →
       (length (secret c) ≠ 32%nat →
        (arm_spec i).1 = false
        ∧ "Deployer secret must be 32 bytes." ∈ (arm_spec i).2)
       ∧ (secret c ≠ confirmation c →
          (arm_spec i).1 = false ∧ "Secrets did not match" ∈ (arm_spec i).2))
  ∧ (∀ depth args s,
       ∃ c, __collect_secret (S depth) args s
            = (inr (<["secret_hash" := ASecret c]> args, c),
               with_cursor (cursor s + 32)%nat s)
            ∧ commitment_valid (mkCommitment c c) = true)
  ∧ (∀ again c c' args s answer ps,
       prompts s = answer :: ps → answer ≠ "" →
       length c ≠ 32%nat ∨ c ≠ c' →
       ∃ text, secret_checks again c c' args s
               = again (with_prompts ps
                          (record (Prompt "Try again?") (record (Echo text) s))))
  ∧ (∀ force cls name d x s,
       let r := arm_and_deploy force cls name d s in
       deployer_class_of d ≠ NucypherTokenDeployer →
       init_args d !! "secret_hash" = Some (ASecret x) →
       length x ≠ 32%nat →
       r.1 = inl Abort
       ∧ (∃ new, trace r.2 = trace s ++ new ∧ ∀ d', Deploy d' ∉ new)
       ∧ __deployment_transactions r.2 = __deployment_transactions s
       ∧ __deployment_agents r.2 = __deployment_agents s)
  ∧ (∀ force cls up name dep s new d',
       let d := deployer_built cls up dep s in
       let r := __deploy_contract force cls up name dep s in
       trace r.2 = trace s ++ new → Deploy d' ∈ new →
       d' = d ∧ (arm_spec (arm_input d)).1 = true).
Proof.
  intros Hspec. split_and!.
  - apply commitment_valid_iff.
  - intros i c Hup Hc Haddr Hdep.
    pose proof (arm_spec_upgradeable i c Hup Hc) as Hiff.
    split; [rewrite Hiff; tauto|].
    intros Hvalid.
    assert ((arm_spec i).1 = true) as Harmed by (by apply Hiff).
    pose proof (proj1 (arm_spec_armed i) Harmed) as Hnil.
    by destruct (arm_spec i) as [armed dq]; simplify_eq/=.
  - apply arm_spec_invalid.
  - intros depth args s. eexists. split; [apply collect_secret_run|].
    apply commitment_valid_iff. cbn [secret confirmation].
    by rewrite length_fmap, length_seq.
  - intros again c c' args s answer ps Hps Hans Hbad.
    assert (truthy answer = true) as Htruthy by (by apply bool_decide_eq_true).
    destruct (decide (length c = 32%nat)) as [Hlen|Hlen].
    + destruct Hbad as [?|Hne]; [done|]. eexists.
      by apply (secret_checks_mismatch again c c' args s answer ps).
    + eexists. by apply (secret_checks_retry again c c' args s answer ps).
  - intros force cls name d x s r Hcls Hx Hlen. apply arm_and_deploy_rejected.
    rewrite Hspec.
    refine (proj1 (proj1 (arm_spec_invalid (arm_input d) (mkCommitment x x) _ _) Hlen)).
    + unfold arm_input. cbn [arm_upgradeable].
      by destruct (deployer_class_of d).
    + unfold arm_input. cbn [commitment]. by rewrite Hx.
  - intros force cls up name dep s new d' d r Hnew Hin.
    rewrite <- Hspec. by apply (deploy_only_armed force cls up name dep s new d').
Qed.

End Secrets.

(** With deployers that arm as specified, a MinerEscrow deployer that
    holds a secret of 31 bytes is turned away for the length of the secret,
    and [deploy()] is not called. *)
Lemma secret_commitment_gates_deploy_witness :
  let H := specified_world in
  let r := arm_and_deploy true MinerEscrowDeployer "miner_agent"
             short_secret_deployer (initial [] []) in
  (∀ d, arm_outcome d = arm_spec (arm_input d))
  ∧ r.1 = inl Abort
  ∧ last (trace r.2)
    = Some (Echo ("Failed to arm MinerEscrow. Disqualifications: "
                  +:+ "Deployer secret must be 32 bytes.")).
Proof.
  intros H r. split; [intros d; reflexivity|].
  destruct (@secret_commitment_gates_deploy specified_world
              ltac:(intros d; reflexivity))
    as (_ & _ & _ & _ & _ & Hgate & _).
  destruct (Hgate true MinerEscrowDeployer "miner_agent" short_secret_deployer
              (replicate 31 x00) (initial [] []))
    as (Hr & _); [done|reflexivity|by vm_compute|].
  split; [exact Hr|]. vm_compute. reflexivity.
Defined.

(** ** The stake of a node *)

Section Stake.
Context `{Collaborators}.

Lemma random_randint_run (a b : Z) (s : State) :
  random_randint a b s
  = if bool_decide (b < a)
    then (inl (ValueError (empty_range a (b + 1))), s)
    else (inr (a + (randbelow (b - a + 1) (rng s)).1),
          with_rng (randbelow (b - a + 1) (rng s)).2 s).
Proof.
  unfold random_randint. case_bool_decide; [done|]. exec.
  by destruct (randbelow (b - a + 1) (rng s)).
Qed.

Lemma random_randint_range (a b : Z) (s s' : State) (v : Z) :
  random_randint a b s = (inr v, s') → (a <= v <= b)%Z.
Proof.
  rewrite random_randint_run. case_bool_decide as Hab; [done|].
  intros [= <- _]. pose proof (randbelow_range (b - a + 1) (rng s)). lia.
Qed.

(** The stake depends on the state of the generator only, and only the
    generator changes. *)
Lemma random_stake_run (s : State) :
  ∃ (r : Exn + Z * Z) (st : Z),
    random_stake s = (r, with_rng st s)
    ∧ ∀ s', rng s' = rng s → random_stake s' = (r, with_rng st s').
Proof.
  unfold random_stake. mred. rewrite random_randint_run.
  case_bool_decide as H1.
  { eexists (inl (ValueError _)), (rng s).
    split; [by destruct s|]. intros s' Hs'. rewrite random_randint_run.
    rewrite bool_decide_true by done. rewrite <- Hs'. by destruct s'. }
  rewrite random_randint_run. sred.
  set (d1 := randbelow _ (rng s)).
  case_bool_decide as H2.
  - eexists (inl (ValueError _)), d1.2.
    split; [done|]. intros s' Hs'. rewrite random_randint_run.
    rewrite bool_decide_false by done. rewrite random_randint_run. sred.
    rewrite bool_decide_true by done. by rewrite Hs'.
  - set (d2 := randbelow _ d1.2).
    exists (inr (MIN_ALLOWED_LOCKED + d1.1, MIN_LOCKED_PERIODS + d2.1)), d2.2.
    split; [done|]. intros s' Hs'. rewrite random_randint_run.
    rewrite bool_decide_false by done. rewrite random_randint_run. sred.
    rewrite bool_decide_false by done. by rewrite Hs'.
Qed.

End Stake.

(** ** Words of a formatted text *)

Section Words.

Lemma pretty_N_char_no_space (x : N) : is_space (pretty_N_char x) = false.
Proof.
  unfold pretty_N_char. repeat case_match; reflexivity.
Qed.

Lemma pretty_N_go_no_space (x : N) (s : string) :
  no_space s = true → no_space (pretty_N_go x s) = true.
Proof.
  revert s. induction (N.lt_wf_0 x) as [x _ IH]; intros s Hs.
  destruct (decide (x = 0)%N) as [->|Hx]; [by rewrite pretty_N_go_0|].
  rewrite pretty_N_go_step by lia. apply IH.
  - apply N.div_lt; lia.
  - simpl. by rewrite pretty_N_char_no_space.
Qed.

Lemma pretty_N_go_nonempty (x : N) (s : string) :
  s ≠ "" → pretty_N_go x s ≠ "".
Proof.
  revert s. induction (N.lt_wf_0 x) as [x _ IH]; intros s Hs.
  destruct (decide (x = 0)%N) as [->|Hx]; [by rewrite pretty_N_go_0|].
  rewrite pretty_N_go_step by lia. apply IH; [apply N.div_lt; lia|done].
Qed.

Lemma pretty_N_word (x : N) : is_word (pretty x).
Proof.
  unfold pretty, pretty_N. case_decide as Hx; [by split|].
  split.
  - rewrite pretty_N_go_step by lia. by apply pretty_N_go_nonempty.
  - by apply pretty_N_go_no_space.
Qed.

(** A number is printed as one word. *)
Lemma pretty_Z_word (x : Z) : is_word (pretty x).
Proof.
  destruct x as [|p|p]; unfold pretty, pretty_Z.
  - by split.
  - apply (pretty_N_word (N.pos p)).
  - destruct (pretty_N_word (N.pos p)) as [_ Hp]. split; [done|].
    simpl. exact Hp.
Qed.

Lemma no_space_app (w1 w2 : string) :
  no_space (w1 +:+ w2) = no_space w1 && no_space w2.
Proof.
  induction w1 as [|c w1 IH]; simpl; [done|]. rewrite IH. by rewrite andb_assoc.
Qed.

Lemma is_word_app (w1 w2 : string) :
  is_word w1 → no_space w2 = true → is_word (w1 +:+ w2).
Proof.
  intros [Hne Hw1] Hw2. split.
  - destruct w1; [done|]. simpl. discriminate.
  - by rewrite no_space_app, Hw1, Hw2.
Qed.

Lemma rev_app_rev_app (w a b : string) :
  String.rev_app (String.rev_app w a) b = String.rev_app a (w +:+ b).
Proof.
  revert a b. induction w as [|c w IH]; intros a b; simpl; [done|].
  by rewrite IH.
Qed.

Lemma rev_app_nonempty (w a : string) : a ≠ "" → String.rev_app w a ≠ "".
Proof.
  revert a. induction w as [|c w IH]; intros a Ha; simpl; [done|]. by apply IH.
Qed.

(** Reading a word to its end. *)
Lemma split_go_word (w text acc : string) :
  no_space w = true →
  split_go (w +:+ text) acc = split_go text (String.rev_app w acc).
Proof.
  revert acc. induction w as [|c w IH]; intros acc Hw; simpl in *; [done|].
  apply andb_prop in Hw as [Hc Hw]. apply negb_true_iff in Hc.
  rewrite Hc. by apply IH.
Qed.

Lemma string_app_empty (w : string) : w +:+ "" = w.
Proof.
  induction w as [|c w IH]; [done|].
  change (String c (w +:+ "") = String c w). by rewrite IH.
Qed.

Lemma split_go_last (w : string) : is_word w → split_go w "" = [w].
Proof.
  intros [Hne Hw]. rewrite <- (string_app_empty w) at 1.
  rewrite split_go_word by done. simpl.
  rewrite bool_decide_false.
  - unfold String.rev. rewrite rev_app_rev_app. simpl.
    by rewrite string_app_empty.
  - destruct w as [|c w]; [done|]. simpl. by apply rev_app_nonempty.
Qed.

Lemma split_go_next (w text : string) :
  is_word w → split_go (w +:+ " " +:+ text) "" = w :: split_go text "".
Proof.
  intros [Hne Hw]. rewrite split_go_word by done.
  change (" " +:+ text) with (String " " text).
  cbn [split_go]. replace (is_space " ") with true by reflexivity.
  rewrite bool_decide_false.
  - unfold String.rev. rewrite rev_app_rev_app. simpl.
    by rewrite string_app_empty.
  - destruct w as [|c w]; [done|]. simpl. by apply rev_app_nonempty.
Qed.

(** [str.split()] gives back the words that single blanks separate. *)
Lemma split_join (ws : list string) :
  Forall is_word ws → split (join " " ws) = ws.
Proof.
  unfold split. induction 1 as [|w ws Hw Hws IH]; [done|].
  destruct ws as [|w' ws].
  - simpl. by apply split_go_last.
  - change (join " " (w :: w' :: ws)) with (w +:+ " " +:+ join " " (w' :: ws)).
    rewrite split_go_next by done. by rewrite IH.
Qed.

Lemma ursula_params_words (port : Z) : ursula_params port = worker_params port.
Proof.
  unfold ursula_params, worker_params.
  pose proof (pretty_Z_word port) as Hport.
  rewrite <- (split_join ["ursula"; "run"; "--rest-port"; pretty port;
                          "--db-name"; "sim-" +:+ pretty port]).
  - f_equal.
  - repeat first [apply Forall_cons; split | apply Forall_nil_2];
      try (split; [discriminate|reflexivity]); try done.
    split; [discriminate|]. simpl. apply Hport.
Qed.

End Words.

(** ** The swarm *)

Section Swarm.
Context `{Collaborators}.

Lemma spawns_app (t1 t2 : list Event) : spawns (t1 ++ t2) = spawns t1 ++ spawns t2.
Proof. apply omap_app. Qed.

(** The argument vector is built without an event; only the generator
    moves. *)
Lemma process_params_run (geth : bool) (uri : string) (port : Z) (addr : string)
    (s : State) :
  ∃ (r : Exn + list string) (st : Z),
    process_params_of geth uri port addr s = (r, with_rng st s)
    ∧ ∀ args, r = inr args → ∃ pre post, args = pre ++ ursula_params port ++ post.
Proof.
  unfold process_params_of. mred.
  destruct (federated_only s) eqn:Hf; sred.
  - eexists _, (rng s). split; [by destruct s|].
    intros args [= <-]. eexists _, []. by rewrite app_nil_r.
  - destruct (random_stake_run s) as (r & st & -> & _).
    destruct r as [e|[value periods]].
    + by eexists _, st.
    + eexists _, st. split; [done|]. intros args [= <-].
      eexists _, _. by rewrite <- app_assoc.
Qed.

Lemma spawn_node_failure (geth : bool) (uri : string) (counter port : Z)
    (addr : string) (s s2 : State) (args : list string) (e : Exn) :
  process_params_of geth uri port addr s = (inr args, s2) →
  spawn_outcome args = inl e →
  spawn_node geth uri counter port addr s
  = (inl e, recorded [Echo ("Spawning node #" +:+ pretty (counter + 1));
                      SpawnProcess cli_exec args addr] s2).
Proof.
  intros Hp He. unfold spawn_node, reactor_spawnProcess. mred.
  rewrite Hp. rewrite He. unfold recorded, record. sred.
  by rewrite <- app_assoc.
Qed.


(** A node that is spawned: one more spawn, one more tracked process. *)
Lemma spawn_node_success (geth : bool) (uri : string) (counter port : Z)
    (addr : string) (s s' : State) :
  spawn_node geth uri counter port addr s = (inr tt, s') →
  ∃ spawn process,
    worker_of (port, addr) spawn
    ∧ spawns (trace s') = spawns (trace s) ++ [spawn]
    ∧ sim_processes s' = Some (tracked s ++ [process])
    ∧ federated_only s' = federated_only s
    ∧ deployer_address s' = deployer_address s.
Proof.
  unfold spawn_node, reactor_spawnProcess, sim_processes_append. mred.
  destruct (process_params_run geth uri port addr s) as (r & st & -> & Hargs).
  destruct r as [e|args]; [done|].
  destruct (Hargs args eq_refl) as (pre & post & Hshape).
  destruct (spawn_outcome args) as [e|child]; [done|]. exec.
  destruct (sim_processes s) as [l|] eqn:Hl; [|done]. exec.
  intros [= <-]. exists (args, addr), (mkProcess (next_obj s) child). sred.
  split_and!; try done.
  - split; [done|]. exists pre, post. simpl.
    by rewrite Hshape, ursula_params_words.
  - rewrite !spawns_app. simpl. by rewrite !app_nil_r.
  - unfold tracked. by rewrite Hl.
Qed.


Lemma spawn_swarm_app (geth : bool) (uri : string) (before after : list (Z * string))
    (counter : Z) (s : State) :
  spawn_swarm geth uri (before ++ after) counter s
  = match spawn_swarm geth uri before counter s with
    | (inr _, s1) => spawn_swarm geth uri after (counter + Z.of_nat (length before)) s1
    | (inl e, s1) => (inl e, s1)
    end.
Proof.
  revert counter s. induction before as [|[port addr] before IH]; intros counter s.
  - simpl. by rewrite Z.add_0_r.
  - cbn [spawn_swarm app]. mred.
    destruct (spawn_node geth uri counter port addr s) as [[e|[]] s1]; [done|].
    rewrite IH.
    replace (counter + 1 + Z.of_nat (length before))
      with (counter + Z.of_nat (length ((port, addr) :: before)))
      by (simpl length; lia).
    done.
Qed.

(** A swarm that is spawned whole: one spawn and one tracked process per
    node, in the order of the nodes. *)
Lemma spawn_swarm_success (geth : bool) (uri : string) (nodes : list (Z * string))
    (counter : Z) (s s' : State) :
  spawn_swarm geth uri nodes counter s = (inr tt, s') →
  ∃ new processes,
    Forall2 worker_of nodes new
    ∧ spawns (trace s') = spawns (trace s) ++ new
    ∧ tracked s' = tracked s ++ processes
    ∧ length processes = length nodes
    ∧ federated_only s' = federated_only s
    ∧ deployer_address s' = deployer_address s.
Proof.
  revert counter s. induction nodes as [|[port addr] nodes IH]; intros counter s.
  - intros [= <-]. exists [], []. by rewrite !app_nil_r.
  - cbn [spawn_swarm]. mred.
    destruct (spawn_node geth uri counter port addr s) as [[e|[]] s1] eqn:Hnode;
      [done|].
    intros Hrest.
    apply spawn_node_success in Hnode
      as (spawn & process & Hw & Hsp & Htr & Hfed & Hdep).
    apply IH in Hrest as (new & processes & Hws & Hsp' & Htr' & Hlen & Hfed' & Hdep').
    exists (spawn :: new), (process :: processes). split_and!.
    + by constructor.
    + by rewrite Hsp', Hsp, <- app_assoc.
    + rewrite Htr'. unfold tracked at 1. rewrite Htr. simpl. by rewrite <- app_assoc.
    + simpl. by rewrite Hlen.
    + congruence.
    + congruence.
Qed.

(** X31: The swarm loop of lines 665-719, taken on its own, handles no
    exception. When the nodes [before] are spawned, each on its port with
    the database of that port, and spawning the next node raises [e], the
    loop ends with [e] itself: the nodes before it stay spawned and tracked,
    the spawn that failed is the last event, no node after it is tried, and
    the outcome does not depend on the nodes [after]. *)
Theorem spawn_failure_ends_swarm (geth : bool) (uri : string)
    (before after : list (Z * string)) (port : Z) (addr : string) (counter : Z)
    (s s1 s2 : State) (args : list string) (e : Exn) :
  spawn_swarm geth uri before counter s = (inr tt, s1) →
  process_params_of geth uri port addr s1 = (inr args, s2) →
  spawn_outcome args = inl e →
  let r := spawn_swarm geth uri (before ++ (port, addr) :: after) counter s in
  r = (inl e, recorded [Echo ("Spawning node #" +:+ pretty (counter + Z.of_nat (length before) + 1));
                        SpawnProcess cli_exec args addr] s2)
  ∧ ∃ new processes,
      Forall2 worker_of before new
      ∧ spawns (trace r.2) = spawns (trace s) ++ new ++ [(args, addr)]
      ∧ tracked r.2 = tracked s ++ processes
      ∧ length processes = length before.
Proof.
  intros Hbefore Hparams Hspawn r.
  assert (r = (inl e, recorded [Echo ("Spawning node #"
                                      +:+ pretty (counter + Z.of_nat (length before) + 1));
                                SpawnProcess cli_exec args addr] s2)) as Hr.
  { unfold r. rewrite spawn_swarm_app, Hbefore. cbn [spawn_swarm]. mred.
    by rewrite (spawn_node_failure _ _ _ _ _ _ _ _ _ Hparams Hspawn). }
  split; [done|].
  apply spawn_swarm_success in Hbefore as (new & processes & Hws & Hsp & Htr & Hlen & _).
  exists new, processes.
  destruct (process_params_run geth uri port addr s1) as (r' & st & Hrun & _).
  rewrite Hparams in Hrun. injection Hrun as _ ->.
  rewrite Hr. cbn [snd]. split_and!; [done| | |done].
  - unfold recorded. sred. rewrite !spawns_app, Hsp. simpl.
    by rewrite <- app_assoc.
  - by rewrite <- Htr.
Qed.

End Swarm.

(** The second of three nodes cannot be spawned. *)
Lemma spawn_failure_ends_swarm_witness :
  let H := failing_at "8788" (Raised "OSError: out of processes") in
  let first := spawn_swarm false "tester://pyevm" [(8787, "0x1")] 0 (crowded []) in
  let args :=
    ["nucypher-cli"; "--dev"; "--registry-filepath"; "/tmp/sim-registry.json";
     "--provider-uri"; "tester://pyevm"; "ursula"; "run"; "--rest-port"; "8788";
     "--db-name"; "sim-8788"; "--checksum-address"; "0x2"; "--stake-amount";
     "311131"; "--stake-periods"; "239"] in
  let params := process_params_of false "tester://pyevm" 8788 "0x2" first.2 in
  let r := spawn_swarm false "tester://pyevm"
             ([(8787, "0x1")] ++ (8788, "0x2") :: [(8789, "0x3")]) 0 (crowded []) in
  first.1 = inr tt
  ∧ params.1 = inr args
  ∧ spawn_outcome args = inl (Raised "OSError: out of processes")
  ∧ r.1 = inl (Raised "OSError: out of processes").
Proof.
  intros H first args params r.
  split; [vm_compute; reflexivity|]. split; [vm_compute; reflexivity|].
  split; [vm_compute; reflexivity|].
  pose proof (@spawn_failure_ends_swarm H false "tester://pyevm"
              [(8787, "0x1")] [(8789, "0x3")] 8788 "0x2" 0 (crowded [])
              first.2 params.2 args (Raised "OSError: out of processes")) as Hthm.
  destruct Hthm as [Hr _].
  - vm_compute; reflexivity.
  - vm_compute; reflexivity.
  - vm_compute; reflexivity.
  - fold r in Hr. rewrite Hr. reflexivity.
Defined.

(** ** Before the reactor runs *)

Section Prepare.
Context `{Collaborators}.


Lemma length_enumerate {A} (l : list A) (start : Z) :
  length (enumerate l start) = length l.
Proof. revert start. induction l as [|x l IH]; intros start; simpl; congruence. Qed.

Lemma enumerate_lookup {A} (l : list A) (start : Z) (i : nat) :
  enumerate l start !! i = (λ x, (start + Z.of_nat i, x)) <$> l !! i.
Proof.
  revert start i. induction l as [|x l IH]; intros start [|i]; simpl; try done.
  - by rewrite Z.add_0_r.
  - rewrite IH. destruct (l !! i); simpl; [|done]. do 2 f_equal. lia.
Qed.

Lemma list_remove_length (x : Process) (l l' : list Process) :
  list_remove x l = Some l' → S (length l') = length l.
Proof.
  revert l'. induction l as [|y l IH]; intros l'; simpl; [done|].
  case_decide; [by intros [= ->]|].
  destruct (list_remove x l) as [l''|]; simpl; [|done].
  intros [= <-]. simpl. by rewrite (IH l'').
Qed.

Lemma sat_prestart_cleanup (R : State → State → Prop) `{!PreOrder R} :
  (∀ s l killed, R s (cleaned s l killed)) →
  ∀ i, sat R (prestart_cleanup i).
Proof.
  intros HR i s.
  remember (length (tracked s) - i)%nat as n eqn:Hn.
  revert i s Hn. induction (lt_wf n) as [n _ IH]. intros i s ->.
  rewrite prestart_cleanup_step.
  destruct (tracked s !! i) as [process|] eqn:Hi; [|done].
  destruct (list_remove process (tracked s)) as [l'|] eqn:Hl'; [|done].
  etrans; [apply (HR s l' [process])|].
  apply lookup_lt_Some in Hi. apply list_remove_length in Hl'.
  eapply IH; [|done]. unfold tracked at 1. simpl. lia.
Qed.

Lemma preparing_cleaned (s : State) (l killed : list Process) :
  preparing s (cleaned s l killed).
Proof.
  split; [|done]. eexists. split; [done|].
  apply Forall_fmap, Forall_true. done.
Qed.

Lemma sat_reset_sim_processes : sat preparing reset_sim_processes.
Proof.
  unfold reset_sim_processes. sat_auto.
  - apply sat_prestart_cleanup; [apply _|]. apply preparing_cleaned.
  - apply sat_modify. intros s. split; [by apply extends_same|done].
Qed.


Lemma sat_bootstrap_chain (nodes : Z) (geth pyevm : bool) :
  sat bootstrapping (bootstrap_chain nodes geth pyevm).
Proof.
  unfold bootstrap_chain, bootstrapping, preparing, external, unpack_origin,
    deployer_arm, deployer_deploy, deployer_make_agent.
  sat_auto.
Qed.

End Prepare.

(** ** The cleanup before a start, for any tracked list *)

Section CleanupAny.
Context `{Collaborators}.

Lemma list_remove_present (x : Process) (l : list Process) :
  x ∈ l → ∃ l', list_remove x l = Some l' ∧ l ≡ₚ x :: l' ∧ l' `sublist_of` l.
Proof.
  induction l as [|y l IH]; intros Hx; [by apply elem_of_nil in Hx|].
  simpl. destruct (decide (x = y)) as [->|Hne].
  - exists l. split_and!; [done..|]. by apply sublist_cons.
  - apply elem_of_cons in Hx as [?|Hx]; [done|].
    destruct (IH Hx) as (l' & -> & Hperm & Hsub). exists (y :: l'). simpl.
    split_and!; [done| |by apply sublist_skip].
    rewrite Hperm. apply Permutation_swap.
Qed.

Lemma prestart_cleanup_any (i : nat) (s : State) (l0 : list Process) :
  sim_processes s = Some l0 →
  ∃ l killed,
    prestart_cleanup i s = (inr tt, cleaned s l killed)
    ∧ l0 ≡ₚ killed ++ l
    ∧ l `sublist_of` l0
    ∧ head killed = l0 !! i.
Proof.
  remember (length l0 - i)%nat as n eqn:Hn.
  revert i s l0 Hn. induction (lt_wf n) as [n _ IH]. intros i s l0 -> Hs.
  rewrite prestart_cleanup_step. unfold tracked. rewrite Hs. simpl default.
  destruct (l0 !! i) as [process|] eqn:Hi.
  - destruct (list_remove_present process l0) as (l' & -> & Hperm & Hsub).
    { by eapply list_elem_of_lookup_2. }
    apply lookup_lt_Some in Hi.
    assert (S (length l') = length l0) as Hlen.
    { apply Permutation_length in Hperm. simpl in Hperm. lia. }
    destruct (IH (length l' - S i)%nat ltac:(lia) (S i) (cleaned s l' [process]) l'
                eq_refl eq_refl) as (l & killed & -> & Hperm' & Hsub' & _).
    exists l, (process :: killed). rewrite cleaned_cleaned.
    split_and!; [done| |by etrans|done].
    rewrite Hperm. simpl. by rewrite Hperm'.
  - exists l0, []. rewrite cleaned_id by done. by split_and!.
Qed.

Lemma reset_sim_processes_run (s : State) :
  ∃ l killed,
    reset_sim_processes s = (inr tt, cleaned s l killed)
    ∧ tracked s ≡ₚ killed ++ l
    ∧ l `sublist_of` tracked s
    ∧ head killed = head (tracked s).
Proof.
  unfold reset_sim_processes, tracked. mred.
  destruct (sim_processes s) as [l0|] eqn:Hs; simpl default.
  - case_bool_decide as Hlen.
    + rewrite head_lookup. by apply prestart_cleanup_any.
    + exists l0, []. rewrite cleaned_id by done. split_and!; [done..|].
      destruct l0; [done|]. simpl in Hlen. lia.
  - exists [], []. split_and!; [|done..].
    destruct s. unfold with_sim_processes, cleaned. simpl in *.
    by rewrite app_nil_r.
Qed.

End CleanupAny.

(** ** The parts of [simulate start] *)

Section Parts.
Context `{Collaborators}.

Lemma bootstrap_chain_parts (nodes : Z) (geth pyevm : bool) :
  bootstrap_chain nodes geth pyevm
  = (select_backend geth pyevm;;
     s ← get;
     if bool_decide (provider_uri s ∉ supported_sim_uris)
     then click_echo (unsupported_backend (provider_uri s));; raise Abort
     else bootstrap_contracts nodes (provider_uri s)).
Proof. reflexivity. Qed.

Lemma prepare_swarm_parts (nodes : Z) (geth pyevm : bool) :
  prepare_swarm nodes geth pyevm
  = (reset_sim_processes;; after_cleanup nodes geth pyevm).
Proof. reflexivity. Qed.

Lemma simulate_start_run (nodes : Z) (geth pyevm : bool) (s : State) :
  simulate "start" nodes geth pyevm s
  = (prepare_swarm nodes geth pyevm;; try_finally reactor_run teardown) s.
Proof. unfold simulate. by rewrite bool_decide_true. Qed.

End Parts.

(** ** Starts that never reach the swarm *)

Section EarlyExits.
Context `{Collaborators}.

(** X2: In federated mode [simulate start] can only fail: after the cleanup
    and the message that the swarm is ready, the loop over [NotImplemented]
    raises [TypeError]. No chain is set up, no process is spawned, the
    reactor does not run. *)
Theorem federated_start_fails (nodes : Z) (geth pyevm : bool) (s : State) :
  federated_only s = true →
  ∃ l killed,
    tracked s ≡ₚ killed ++ l
    ∧ simulate "start" nodes geth pyevm s
      = (inl (TypeError "'NotImplementedType' object is not iterable"),
         record (Echo "Ready to run swarm.") (cleaned s l killed)).
Proof.
  intros Hfed. destruct (reset_sim_processes_run s) as (l & killed & Hrun & Hperm & _).
  exists l, killed. split; [done|].
  rewrite simulate_start_run, prepare_swarm_parts. mred. rewrite Hrun.
  unfold after_cleanup. mred.
  change (federated_only (cleaned s l killed)) with (federated_only s).
  rewrite Hfed. done.
Qed.

(** X3: Without a backend flag, a provider URI that is not one of the three
    supported ones ends [simulate start] with [Abort] behind the message
    that names it, before any collaborator of the chain is called. *)
Theorem unsupported_backend_aborts (nodes : Z) (s : State) :
  federated_only s = false →
  provider_uri s ∉ supported_sim_uris →
  ∃ l killed,
    tracked s ≡ₚ killed ++ l
    ∧ simulate "start" nodes false false s
      = (inl Abort,
         record (Echo (unsupported_backend (provider_uri s))) (cleaned s l killed)).
Proof.
  intros Hfed Huri.
  destruct (reset_sim_processes_run s) as (l & killed & Hrun & Hperm & _).
  exists l, killed. split; [done|].
  rewrite simulate_start_run, prepare_swarm_parts. mred. rewrite Hrun.
  unfold after_cleanup. mred.
  change (federated_only (cleaned s l killed)) with (federated_only s).
  rewrite Hfed. sred.
  rewrite bootstrap_chain_parts. unfold select_backend. mred.
  change (provider_uri (cleaned s l killed)) with (provider_uri s).
  by rewrite bool_decide_true.
Qed.

(** X4: A backend flag replaces the configured provider URI, [--geth] before
    [--pyevm], and the backend so chosen always passes the check: the chain
    is set up for it. *)
Theorem backend_flag_selects_provider (nodes : Z) (geth pyevm : bool) (s : State) :
  (geth || pyevm) = true →
  let chosen := if geth then "ipc:///tmp/geth.ipc" else "tester://pyevm" in
  bootstrap_chain nodes geth pyevm s
  = bootstrap_contracts nodes chosen (with_provider_uri chosen s).
Proof.
  intros Hflag chosen. rewrite bootstrap_chain_parts. unfold select_backend.
  destruct geth; [|destruct pyevm; [|done]]; mred; sred;
    (rewrite bool_decide_false;
       [|intros Hn; apply Hn; unfold supported_sim_uris;
         repeat first [apply list_elem_of_here | apply list_elem_of_further]]);
    sred; reflexivity.
Qed.

End EarlyExits.

(** A federated start over the five processes of an earlier run. *)
Lemma federated_start_fails_witness :
  let H := reference_world in
  let s := mkState [] [] (λ _, x00) 0 42 5 false true false "tester://pyevm" [] ""
             (Some five_processes) [] ∅ [] in
  federated_only s = true
  ∧ (simulate "start" 3 false true s).1
    = inl (TypeError "'NotImplementedType' object is not iterable").
Proof.
  intros H s. split; [reflexivity|].
  destruct (@federated_start_fails H 3 false true s eq_refl) as (l & killed & _ & ->).
  reflexivity.
Defined.

(** A start against a provider the simulation does not know. *)
Lemma unsupported_backend_aborts_witness :
  let H := reference_world in
  let s := mkState [] [] (λ _, x00) 0 42 0 false false false "http://localhost:8545"
             [] "" None [] ∅ [] in
  federated_only s = false
  ∧ (provider_uri s ∉ supported_sim_uris)
  ∧ (simulate "start" 3 false false s).1 = inl Abort.
Proof.
  intros H s.
  assert (provider_uri s ∉ supported_sim_uris) as Huri.
  { apply (bool_decide_unpack (provider_uri s ∉ supported_sim_uris)).
    vm_compute. exact I. }
  split; [reflexivity|]. split; [exact Huri|].
  destruct (@unsupported_backend_aborts H 3 s eq_refl Huri) as (l & killed & _ & ->).
  reflexivity.
Defined.

(** Both flags at once: the backend is the one of [--geth]. *)
Lemma backend_flag_selects_provider_witness :
  let H := reference_world in
  (true || true) = true
  ∧ bootstrap_chain 3 true true (initial [true] [])
    = bootstrap_contracts 3 "ipc:///tmp/geth.ipc"
        (with_provider_uri "ipc:///tmp/geth.ipc" (initial [true] [])).
Proof.
  intros H. split; [reflexivity|].
  apply (@backend_flag_selects_provider H 3 true true (initial [true] [])).
  reflexivity.
Defined.

(** ** The contracts of the simulation *)

Section SimContracts.
Context `{Collaborators}.

(** Closes one path through [bootstrap_contracts] that ends in an error. *)
Ltac chain_leaf :=
  sred; eexists; split; [rewrite <- ?app_assoc; reflexivity|];
  split; [by eexists (_ :: _) || by eexists [] |]; intros ? [=].

Lemma bootstrap_contracts_order (nodes : Z) (uri : string) (s : State) :
  let r := bootstrap_contracts nodes uri s in
  let origin := default "" (head (tester_accounts nodes)) in
  let first_secret := entropy s <$> seq (cursor s) DISPATCHER_SECRET_LENGTH in
  let second_secret :=
    entropy s <$> seq (cursor s + DISPATCHER_SECRET_LENGTH) DISPATCHER_SECRET_LENGTH in
  let token := sim_token_deployer origin in
  let escrow := sim_escrow_deployer origin first_secret (agent_of token) in
  let policy := sim_policy_deployer origin second_secret (agent_of escrow) in
  ∃ new,
    trace r.2 = trace s ++ new
    ∧ deployer_calls new `prefix_of` chain_calls token escrow policy
    ∧ ∀ v, r.1 = inr v → deployer_calls new = chain_calls token escrow policy.
Proof.
  intros r origin first_secret second_secret token escrow policy.
  subst r token escrow policy first_secret second_secret origin.
  unfold bootstrap_contracts, external, unpack_origin,
    deployer_arm, deployer_deploy, deployer_make_agent,
    DEFAULT_SIMULATION_REGISTRY_FILEPATH.
  exec.
  destruct (external_outcome "TemporaryEthereumContractRegistry"); [chain_leaf|]. exec.
  destruct (external_outcome "BlockchainDeployerInterface"); [chain_leaf|]. exec.
  destruct (external_outcome "TesterBlockchain"); [chain_leaf|]. exec.
  destruct (tester_accounts nodes) as [|origin rest]; [chain_leaf|]. exec.
  destruct (external_outcome "ether_airdrop"); [chain_leaf|]. exec.
  destruct (confirms s) as [|[] cs]; exec; [chain_leaf| |chain_leaf].
  destruct (arm_outcome (sim_token_deployer origin)) as [[] ?]; exec; [|chain_leaf].
  destruct (deploy_outcome (sim_token_deployer origin)); exec; [chain_leaf|].
  set (escrow := sim_escrow_deployer origin _ _).
  destruct (arm_outcome escrow) as [[] ?]; exec; [|chain_leaf].
  destruct (deploy_outcome escrow); exec; [chain_leaf|].
  set (policy := sim_policy_deployer origin _ _).
  destruct (arm_outcome policy) as [[] ?]; exec; [|chain_leaf].
  destruct (deploy_outcome policy); exec; [chain_leaf|].
  destruct (external_outcome "token_airdrop"); exec.
  all: sred; eexists; (split; [rewrite <- ?app_assoc; reflexivity|]).
  all: split; [by eexists []|]; intros ? [=].
Qed.

(** X5: The chain of a simulation is set up in the order of the dependencies:
    the token, the escrow built on the agent of the token, the policy
    manager built on the agent of the escrow, each one constructed, armed,
    deployed and asked for its agent before the next is touched; the two
    secrets are successive, separate draws of [DISPATCHER_SECRET_LENGTH]
    bytes. A failure cuts the sequence short, and a set-up that returns has
    made all twelve calls. *)
Theorem simulation_contracts_in_order (nodes : Z) (geth pyevm : bool) (s : State) :
  let r := bootstrap_chain nodes geth pyevm s in
  let origin := default "" (head (tester_accounts nodes)) in
  let first_secret := entropy s <$> seq (cursor s) DISPATCHER_SECRET_LENGTH in
  let second_secret :=
    entropy s <$> seq (cursor s + DISPATCHER_SECRET_LENGTH) DISPATCHER_SECRET_LENGTH in
  let token := sim_token_deployer origin in
  let escrow := sim_escrow_deployer origin first_secret (agent_of token) in
  let policy := sim_policy_deployer origin second_secret (agent_of escrow) in
  ∃ new,
    trace r.2 = trace s ++ new
    ∧ deployer_calls new `prefix_of` chain_calls token escrow policy
    ∧ ∀ v, r.1 = inr v → deployer_calls new = chain_calls token escrow policy.
Proof.
  intros r. subst r. rewrite bootstrap_chain_parts. unfold select_backend.
  destruct geth; [|destruct pyevm]; mred; sred.
  - rewrite bool_decide_false.
    + apply (bootstrap_contracts_order nodes _ (with_provider_uri _ s)).
    + intros Hn; apply Hn; unfold supported_sim_uris;
        repeat first [apply list_elem_of_here | apply list_elem_of_further].
  - rewrite bool_decide_false.
    + apply (bootstrap_contracts_order nodes _ (with_provider_uri _ s)).
    + intros Hn; apply Hn; unfold supported_sim_uris;
        repeat first [apply list_elem_of_here | apply list_elem_of_further].
  - case_bool_decide.
    + exists [Echo (unsupported_backend (provider_uri s))].
      split; [done|]. split; [by eexists|]. intros ? [=].
    + apply bootstrap_contracts_order.
Qed.

End SimContracts.

(** ** Starts that end before the reactor runs *)

#[export] Instance tracking_preorder : PreOrder tracking.
Proof.
  split.
  - intros s. unfold tracking. reflexivity.
  - intros s1 s2 s3 H1 H2. unfold tracking in *. by etrans.
Qed.

(** Closes [R s (f s)] where [f] does not touch the tracked processes. *)
Ltac early_prim :=
  split;
  [ first [ apply extends_same; reflexivity | apply extends_record; reflexivity ]
  | unfold tracking, tracked; sred; reflexivity ].

Ltac early_step :=
  first [ sat_step | apply sat_modify; intros ?; early_prim ].

Section BeforeTheReactor.
Context `{Collaborators}.

Lemma sat_sim_processes_append (process : Process) :
  sat early (sim_processes_append process).
Proof.
  intros s. unfold sim_processes_append, early. mred.
  destruct (sim_processes s) as [l|] eqn:Hl; cbn [snd]; [|reflexivity].
  split; [by apply extends_same|].
  unfold tracking, tracked. sred. rewrite Hl. by apply prefix_app_r.
Qed.

Lemma sat_spawn_node (geth : bool) (uri : string) (counter port : Z) (addr : string) :
  sat early (spawn_node geth uri counter port addr).
Proof.
  unfold spawn_node, process_params_of, random_stake, random_randint,
    reactor_spawnProcess, early.
  repeat first [ apply sat_sim_processes_append | early_step ].
Qed.

Lemma sat_spawn_swarm (geth : bool) (uri : string) (nodes : list (Z * string))
    (counter : Z) :
  sat early (spawn_swarm geth uri nodes counter).
Proof.
  revert counter. induction nodes as [|[port addr] nodes IH]; intros counter.
  - apply sat_ret. unfold early. apply _.
  - cbn [spawn_swarm]. apply sat_bind; [unfold early; apply _|apply sat_spawn_node|].
    intros _. apply IH.
Qed.

Lemma sat_after_cleanup (nodes : Z) (geth pyevm : bool) :
  sat early (after_cleanup nodes geth pyevm).
Proof.
  unfold after_cleanup, swarm, bootstrap_chain, external, unpack_origin,
    deployer_arm, deployer_deploy, deployer_make_agent, early.
  repeat first [ apply sat_spawn_swarm | early_step ].
Qed.

(** X6: A start that does not get as far as the reactor ends with the error
    that stopped it, and nothing is torn down: after the cleanup it made no
    call of [os.kill], [os.remove] or [reactor.run], and the processes it
    tracked when the error came, the workers spawned by then among them,
    are still tracked. *)
Theorem failed_start_tears_nothing_down (nodes : Z) (geth pyevm : bool)
    (s : State) (e : Exn) :
  (prepare_swarm nodes geth pyevm s).1 = inl e →
  let r := simulate "start" nodes geth pyevm s in
  ∃ l killed new,
    reset_sim_processes s = (inr tt, cleaned s l killed)
    ∧ r.1 = inl e
    ∧ trace r.2 = trace (cleaned s l killed) ++ new
    ∧ Forall unattended new
    ∧ l `prefix_of` tracked r.2.
Proof.
  intros Hfail r. subst r. rewrite simulate_start_run. revert Hfail.
  rewrite prepare_swarm_parts. mred.
  destruct (reset_sim_processes_run s) as (l & killed & Hrun & _).
  rewrite Hrun.
  pose proof (sat_after_cleanup nodes geth pyevm (cleaned s l killed))
    as [(new & Hnew & Hun) Htr].
  destruct (after_cleanup nodes geth pyevm (cleaned s l killed)) as [[e'|[]] s1];
    cbn [fst snd] in *; [|done].
  intros [= ->]. exists l, killed, new. split_and!; done.
Qed.

End BeforeTheReactor.

(** The contracts of the chain are deployed and the start ends where the
    registry path is read: nothing is killed or removed. *)
Lemma failed_start_tears_nothing_down_witness :
  let H := reference_world in
  let s := initial [true] [] in
  let r := simulate "start" 3 false true s in
  (prepare_swarm 3 false true s).1
  = inl (NameError "DEFAULT_SIMULATION_REGISTRY_FILEPATH")
  ∧ r.1 = inl (NameError "DEFAULT_SIMULATION_REGISTRY_FILEPATH")
  ∧ teardown_calls (trace r.2) = [].
Proof.
  intros H s r. split; [vm_compute; reflexivity|].
  destruct (@failed_start_tears_nothing_down H 3 false true s
              (NameError "DEFAULT_SIMULATION_REGISTRY_FILEPATH"))
    as (l & killed & new & _ & Hr & _); [vm_compute; reflexivity|].
  split; [exact Hr|]. vm_compute; reflexivity.
Defined.

(** ** The argument vector of a node *)

Section Arguments.
Context `{Collaborators}.

Lemma split_words (text : string) (ws : list string) :
  text = join " " ws → Forall is_word ws → split text = ws.
Proof. intros ->. apply split_join. Qed.

Lemma literal_word (w : string) : w ≠ "" → no_space w = true → is_word w.
Proof. by split. Qed.

(** X7: The argument vector [simulate start] builds for a node. In federated
    mode it is the fixed part and the port and database of the node, and no
    stake is drawn. Otherwise, when registry path, provider URI and address
    are single words, it names each of them after its option, in the order
    registry, provider, port, database, address, stake amount, stake
    periods, with the stake that was drawn for the node. *)
Theorem node_argument_vector (geth : bool) (uri : string) (port : Z) (addr : string)
    (s : State) :
  let head := ["nucypher-cli"; "--dev"] ++ (if geth then ["--poa"] else []) in
  let node := ["ursula"; "run"; "--rest-port"; pretty port;
               "--db-name"; "sim-" +:+ pretty port] in
  (federated_only s = true →
   process_params_of geth uri port addr s
   = (inr (head ++ ["--federated-only"] ++ node), s))
  ∧ (federated_only s = false →
     is_word simulation_registry_filepath → is_word uri → is_word addr →
     ∀ value periods s',
       random_stake s = (inr (value, periods), s') →
       process_params_of geth uri port addr s
       = (inr (head
               ++ ["--registry-filepath"; simulation_registry_filepath;
                   "--provider-uri"; uri]
               ++ node
               ++ ["--checksum-address"; addr;
                   "--stake-amount"; pretty value;
                   "--stake-periods"; pretty periods]), s')).
Proof.
  intros head node. subst head node. split.
  - intros Hfed. unfold process_params_of. mred. rewrite Hfed. sred.
    rewrite ursula_params_words. unfold worker_params.
    destruct geth; by rewrite <- ?app_assoc.
  - intros Hfed Hpath Huri Haddr value periods s' Hstake.
    unfold process_params_of. mred. rewrite Hfed. sred. rewrite Hstake.
    rewrite ursula_params_words. unfold worker_params.
    rewrite (split_words _ ["--registry-filepath"; simulation_registry_filepath;
                            "--provider-uri"; uri]); [|reflexivity|].
    2:{ repeat apply Forall_cons_2; try done; try by apply literal_word. }
    rewrite (split_words _ ["--checksum-address"; addr]); [|reflexivity|].
    2:{ repeat apply Forall_cons_2; try done; try by apply literal_word. }
    rewrite (split_words _ ["--stake-amount"; pretty value;
                            "--stake-periods"; pretty periods]); [|reflexivity|].
    2:{ repeat apply Forall_cons_2; try done; try (by apply literal_word);
        apply pretty_Z_word. }
    destruct geth; by rewrite <- ?app_assoc.
Qed.

End Arguments.

(** The second node of a proof-of-authority simulation. *)
Lemma node_argument_vector_witness :
  let H := reference_world in
  let s := initial [] [] in
  federated_only s = false
  ∧ is_word simulation_registry_filepath
  ∧ is_word "ipc:///tmp/geth.ipc"
  ∧ is_word "0x2"
  ∧ (process_params_of true "ipc:///tmp/geth.ipc" 8788 "0x2" s).1
    = inr ["nucypher-cli"; "--dev"; "--poa";
           "--registry-filepath"; "/tmp/sim-registry.json";
           "--provider-uri"; "ipc:///tmp/geth.ipc";
           "ursula"; "run"; "--rest-port"; "8788"; "--db-name"; "sim-8788";
           "--checksum-address"; "0x2"; "--stake-amount"; "15042";
           "--stake-periods"; "153"].
Proof.
  intros H s.
  assert (∀ w, w ≠ "" → no_space w = true → is_word w) as Hw by (by split).
  assert (is_word simulation_registry_filepath) as H1
    by (apply Hw; [discriminate|vm_compute; reflexivity]).
  assert (is_word "ipc:///tmp/geth.ipc") as H2
    by (apply Hw; [discriminate|vm_compute; reflexivity]).
  assert (is_word "0x2") as H3 by (apply Hw; [discriminate|vm_compute; reflexivity]).
  split; [reflexivity|]. split; [exact H1|]. split; [exact H2|]. split; [exact H3|].
  destruct (@node_argument_vector H true "ipc:///tmp/geth.ipc" 8788 "0x2" s)
    as [_ Hvec].
  rewrite (Hvec eq_refl H1 H2 H3 15042 153 (random_stake s).2);
    [vm_compute; reflexivity | vm_compute; reflexivity].
Defined.

(** ** The connection to the ledger *)

Section Connection.
Context `{Collaborators}.

(** X8: [connect_to_blockchain] refuses the federated mode without touching
    anything; with [--compile] it asks first and connects only after a yes;
    once it connects, an error of the connection is the error of the call,
    and otherwise [config.accounts] holds the accounts of the node. *)
Theorem connect_to_blockchain_outcomes (s : State) :
  (federated_only s = true →
   connect_to_blockchain s
   = (inl (ConfigurationError "Cannot connect to blockchain in federated mode"), s))
  ∧ (federated_only s = false → compile_flag s = true →
     head (confirms s) ≠ Some true →
     (connect_to_blockchain s).1 = inl Abort
     ∧ trace (connect_to_blockchain s).2
       = trace s ++ [Confirm "Compile solidity source?"]
     ∧ accounts (connect_to_blockchain s).2 = accounts s)
  ∧ (federated_only s = false →
     (compile_flag s = false ∨ head (confirms s) = Some true) →
     let asked := if compile_flag s
                  then with_confirms (tail (confirms s))
                         (record (Confirm "Compile solidity source?") s)
                  else s in
     connect_to_blockchain s
     = match connect_outcome with
       | inl e => (inl e, record Connect asked)
       | inr accts => (inr tt, with_accounts accts (record Connect asked))
       end).
Proof.
  unfold connect_to_blockchain. split; [|split].
  - intros Hfed. mred. by rewrite Hfed.
  - intros Hfed Hc Hno. mred. rewrite Hfed, Hc. sred.
    destruct (confirms s) as [|[] cs]; sred; done.
  - intros Hfed Hyes. mred. rewrite Hfed.
    destruct (compile_flag s); sred.
    + destruct Hyes as [?|Hyes]; [done|].
      destruct (confirms s) as [|[] cs]; simplify_eq/=. sred.
      by destruct connect_outcome.
    + by destruct connect_outcome.
Qed.

(** X9: The deployer address of a run: the option [--deployer_address] as it
    is given, whether or not the node knows the address, and the first
    account of the node when the option is absent or empty. With no option
    and a node without accounts, [__get_deployers] ends with [IndexError]
    before it asks to continue. *)
Theorem get_deployers_address (a : option string) (s : State) (accts : list string) :
  federated_only s = false →
  compile_flag s = false →
  connect_outcome = inr accts →
  let connected := with_accounts accts (record Connect s) in
  match a, accts with
  | Some x, _ =>
      x ≠ "" →
      __get_deployers a s
      = (click_confirm "Continue?" true;; mret deployers_table)
          (with_deployer_address x connected)
  | None, first :: _ =>
      __get_deployers a s
      = (click_confirm "Continue?" true;; mret deployers_table)
          (with_deployer_address first connected)
  | None, [] => __get_deployers a s = (inl IndexError, connected)
  end
  ∧ (accts = [] → __get_deployers (Some "") s = (inl IndexError, connected)).
Proof.
  intros Hfed Hc Hconn connected. subst connected.
  unfold __get_deployers, connect_to_blockchain, address_or_first_account.
  split.
  - destruct a as [x|]; [intros Hx|destruct accts as [|first rest]];
      mred; rewrite Hfed, Hc; sred; rewrite Hconn; mred; sred; [|done..].
    unfold truthy. by rewrite bool_decide_true.
  - intros ->. mred. rewrite Hfed, Hc. sred. rewrite Hconn. by mred.
Qed.

End Connection.

(** The user is asked to compile and says no. *)
Lemma connect_to_blockchain_outcomes_witness :
  let H := reference_world in
  let s := mkState [false] [] (λ _, x00) 0 42 0 true false true "tester://pyevm" [] ""
             None [] ∅ [] in
  federated_only s = false
  ∧ compile_flag s = true
  ∧ head (confirms s) ≠ Some true
  ∧ (connect_to_blockchain s).1 = inl Abort.
Proof.
  intros H s. split; [reflexivity|]. split; [reflexivity|].
  assert (head (confirms s) ≠ Some true) as Hno by discriminate.
  split; [exact Hno|].
  destruct (@connect_to_blockchain_outcomes H s) as (_ & Hdecl & _).
  exact (proj1 (Hdecl eq_refl eq_refl Hno)).
Defined.

(** An address the node does not list becomes the deployer address. *)
Lemma get_deployers_address_witness :
  let H := reference_world in
  let s := initial [true] [] in
  federated_only s = false
  ∧ compile_flag s = false
  ∧ connect_outcome = inr ["0xA"; "0xB"]
  ∧ deployer_address (__get_deployers (Some "0xF") s).2 = "0xF".
Proof.
  intros H s. split; [reflexivity|]. split; [reflexivity|]. split; [reflexivity|].
  destruct (@get_deployers_address H (Some "0xF") s ["0xA"; "0xB"]
              eq_refl eq_refl eq_refl) as [Hrun _].
  simpl in Hrun. rewrite Hrun by discriminate. reflexivity.
Defined.

(** ** The edges of [deploy] *)

Section DeployEdges.
Context `{Collaborators}.

(** X10: [deploy] does nothing without the [--deployer] flag but say so and
    abort, whatever the action; with the flag, an action other than
    [contracts] has no effect at all: the node is not even contacted. *)
Theorem deploy_guards (action : string) (a name : option string) (force : bool)
    (s : State) :
  (deployer_flag s = false →
   deploy action a name force s
   = (inl Abort,
      record (Echo "The --deployer flag must be used to issue the deploy command.") s))
  ∧ (deployer_flag s = true → action ≠ "contracts" →
     deploy action a name force s = (inr tt, s)).
Proof.
  unfold deploy. split.
  - intros Hd. mred. by rewrite Hd.
  - intros Hd Ha. mred. rewrite Hd. sred. by rewrite bool_decide_false.
Qed.

Lemma dict_get_unknown (name : string) :
  name ∉ dict_keys deployers_table → dict_get name deployers_table = None.
Proof.
  unfold deployers_table, dict_keys. simpl. intros Hn.
  repeat (rewrite decide_False;
          [|intros ->; apply Hn;
            repeat first [apply list_elem_of_here | apply list_elem_of_further]]).
  done.
Qed.

Lemma unknown_contract_phase (name : string) (force : bool) (s : State) :
  name ≠ "" →
  name ∉ dict_keys deployers_table →
  deploy_phase force (Some name) deployers_table
    (join ", " (dict_keys deployers_table)) s
  = (inr tt,
     record (Echo ("No such contract " +:+ name +:+ ". Available contracts are "
                   +:+ "NuCypherToken, MinerEscrow, PolicyManager")) s).
Proof.
  intros Hname Hunknown. unfold deploy_phase, truthy.
  rewrite bool_decide_true by done. by rewrite dict_get_unknown.
Qed.

Lemma forced_closing (s : State) :
  (view_transactions true;; save_transactions true) s = (inr tt, s).
Proof. reflexivity. Qed.

(** X11: A contract name that is not in the table deploys nothing: the command
    says which names there are and carries on to its closing questions with
    both dictionaries empty; with [--force] it returns at once. *)
Theorem unknown_contract_deploys_nothing (a : option string) (name : string)
    (force : bool) (s : State) (first : string) (rest : list string)
    (cs : list bool) :
  deployer_flag s = true →
  federated_only s = false →
  compile_flag s = false →
  connect_outcome = inr (first :: rest) →
  confirms s = true :: cs →
  name ≠ "" →
  name ∉ ["NuCypherToken"; "MinerEscrow"; "PolicyManager"] →
  let told :=
    record (Echo ("No such contract " +:+ name +:+ ". Available contracts are "
                  +:+ "NuCypherToken, MinerEscrow, PolicyManager"))
      (contracts_reached a first rest cs s) in
  deploy "contracts" a (Some name) force s
  = (view_transactions force;; save_transactions force) told
  ∧ deployer_calls (trace told) = deployer_calls (trace s)
  ∧ __deployment_transactions told = []
  ∧ __deployment_agents told = ∅
  ∧ (force = true → deploy "contracts" a (Some name) force s = (inr tt, told)).
Proof.
  intros Hd Hf Hc Hconn Hcs Hname Hunknown.
  generalize (contracts_reached_fields a first rest cs s).
  rewrite (deploy_reaches_contracts a (Some name) force s first rest cs) by done.
  generalize (contracts_reached a first rest cs s). intros s0.
  intros (_ & Hag & Htx & new & Hnew & Hquiet) told.
  rewrite bind_run, unknown_contract_phase by done. fold told.
  split; [reflexivity|].
  split; [|split; [exact Htx|split; [exact Hag|]]].
  - unfold told. cbn [trace record]. rewrite Hnew, !deployer_calls_app.
    rewrite (quiet_calls new Hquiet). by rewrite !app_nil_r.
  - intros ->. apply forced_closing.
Qed.

End DeployEdges.

(** A misspelt contract, deployed with [--force]. *)
Lemma unknown_contract_deploys_nothing_witness :
  let H := reference_world in
  let s := initial [true] [] in
  deployer_flag s = true
  ∧ federated_only s = false
  ∧ compile_flag s = false
  ∧ connect_outcome = inr ["0xA"; "0xB"]
  ∧ confirms s = [true]
  ∧ "MinersEscrow" ≠ ""
  ∧ ("MinersEscrow" ∉ ["NuCypherToken"; "MinerEscrow"; "PolicyManager"])
  ∧ (deploy "contracts" None (Some "MinersEscrow") true s).1 = inr tt.
Proof.
  intros H s.
  assert ("MinersEscrow" ∉ ["NuCypherToken"; "MinerEscrow"; "PolicyManager"]) as Hn.
  { apply (bool_decide_unpack _). vm_compute. exact I. }
  assert ("MinersEscrow" ≠ "") as Hne by discriminate.
  do 4 (split; [reflexivity|]). split; [reflexivity|].
  split; [exact Hne|]. split; [exact Hn|].
  pose proof (@unknown_contract_deploys_nothing H None "MinersEscrow" true s "0xA"
                ["0xB"] [] eq_refl eq_refl eq_refl eq_refl eq_refl Hne Hn) as Hthm.
  destruct Hthm as (_ & _ & _ & _ & Hforce).
  exact (f_equal fst (Hforce eq_refl)).
Defined.

(** ** The closing questions of [deploy] *)

Section Closing.
Context `{Collaborators}.

Lemma record_as_recorded (e : Event) (s : State) : record e s = recorded [e] s.
Proof. reflexivity. Qed.

Lemma recorded_twice (es1 es2 : list Event) (s : State) :
  recorded es2 (recorded es1 s) = recorded (es1 ++ es2) s.
Proof. unfold recorded. simpl. by rewrite app_assoc. Qed.

Lemma recorded_none (s : State) : recorded [] s = s.
Proof. destruct s. unfold recorded. simpl. by rewrite app_nil_r. Qed.

Lemma echo_transactions_run (transactions : Transactions) (s : State) :
  for_each transactions (λ '(tx_name, txhash),
    click_echo (tx_name +:+ ":" +:+ txhash)) s
  = (inr tt,
     recorded ((λ '(tx_name, txhash), Echo (tx_name +:+ ":" +:+ txhash))
               <$> transactions) s).
Proof.
  revert s. induction transactions as [|[tx_name txhash] txs IH]; intros s.
  - simpl. by rewrite recorded_none.
  - cbn [for_each fmap list_fmap]. mred. rewrite IH.
    by rewrite record_as_recorded, recorded_twice.
Qed.

Lemma echo_contracts_run (d : list (string * Transactions)) (s : State) :
  for_each d (λ '(contract_name, transactions),
    click_echo contract_name;;
    for_each transactions (λ '(tx_name, txhash),
      click_echo (tx_name +:+ ":" +:+ txhash))) s
  = (inr tt, recorded (hash_lines d) s).
Proof.
  revert s. induction d as [|[contract_name transactions] d IH]; intros s.
  - simpl. by rewrite recorded_none.
  - cbn [for_each hash_lines flat_map]. mred. rewrite echo_transactions_run.
    fold (hash_lines d). rewrite IH.
    by rewrite record_as_recorded, !recorded_twice.
Qed.

(** X12: The question about the transaction hashes is asked with
    [click.prompt], so whatever the user types counts as a yes: any answer
    that is not empty, [no] included, shows every contract followed by its
    transactions, in the order in which they were deployed. With [--force]
    nothing is asked or shown, and nothing is shown after an empty answer. *)
Theorem view_transactions_shows (s : State) :
  view_transactions true s = (inr tt, s)
  ∧ (prompts s = [] →
     view_transactions false s
     = (inl Abort, record (Prompt "View deployment transaction hashes?") s))
  ∧ (∀ answer ps,
       prompts s = answer :: ps →
       view_transactions false s
       = (inr tt,
          recorded (if bool_decide (answer = "") then []
                    else hash_lines (__deployment_transactions s))
            (with_prompts ps
               (record (Prompt "View deployment transaction hashes?") s)))).
Proof.
  split; [reflexivity|]. split.
  - intros Hp. unfold view_transactions. exec. rewrite Hp. exec. reflexivity.
  - intros answer ps Hp. unfold view_transactions. exec. rewrite Hp. exec.
    unfold truthy. destruct (decide (answer = "")) as [->|Ha].
    + rewrite (bool_decide_false ("" ≠ "")) by (by intros ?).
      rewrite (bool_decide_true ("" = "")) by done. exec. by rewrite recorded_none.
    + rewrite (bool_decide_true (answer ≠ "")) by done.
      rewrite (bool_decide_false (answer = "")) by done.
      exec. by rewrite echo_contracts_run.
Qed.

(** X13: The file of transaction hashes is written only after a yes to the
    question, and only without [--force]; what is written is the dictionary
    of the transactions as it stands, to the path the user types; the
    success is announced only when the write did not raise. *)
Theorem save_transactions_writes (s : State) :
  save_transactions true s = (inr tt, s)
  ∧ (∀ cs, confirms s = false :: cs →
       save_transactions false s
       = (inr tt,
          with_confirms cs (record (Confirm "Save transaction hashes to JSON file?") s)))
  ∧ (∀ cs filepath ps,
       confirms s = true :: cs →
       prompts s = filepath :: ps →
       let written :=
         record (WriteJson filepath (__deployment_transactions s))
           (with_prompts ps
              (record (Prompt "Enter output filepath")
                 (with_confirms cs
                    (record (Confirm "Save transaction hashes to JSON file?") s)))) in
       save_transactions false s
       = match write_outcome filepath with
         | Some e => (inl e, written)
         | None =>
             (inr tt,
              record (Echo ("Successfully wrote transaction hashes file to "
                            +:+ filepath)) written)
         end).
Proof.
  split; [reflexivity|]. split.
  - intros cs Hcs. unfold save_transactions. exec. rewrite Hcs. exec. reflexivity.
  - intros cs filepath ps Hcs Hps written. subst written.
    unfold save_transactions. exec.
    rewrite Hcs. exec. rewrite Hps. exec. by destruct (write_outcome filepath).
Qed.

End Closing.

(** The user answers [no] to a prompt: the hashes are shown all the same. *)
Lemma view_transactions_shows_witness :
  let H := reference_world in
  let s := with_deployment_transactions
             [("NuCypherToken", [("txhash", "0x01")])] (initial [] ["no"]) in
  prompts s = ["no"]
  ∧ trace (view_transactions false s).2
    = [Prompt "View deployment transaction hashes?";
       Echo "NuCypherToken"; Echo "txhash:0x01"].
Proof.
  intros H s. split; [reflexivity|].
  destruct (view_transactions_shows s) as (_ & _ & Hshow).
  rewrite (Hshow "no" [] eq_refl). reflexivity.
Defined.

(** The user has the file written. *)
Lemma save_transactions_writes_witness :
  let H := reference_world in
  let s := with_deployment_transactions
             [("NuCypherToken", [("txhash", "0x01")])] (initial [true] ["out.json"]) in
  confirms s = [true]
  ∧ prompts s = ["out.json"]
  ∧ trace (save_transactions false s).2
    = [Confirm "Save transaction hashes to JSON file?";
       Prompt "Enter output filepath";
       WriteJson "out.json" [("NuCypherToken", [("txhash", "0x01")])];
       Echo "Successfully wrote transaction hashes file to out.json"].
Proof.
  intros H s. split; [reflexivity|]. split; [reflexivity|].
  destruct (@save_transactions_writes H s) as (_ & _ & Hsave).
  rewrite (Hsave [] "out.json" [] eq_refl eq_refl). reflexivity.
Defined.

(** ** What a deployment leaves in the dictionaries *)

Section Records.
Context `{Collaborators}.

(** The deploy-all path, when it returns, has gone through the three
    contracts and left for each its transactions and its agent. *)
Lemma deploy_all_records_phase (force : bool) (text : string) (s s' : State) :
  deploy_phase force None deployers_table text s = (inr tt, s') →
  ∃ (token escrow policy : Deployer) (tx1 tx2 tx3 : Transactions),
    deployer_class_of token = NucypherTokenDeployer
    ∧ deployer_class_of escrow = MinerEscrowDeployer
    ∧ deployer_class_of policy = PolicyManagerDeployer
    ∧ deploy_outcome token = inr tx1
    ∧ deploy_outcome escrow = inr tx2
    ∧ deploy_outcome policy = inr tx3
    ∧ __deployment_transactions s'
      = dict_set "PolicyManager" tx3
          (dict_set "MinerEscrow" tx2
             (dict_set "NuCypherToken" tx1 (__deployment_transactions s)))
    ∧ __deployment_agents s'
      = <["policy_agent" := agent_of policy]>
          (<["miner_agent" := agent_of escrow]>
             (<["token_agent" := agent_of token]> (__deployment_agents s))).
Proof.
  unfold deploy_phase. rewrite deployers_table_infos.
  cbn [for_each]. mred. rewrite deploy_info_run. cbn [deployer_class upgradeable
    agent_name dependant].
  pose proof (unit_spec force NucypherTokenDeployer false "token_agent" None s)
    as (n1 & _ & Hu1).
  destruct (unit_run force NucypherTokenDeployer false "token_agent" None s)
    as [[e1|v1] s1]; cbn [fst snd] in *; [done|].
  destruct Hu1 as [((? & ?) & _)|(tx1 & _ & Hd1 & _ & Htx1 & Hag1)]; [done|].
  rewrite deploy_info_run. cbn [deployer_class upgradeable agent_name dependant].
  pose proof (unit_spec force MinerEscrowDeployer true "miner_agent"
                (Some "token_agent") s1) as (n2 & _ & Hu2).
  destruct (unit_run force MinerEscrowDeployer true "miner_agent"
              (Some "token_agent") s1) as [[e2|v2] s2]; cbn [fst snd] in *; [done|].
  destruct Hu2 as [((? & ?) & _)|(tx2 & _ & Hd2 & _ & Htx2 & Hag2)]; [done|].
  rewrite deploy_info_run. cbn [deployer_class upgradeable agent_name dependant].
  pose proof (unit_spec force PolicyManagerDeployer true "policy_agent"
                (Some "miner_agent") s2) as (n3 & _ & Hu3).
  destruct (unit_run force PolicyManagerDeployer true "policy_agent"
              (Some "miner_agent") s2) as [[e3|v3] s3]; cbn [fst snd] in *; [done|].
  destruct Hu3 as [((? & ?) & _)|(tx3 & _ & Hd3 & _ & Htx3 & Hag3)]; [done|].
  intros [= <-].
  exists (deployer_built NucypherTokenDeployer false None s),
    (deployer_built MinerEscrowDeployer true (Some "token_agent") s1),
    (deployer_built PolicyManagerDeployer true (Some "miner_agent") s2),
    tx1, tx2, tx3.
  split_and!; try done.
  - by rewrite Htx3, Htx2, Htx1.
  - by rewrite Hag3, Hag2, Hag1.
Qed.

(** X14: A run of [deploy contracts] over all contracts that returns leaves
    exactly three records, in the order Token, MinerEscrow, PolicyManager,
    each one the transactions that the [deploy()] of its deployer returned,
    and exactly three agents, under [token_agent], [miner_agent] and
    [policy_agent], each one made by the deployer of its contract. *)
Theorem deploy_all_leaves_three_records (a : option string) (force : bool) (s : State) :
  let r := deploy "contracts" a None force s in
  r.1 = inr tt →
  ∃ (token escrow policy : Deployer) (tx1 tx2 tx3 : Transactions),
    deployer_class_of token = NucypherTokenDeployer
    ∧ deployer_class_of escrow = MinerEscrowDeployer
    ∧ deployer_class_of policy = PolicyManagerDeployer
    ∧ deploy_outcome token = inr tx1
    ∧ deploy_outcome escrow = inr tx2
    ∧ deploy_outcome policy = inr tx3
    ∧ __deployment_transactions r.2
      = [("NuCypherToken", tx1); ("MinerEscrow", tx2); ("PolicyManager", tx3)]
    ∧ __deployment_agents r.2
      = <["policy_agent" := agent_of policy]>
          (<["miner_agent" := agent_of escrow]>
             {["token_agent" := agent_of token]}).
Proof.
  intros r Hok.
  destruct (deploy_contracts_shape a None force s)
    as [[[e He] _]|(s1 & _ & Hag & Htx & Hphase)]; fold r in He || fold r in Hphase.
  { rewrite Hok in He. done. }
  cbv zeta in Hphase.
  destruct (deploy_phase force None deployers_table _ s1) as [rp s2] eqn:Hrp.
  cbn [fst snd] in Hphase.
  destruct Hphase as [[[e He] Hr]|[-> (_ & Hag2 & Htx2)]].
  { rewrite Hr in Hok. cbn [fst] in Hok. congruence. }
  apply deploy_all_records_phase in Hrp
    as (token & escrow & policy & tx1 & tx2 & tx3 & ? & ? & ? & ? & ? & ? & Ht & Ha).
  exists token, escrow, policy, tx1, tx2, tx3.
  unfold keeps in Hag2, Htx2.
  split_and!; try done.
  - rewrite Htx2, Ht, Htx. reflexivity.
  - rewrite Hag2, Ha, Hag. by rewrite insert_empty.
Qed.

End Records.

(** A forced deployment of all contracts in the reference world. *)
Lemma deploy_all_leaves_three_records_witness :
  let H := reference_world in
  let r := deploy "contracts" None None true (initial [true] []) in
  r.1 = inr tt
  ∧ __deployment_transactions r.2
    = [("NuCypherToken", [("txhash", "NuCypherToken")]);
       ("MinerEscrow", [("txhash", "MinerEscrow")]);
       ("PolicyManager", [("txhash", "PolicyManager")])].
Proof.
  intros H r.
  assert (r.1 = inr tt) as Hok by (vm_compute; reflexivity).
  split; [exact Hok|].
  destruct (@deploy_all_leaves_three_records H None true (initial [true] []) Hok)
    as (token & escrow & policy & tx1 & tx2 & tx3 & _).
  vm_compute. reflexivity.
Defined.

(** ** The token on its own *)

Section TokenAlone.
Context `{Collaborators}.

(** X15: Naming the token deploys the token and nothing else: the only
    deployer the run builds is the one of the token, called in the order
    construct, arm, deploy, make_agent up to the step that fails; a run that
    returns leaves one record, the transactions of the token, and one
    agent, [token_agent]. *)
Theorem token_deploys_alone (a : option string) (force : bool) (s : State) :
  let r := deploy "contracts" a (Some "NuCypherToken") force s in
  ∃ (token : Deployer) (new : list Event),
    deployer_class_of token = NucypherTokenDeployer
    ∧ trace r.2 = trace s ++ new
    ∧ deployer_calls new `prefix_of` unit_calls token
    ∧ (r.1 = inr tt →
       deployer_calls new = unit_calls token
       ∧ ∃ txs, deploy_outcome token = inr txs
                ∧ __deployment_transactions r.2 = [("NuCypherToken", txs)]
                ∧ __deployment_agents r.2 = {["token_agent" := agent_of token]}).
Proof.
  intros r.
  destruct (deploy_contracts_shape a (Some "NuCypherToken") force s)
    as [[[e He] (n0 & Hn0 & Hq0)]|(s1 & (n0 & Hn0 & Hq0) & Hag & Htx & Hphase)];
    fold r in He, Hn0 || fold r in Hphase.
  { exists (mkDeployer NucypherTokenDeployer ∅), n0.
    rewrite (quiet_calls n0 Hq0), He. split_and!; try done. apply prefix_nil. }
  cbv zeta in Hphase. revert Hphase.
  unfold deploy_phase, truthy. rewrite bool_decide_true by done.
  change (dict_get "NuCypherToken" deployers_table)
    with (Some (mkDeployerInfo NucypherTokenDeployer false "token_agent" None)).
  cbn beta iota.
  rewrite deploy_info_run. cbn [deployer_class upgradeable agent_name dependant].
  pose proof (unit_spec force NucypherTokenDeployer false "token_agent" None s1)
    as (n1 & Hn1 & Hu1).
  set (token := deployer_built NucypherTokenDeployer false None s1) in *.
  destruct (unit_run force NucypherTokenDeployer false "token_agent" None s1)
    as [[e1|v1] s2]; cbn [fst snd] in *.
  - intros [[_ Hr]|[? _]]; [|done].
    destruct Hu1 as [(_ & Hp & _)|(txs & ? & _)]; [|done].
    exists token, (n0 ++ n1). rewrite Hr. cbn [fst snd].
    rewrite deployer_calls_app, (quiet_calls n0 Hq0). cbn [app].
    split_and!; try done.
    + by rewrite Hn1, Hn0, app_assoc.
    + etrans; [exact Hp|]. by exists [MakeAgent token].
  - intros [[[e He] _]|[_ ((n2 & Hn2 & Hq2) & Hag2 & Htx2)]]; [done|].
    destruct Hu1 as [((? & ?) & _)|(txs & _ & Hd1 & Hc1 & Htx1 & Hag1)]; [done|].
    exists token, (n0 ++ n1 ++ n2). unfold keeps in Hag2, Htx2.
    rewrite !deployer_calls_app, (quiet_calls n0 Hq0), (quiet_calls n2 Hq2), app_nil_r.
    cbn [app]. rewrite Hc1.
    split_and!; try done.
    + by rewrite Hn2, Hn1, Hn0, !app_assoc.
    + intros _. split; [done|]. exists txs. split; [done|].
      rewrite Htx2, Htx1, Htx, Hag2, Hag1, Hag. split; [reflexivity|].
      by rewrite insert_empty.
Qed.

End TokenAlone.

(** ** Running a node *)

Section UrsulaRun.
Context `{Collaborators}.

(** X16: A node that is not federated is not started without a stake: unless
    [--resume] is given, [ursula run] aborts behind its message when the
    amount or the periods of the stake are absent, or zero, before any
    configuration is built and before the passphrase is asked. *)
Theorem ursula_requires_stake (config_file : option string)
    (stake_amount stake_periods : option Z) (s : State) :
  federated_only s = false →
  (nonzero stake_amount && nonzero stake_periods) = false →
  ursula config_file "run" stake_amount stake_periods false s
  = (inl Abort,
     record (Echo ("Either --stake-amount and --stake-periods options "
                   +:+ "or the --resume flag is required to run a non-federated Ursula"))
       s).
Proof.
  intros Hfed Hstake. unfold ursula. rewrite bool_decide_true by done.
  mred. rewrite Hfed. sred. rewrite Hstake. reflexivity.
Qed.

Lemma ursula_cleanup_run (s : State) :
  ursula_cleanup s
  = match external_outcome "ursula_config.cleanup" with
    | Some e =>
        (inl e, recorded [Echo "Cleaning up."; External "ursula_config.cleanup"] s)
    | None =>
        (inr tt, recorded [Echo "Cleaning up."; External "ursula_config.cleanup";
                           Echo "Exited gracefully."] s)
    end.
Proof.
  unfold ursula_cleanup, external. mred.
  destruct (external_outcome "ursula_config.cleanup"); mred;
    by rewrite !record_as_recorded, !recorded_twice.
Qed.

Lemma ursula_run_form (config_file : option string)
    (stake_amount stake_periods : option Z) (resume : bool) (s : State) :
  (federated_only s = true
   ∨ (nonzero stake_amount && nonzero stake_periods) = true
   ∨ resume = true) →
  let constructor := if given config_file
                     then "UrsulaConfiguration.from_configuration_file"
                     else "UrsulaConfiguration" in
  external_outcome constructor = None →
  let node := ursula_body stake_amount stake_periods (record (External constructor) s) in
  ursula config_file "run" stake_amount stake_periods resume s
  = match external_outcome "ursula_config.cleanup" with
    | Some e =>
        (inl e, recorded [Echo "Cleaning up."; External "ursula_config.cleanup"] node.2)
    | None =>
        (node.1, recorded [Echo "Cleaning up."; External "ursula_config.cleanup";
                           Echo "Exited gracefully."] node.2)
    end.
Proof.
  intros Hvalid constructor Hctor node. subst node.
  assert (∀ s1 : State,
    ((if given config_file
      then external "UrsulaConfiguration.from_configuration_file"
      else external "UrsulaConfiguration");;
     try_finally (ursula_body stake_amount stake_periods) ursula_cleanup) s1
    = match external_outcome "ursula_config.cleanup" with
      | Some e =>
          (inl e, recorded [Echo "Cleaning up."; External "ursula_config.cleanup"]
                    (ursula_body stake_amount stake_periods
                       (record (External constructor) s1)).2)
      | None =>
          ((ursula_body stake_amount stake_periods
              (record (External constructor) s1)).1,
           recorded [Echo "Cleaning up."; External "ursula_config.cleanup";
                     Echo "Exited gracefully."]
             (ursula_body stake_amount stake_periods
                (record (External constructor) s1)).2)
      end) as Htail.
  { intros s1. revert Hctor. subst constructor. unfold external at 1 2.
    destruct (given config_file); intros Hctor; mred; rewrite Hctor;
      unfold try_finally; mred;
      destruct (ursula_body _ _ _) as [r s2]; cbn [fst snd];
      rewrite ursula_cleanup_run;
      by destruct (external_outcome "ursula_config.cleanup"). }
  unfold ursula. rewrite bool_decide_true by done. rewrite bind_run. mred.
  destruct (federated_only s) eqn:Hfed; sred; [apply Htail|].
  destruct Hvalid as [?|[Hs|Hr]]; [done| |].
  - rewrite Hs. sred. apply Htail.
  - rewrite Hr, andb_false_r. apply Htail.
Qed.

(** X17: Once [ursula run] has built its configuration, the cleanup runs on
    every way out of the node: whether the passphrase is not given, the
    node cannot be produced, the stake fails, or the node stops or crashes,
    the command says [Cleaning up.], calls [cleanup()] and says [Exited
    gracefully.], and ends as the node ended. Only an error of [cleanup()]
    itself takes the place of that outcome. *)
Theorem ursula_always_cleans_up (config_file : option string)
    (stake_amount stake_periods : option Z) (resume : bool) (s : State) :
  (federated_only s = true
   ∨ (nonzero stake_amount && nonzero stake_periods) = true
   ∨ resume = true) →
  let constructor := if given config_file
                     then "UrsulaConfiguration.from_configuration_file"
                     else "UrsulaConfiguration" in
  external_outcome constructor = None →
  let node := ursula_body stake_amount stake_periods (record (External constructor) s) in
  ursula config_file "run" stake_amount stake_periods resume s
  = match external_outcome "ursula_config.cleanup" with
    | Some e =>
        (inl e, recorded [Echo "Cleaning up."; External "ursula_config.cleanup"] node.2)
    | None =>
        (node.1, recorded [Echo "Cleaning up."; External "ursula_config.cleanup";
                           Echo "Exited gracefully."] node.2)
    end.
Proof. apply ursula_run_form. Qed.

(** X18: A run of [ursula run] in which every collaborator returns: the
    configuration is built, the passphrase asked, the node produced; a node
    that is not federated is staked, with the amount and the periods of the
    command line as they are (both absent under [--resume]), before it
    runs, and a federated node is never staked; the cleanup comes last. *)
Theorem ursula_run_order (config_file : option string)
    (stake_amount stake_periods : option Z) (resume : bool) (s : State)
    (passphrase : string) (ps : list string) :
  (federated_only s = true
   ∨ (nonzero stake_amount && nonzero stake_periods) = true
   ∨ resume = true) →
  (∀ call, external_outcome call = None) →
  prompts s = passphrase :: ps →
  ursula config_file "run" stake_amount stake_periods resume s
  = (inr tt,
     recorded
       ([External (if given config_file
                   then "UrsulaConfiguration.from_configuration_file"
                   else "UrsulaConfiguration");
         Prompt "Enter passphrase to unlock account";
         External "ursula_config.produce"]
        ++ (if federated_only s then []
            else [External (ursula_stake_call stake_amount stake_periods)])
        ++ [External "URSULA.get_deployer"; External "deployer.run";
            Echo "Cleaning up."; External "ursula_config.cleanup";
            Echo "Exited gracefully."])
       (with_prompts ps s)).
Proof.
  intros Hvalid Hall Hps.
  rewrite ursula_run_form by done. rewrite Hall.
  set (ctor := if given config_file then _ else _).
  assert (ursula_body stake_amount stake_periods (record (External ctor) s)
          = (inr tt,
             recorded ([External ctor; Prompt "Enter passphrase to unlock account";
                        External "ursula_config.produce"]
                       ++ (if federated_only s then []
                           else [External (ursula_stake_call stake_amount stake_periods)])
                       ++ [External "URSULA.get_deployer"; External "deployer.run"])
               (with_prompts ps s))) as ->.
  { assert (∀ es s0, with_prompts ps (recorded es s0) = recorded es (with_prompts ps s0))
      as Hswap by reflexivity.
    unfold ursula_body, external. mred. sred. rewrite Hps. mred. sred. rewrite !Hall.
    mred. sred. destruct (federated_only s); exec; rewrite ?Hall; exec;
      by rewrite !record_as_recorded, !recorded_twice, Hswap, !recorded_twice. }
  cbn [fst snd]. rewrite recorded_twice. do 2 f_equal.
  by rewrite <- !app_assoc.
Qed.

End UrsulaRun.

(** A stake of zero tokens counts as no stake. *)
Lemma ursula_requires_stake_witness :
  let H := reference_world in
  let s := initial [] ["secret"] in
  federated_only s = false
  ∧ (nonzero (Some 0) && nonzero (Some 30)) = false
  ∧ (ursula None "run" (Some 0) (Some 30) false s).1 = inl Abort.
Proof.
  intros H s. split; [reflexivity|]. split; [reflexivity|].
  by rewrite (@ursula_requires_stake H None (Some 0) (Some 30) s eq_refl eq_refl).
Defined.

(** The passphrase is never given: the node is not produced, and is
    cleaned up all the same. *)
Lemma ursula_always_cleans_up_witness :
  let H := reference_world in
  let s := initial [] [] in
  let r := ursula None "run" (Some 15000) (Some 30) false s in
  (federated_only s = true
   ∨ (nonzero (Some 15000) && nonzero (Some 30)) = true
   ∨ false = true)
  ∧ external_outcome "UrsulaConfiguration" = None
  ∧ r.1 = inl Abort
  ∧ trace r.2 = [External "UrsulaConfiguration";
                 Prompt "Enter passphrase to unlock account";
                 Echo "Cleaning up."; External "ursula_config.cleanup";
                 Echo "Exited gracefully."].
Proof.
  intros H s r.
  assert (federated_only s = true
          ∨ (nonzero (Some 15000) && nonzero (Some 30)) = true
          ∨ false = true) as Hvalid by (right; left; reflexivity).
  split; [exact Hvalid|]. split; [reflexivity|].
  unfold r.
  rewrite (@ursula_always_cleans_up H None (Some 15000) (Some 30) false s Hvalid eq_refl).
  split; reflexivity.
Defined.

(** A node resumed without a stake on the command line is staked with
    nothing. *)
Lemma ursula_run_order_witness :
  let H := reference_world in
  let s := initial [] ["secret"] in
  (federated_only s = true
   ∨ (nonzero None && nonzero None) = true
   ∨ true = true)
  ∧ (∀ call, external_outcome call = None)
  ∧ prompts s = ["secret"]
  ∧ External "URSULA.stake(amount=None, lock_periods=None)"
    ∈ trace (ursula None "run" None None true s).2.
Proof.
  intros H s.
  assert (federated_only s = true
          ∨ (nonzero None && nonzero None) = true
          ∨ true = true) as Hvalid by (right; right; reflexivity).
  split; [exact Hvalid|]. split; [reflexivity|]. split; [reflexivity|].
  rewrite (@ursula_run_order H None None None true s "secret" [] Hvalid
             (λ _, eq_refl) eq_refl).
  cbn. do 3 apply list_elem_of_further. apply list_elem_of_here.
Defined.


(** ** Running the commands of a node symbolically *)

Ltac nred :=
  repeat (progress (
    unfold echo, confirm, prompt, call, call_for, read_local, n_get,
      click_prompt_int, read_number, click_prompt_default, lift, external, n_raise;
    unfold mbind, NodeM_bind, n_bind, mret, NodeM_ret, n_ret;
    mred; sred; cbn [core numbers fst snd])).

(** Reads the fields of a session after further events. *)
Ltac lred :=
  cbn [core numbers logged recorded
       confirms prompts entropy cursor rng next_obj deployer_flag federated_only
       compile_flag provider_uri accounts deployer_address sim_processes
       __deployment_transactions __deployment_agents trace
       record with_confirms with_prompts with_cursor with_rng with_next_obj
       with_provider_uri with_accounts with_deployer_address with_sim_processes
       with_deployment_transactions with_deployment_agents
       negb andb orb fst snd].

Lemma n_bind_run {A B} (m : NodeM A) (k : A → NodeM B) (ss : Session) :
  (m ≫= k) ss
  = match m ss with
    | (inr a, ss') => k a ss'
    | (inl f, ss') => (inl f, ss')
    end.
Proof. reflexivity. Qed.

(** ** The payload of [status] *)

(** X19: [status] without a flag shows what it shows with both flags, the
    contracts before the network; with one flag it shows the payload of that
    flag alone. *)
Theorem status_payload_selection (contract_payload network_payload : string) :
  status_payload false false contract_payload network_payload
  = contract_payload +:+ network_payload
  ∧ status_payload true true contract_payload network_payload
    = contract_payload +:+ network_payload
  ∧ status_payload true false contract_payload network_payload = contract_payload
  ∧ status_payload false true contract_payload network_payload = network_payload.
Proof. by split_and!. Qed.

(** ** [configure] *)

Section Configure.
Context `{Collaborators} `{NodeCollaborators}.

(** The state of a session after further events. *)
Lemma get_node_configuration_dev (config_root config_file : option string)
    (ss : Session) :
  external_outcome "NodeConfiguration" = None →
  ∃ source,
    get_node_configuration true config_root config_file ss
    = (inr source,
       mkSession (record (External "NodeConfiguration") (core ss)) (numbers ss)).
Proof.
  intros Hctor. unfold get_node_configuration.
  destruct (given config_root); nred; rewrite Hctor; by eexists.
Qed.

(** X20: The configuration of a development node is never destroyed: with
    [--dev], [configure destroy] and [configure reset] end with
    [ConfigurationError] as soon as the configuration object is there. They
    ask nothing, delete nothing, and [reset] does not initialize. *)
Theorem destroy_refuses_dev (config_root config_file : option string)
    (action : string) (filesystem : bool) (ss : Session) :
  external_outcome "NodeConfiguration" = None →
  action = "destroy" ∨ action = "reset" →
  configure true config_root config_file action filesystem ss
  = (inl (Core (ConfigurationError "Cannot destroy a temporary node configuration")),
     mkSession (record (External "NodeConfiguration") (core ss)) (numbers ss)).
Proof.
  intros Hctor Haction. unfold configure.
  destruct (get_node_configuration_dev config_root config_file ss Hctor) as [source Hrun].
  rewrite n_bind_run, Hrun. unfold configure_switch.
  destruct Haction as [-> | ->]; by nred.
Qed.

End Configure.

Section ConfigureMore.
Context `{Collaborators} `{NodeCollaborators}.

Lemma logged_logged (es1 es2 : list Event) (ss : Session) :
  logged es2 (logged es1 ss) = logged (es1 ++ es2) ss.
Proof. unfold logged. cbn [core numbers]. by rewrite recorded_twice. Qed.

Lemma logged_nil (ss : Session) : logged [] ss = ss.
Proof. destruct ss. unfold logged. cbn [core numbers]. by rewrite recorded_none. Qed.

Lemma lift_record (e : Event) (ss : Session) :
  mkSession (record e (core ss)) (numbers ss) = logged [e] ss.
Proof. reflexivity. Qed.

Lemma get_node_configuration_run (dev : bool) (config_root config_file : option string)
    (ss : Session) :
  get_node_configuration dev config_root config_file ss
  = match external_outcome (configuration_constructor dev config_root config_file) with
    | Some e =>
        (inl (Core e), logged (configuration_events dev config_root config_file) ss)
    | None =>
        (inr (configuration_source dev config_root config_file),
         logged (configuration_events dev config_root config_file) ss)
    end.
Proof.
  unfold get_node_configuration, configuration_source, configuration_events,
    configuration_constructor, reads_file.
  destruct (given config_root), dev, (given config_file); nred;
    cbn [negb andb app];
    match goal with |- context [external_outcome ?c] => destruct (external_outcome c) end;
    unfold logged; cbn [core numbers];
    rewrite ?record_as_recorded, ?recorded_twice; reflexivity.
Qed.

(** X21: Where the node configuration comes from: [--config-root] before
    [--dev] before [--config-file]. A configuration file is read, and said
    to be used, only when neither of the other two is given; with [--dev] or
    [--config-root] a file named on the command line is passed over in
    silence. *)
Theorem configuration_source_precedence (dev : bool)
    (config_root config_file : option string) (ss : Session) (source : NodeSource)
    (ss' : Session) :
  get_node_configuration dev config_root config_file ss = (inr source, ss') →
  (given config_root = true → source = FromRoot (default "" config_root))
  ∧ (given config_root = false → dev = true → source = Temporary)
  ∧ (given config_root = false → dev = false → given config_file = true →
     source = FromFile (default "" config_file))
  ∧ (given config_root = false → dev = false → given config_file = false →
     source = Default)
  ∧ (given config_root = true ∨ dev = true →
     core ss' = record (External "NodeConfiguration") (core ss)).
Proof.
  rewrite get_node_configuration_run.
  destruct (external_outcome _); [done|]. intros [= <- <-].
  unfold configuration_source, configuration_events, configuration_constructor,
    reads_file.
  split_and!.
  - by intros ->.
  - by intros -> ->.
  - by intros -> -> ->.
  - by intros -> -> ->.
  - intros [-> | ->]; [done|]. by destruct (given config_root).
Qed.

(** X22: Nothing is deleted without a yes: when the user does not confirm the
    deletion, [configure destroy] and [configure reset] abort at the
    question. The directory tree is not removed, and [reset] writes no new
    configuration. *)
Theorem nothing_deleted_without_consent (config_root config_file : option string)
    (action : string) (filesystem : bool) (ss : Session) :
  external_outcome (configuration_constructor false config_root config_file) = None →
  action = "destroy" ∨ action = "reset" →
  head (confirms (core ss)) ≠ Some true →
  let source := configuration_source false config_root config_file in
  let r := configure false config_root config_file action filesystem ss in
  r.1 = inl (Core Abort)
  ∧ trace (core r.2)
    = trace (core ss)
      ++ configuration_events false config_root config_file
      ++ [Confirm (delete_question source)].
Proof.
  intros Hctor Haction Hno source r. subst r. unfold configure.
  rewrite n_bind_run, get_node_configuration_run, Hctor. fold source.
  generalize (configuration_events false config_root config_file). intros events.
  assert (let d := __destroy false source (logged events ss) in
          d.1 = inl (Core Abort)
          ∧ trace (core d.2)
            = trace (core ss) ++ events ++ [Confirm (delete_question source)])
    as Hdestroy.
  { unfold __destroy. fold (delete_question source). nred. lred.
    destruct (confirms (core ss)) as [|[] cs]; [|done|]; nred; lred;
      by rewrite <- ?app_assoc. }
  cbv zeta in Hdestroy. unfold configure_switch.
  destruct Haction as [-> | ->].
  - rewrite bool_decide_false by done. rewrite bool_decide_true by done.
    exact Hdestroy.
  - do 2 rewrite bool_decide_false by done. rewrite bool_decide_true by done.
    rewrite n_bind_run.
    destruct (__destroy false source (logged events ss)) as [[f|[]] ss1];
      cbn [fst snd] in *; [done|]. by destruct Hdestroy.
Qed.

End ConfigureMore.

(** ** Equal states *)

Lemma state_ext (s1 s2 : State) :
  confirms s1 = confirms s2 → prompts s1 = prompts s2 →
  entropy s1 = entropy s2 → cursor s1 = cursor s2 → rng s1 = rng s2 →
  next_obj s1 = next_obj s2 → deployer_flag s1 = deployer_flag s2 →
  federated_only s1 = federated_only s2 → compile_flag s1 = compile_flag s2 →
  provider_uri s1 = provider_uri s2 → accounts s1 = accounts s2 →
  deployer_address s1 = deployer_address s2 → sim_processes s1 = sim_processes s2 →
  __deployment_transactions s1 = __deployment_transactions s2 →
  __deployment_agents s1 = __deployment_agents s2 →
  trace s1 = trace s2 →
  s1 = s2.
Proof. destruct s1, s2. simpl. by intros -> -> -> -> -> -> -> -> -> -> -> -> -> -> -> ->. Qed.

Lemma session_ext (ss1 ss2 : Session) :
  core ss1 = core ss2 → numbers ss1 = numbers ss2 → ss1 = ss2.
Proof. destruct ss1, ss2. simpl. by intros -> ->. Qed.

(** Two results are equal when their values are, and their sessions field
    by field. *)
Ltac same_session :=
  f_equal; apply session_ext; [apply state_ext|]; lred;
  rewrite <- ?app_assoc; reflexivity.

Section Initialize.
Context `{Collaborators} `{NodeCollaborators}.

(** X23: A certificate without a wallet cannot be made: when the user of
    [configure init] declines the wallet and asks for the certificate, the
    command ends with [UnboundLocalError] for [address] right after the
    question; no certificate is generated and nothing more is asked. *)
Theorem certificate_without_wallet (dev : bool) (config_root config_file : option string)
    (filesystem : bool) (ss : Session) (cs : list bool) :
  external_outcome (configuration_constructor dev config_root config_file) = None →
  external_outcome "configuration.write_defaults" = None →
  confirms (core ss) = true :: false :: true :: cs →
  let source := configuration_source dev config_root config_file in
  configure dev config_root config_file "init" filesystem ss
  = (inl (UnboundLocalError "address"),
     mkSession
       (with_confirms cs
          (recorded
             (configuration_events dev config_root config_file
              ++ (if dev then [Echo "Using temporary storage area"] else [])
              ++ [Confirm "Initialize new nucypher configuration?";
                  External "configuration.write_defaults";
                  Echo ("Created configuration files at " +:+ config_root_of source);
                  Confirm "Do you need to generate a new wallet to use for staking?";
                  Confirm "Do you need to generate a new SSL certificate (Ursula)?"])
             (core ss)))
       (numbers ss)).
Proof.
  intros Hctor Hwrite Hcs source. unfold configure.
  rewrite n_bind_run, get_node_configuration_run, Hctor. fold source.
  generalize (configuration_events dev config_root config_file). intros events.
  unfold configure_switch. rewrite bool_decide_true by done.
  unfold __initialize. destruct dev; nred; lred; rewrite Hcs; nred; rewrite Hwrite;
    nred; same_session.
Qed.

End Initialize.

(** The wallet is declined, the certificate asked for. *)
Lemma certificate_without_wallet_witness :
  let H := reference_world in
  let H0 := reference_node in
  let ss := opening [true; false; true] [] [] in
  external_outcome (configuration_constructor false None None) = None
  ∧ external_outcome "configuration.write_defaults" = None
  ∧ confirms (core ss) = [true; false; true]
  ∧ (configure false None None "init" false ss).1 = inl (UnboundLocalError "address").
Proof.
  intros H H0 ss. split; [reflexivity|]. split; [reflexivity|]. split; [reflexivity|].
  by rewrite (@certificate_without_wallet H H0 false None None false ss []
                eq_refl eq_refl eq_refl).
Defined.

Section Validate.
Context `{Collaborators} `{NodeCollaborators}.

(** X24: The verdict of [configure validate]. The line [<root> is Valid] or
    [<root> is Invalid] is always echoed. When both the directory tree and
    the configuration file are checked, the verdict is the one of the file
    alone; [InvalidConfiguration] from either check makes the verdict
    [Invalid] and the command returns; any other exception of the first
    check leaves the command after the verdict [Valid] has been echoed. *)
Theorem validate_verdict (filesystem : bool) (config_file : option string)
    (configuration : NodeSource) (ss : Session) :
  let root := config_root_of configuration in
  let tree := check_config_tree_exists root in
  let file := validate_configuration_file (config_file_location_of configuration) in
  let said verdict := logged [Echo (root +:+ " is " +:+ verdict)] ss in
  let r := __validate filesystem config_file configuration ss in
  (r.2 = said "Valid" ∨ r.2 = said "Invalid")
  ∧ (filesystem = false → given config_file = false → r = (inr tt, said "Valid"))
  ∧ (∀ tree_exists file_valid,
       filesystem = true → given config_file = true →
       tree = Answers tree_exists → file = Answers file_valid →
       r = (inr tt, said (if file_valid then "Valid" else "Invalid")))
  ∧ (filesystem = true → tree = InvalidConfiguration → r = (inr tt, said "Invalid"))
  ∧ (given config_file = true → file = InvalidConfiguration →
     (filesystem = false ∨ ∃ tree_exists, tree = Answers tree_exists) →
     r = (inr tt, said "Invalid"))
  ∧ (∀ e, filesystem = true → tree = Breaks e → r = (inl (Core e), said "Valid")).
Proof.
  intros root tree file said r. subst r said tree file root.
  unfold __validate, validation.
  split; [|split; [|split; [|split; [|split]]]].
  - destruct filesystem; [destruct (check_config_tree_exists _) as [[]| |]|];
      destruct (given config_file);
      try destruct (validate_configuration_file _) as [[]| |];
      nred; auto.
  - intros -> ->. by nred.
  - intros tree_exists file_valid -> -> -> ->. destruct file_valid; by nred.
  - intros -> ->. by nred.
  - intros -> -> [->|[tree_exists Htree]]; [|destruct filesystem; rewrite ?Htree];
      by nred.
  - intros e -> ->. by nred.
Qed.

End Validate.

Section Account.
Context `{Collaborators} `{NodeCollaborators}.

(** X25: The two checks of [create_account]. An answer that is neither
    [hosted] nor [local] once it is stripped and lowered ends the command
    behind [Invalid Input] before a passphrase is asked, an empty answer
    standing for [hosted]; two passphrases that differ end it behind
    [Passphrases did not match] before any wallet or account is generated. *)
Theorem create_account_checks (configuration : NodeSource) (ss : Session)
    (answer : string) (rest : list string) :
  prompts (core ss) = answer :: rest →
  let choice := strip_lower (if bool_decide (answer = "") then "hosted" else answer) in
  (choice ∉ ["hosted"; "local"] →
   create_account configuration ss
   = (inl (Core Abort),
      mkSession
        (with_prompts rest
           (recorded [Prompt "Create a new Hosted or Local account?";
                      Echo "Invalid Input"] (core ss)))
        (numbers ss)))
  ∧ (∀ passphrase passphrase_confirmation rest',
       choice ∈ ["hosted"; "local"] →
       rest = passphrase :: passphrase_confirmation :: rest' →
       passphrase ≠ passphrase_confirmation →
       create_account configuration ss
       = (inl (Core Abort),
          mkSession
            (with_prompts rest'
               (recorded
                  [Prompt "Create a new Hosted or Local account?";
                   Prompt "Enter a passphrase to encrypt your wallet's private key";
                   Prompt "Confirm passphrase to encrypt your wallet's private key";
                   Echo "Passphrases did not match"] (core ss)))
            (numbers ss))).
Proof.
  intros Hps choice. split.
  - intros Hchoice. unfold create_account. nred. rewrite Hps. nred.
    fold choice. rewrite bool_decide_true by done. nred. same_session.
  - intros passphrase passphrase_confirmation rest' Hchoice -> Hdiff.
    unfold create_account. nred. rewrite Hps. nred.
    fold choice. rewrite bool_decide_false by (by intros Hn; apply Hn).
    nred. rewrite bool_decide_true by done. nred. same_session.
Qed.

End Account.

(** Both checks asked for, the tree missing, the file in order. *)
Lemma validate_verdict_witness :
  let H0 := node_checking (Answers false) (Answers true) in
  let ss := opening [] [] [] in
  given (Some "node.config") = true
  ∧ trace (core (__validate true (Some "node.config") Default ss).2)
    = [Echo "/home/node/.nucypher is Valid"].
Proof.
  intros H0 ss. split; [reflexivity|].
  pose proof (validate_verdict true (Some "node.config") Default ss) as Hthm.
  destruct Hthm as (_ & _ & Hboth & _).
  rewrite (Hboth false true eq_refl eq_refl eq_refl eq_refl). reflexivity.
Defined.

(** The user mistypes the kind of account, then the passphrase. *)
Lemma create_account_checks_witness :
  let H0 := reference_node in
  let ss := opening [] ["remote"] [] in
  let ss' := opening [] ["local"; "one"; "two"] [] in
  prompts (core ss) = ["remote"]
  ∧ (create_account Default ss).1 = inl (Core Abort)
  ∧ (create_account Default ss').1 = inl (Core Abort).
Proof.
  intros H0 ss ss'. split; [reflexivity|].
  pose proof (create_account_checks Default ss "remote" [] eq_refl) as [Hbad _].
  pose proof (create_account_checks Default ss' "local" ["one"; "two"] eq_refl)
    as [_ Hdiff].
  split.
  - rewrite Hbad; [reflexivity|].
    apply (bool_decide_unpack _). vm_compute. exact I.
  - rewrite (Hdiff "one" "two" []); [reflexivity| |reflexivity|discriminate].
    apply (bool_decide_unpack _). vm_compute. exact I.
Defined.

(** A reset of a development node. *)
Lemma destroy_refuses_dev_witness :
  let H := reference_world in
  let H0 := reference_node in
  let ss := opening [true; true] [] [] in
  external_outcome "NodeConfiguration" = None
  ∧ ("reset" = "destroy" ∨ "reset" = "reset")
  ∧ (configure true None None "reset" false ss).1
    = inl (Core (ConfigurationError "Cannot destroy a temporary node configuration"))
  ∧ trace (core (configure true None None "reset" false ss).2)
    = [External "NodeConfiguration"].
Proof.
  intros H H0 ss. split; [reflexivity|].
  assert ("reset" = "destroy" ∨ "reset" = "reset") as Hact by (by right).
  split; [exact Hact|].
  rewrite (@destroy_refuses_dev H H0 None None "reset" false ss eq_refl Hact).
  split; reflexivity.
Defined.

(** A development node started with a configuration file. *)
Lemma configuration_source_precedence_witness :
  let H := reference_world in
  let ss := opening [] [] [] in
  let r := get_node_configuration true None (Some "node.config") ss in
  r = (inr Temporary, logged [External "NodeConfiguration"] ss)
  ∧ r.1 = inr Temporary.
Proof.
  intros H ss r.
  assert (r = (inr Temporary, logged [External "NodeConfiguration"] ss)) as Hr
    by reflexivity.
  split; [exact Hr|].
  destruct (configuration_source_precedence true None (Some "node.config") ss
              Temporary (logged [External "NodeConfiguration"] ss) Hr)
    as (_ & Hdev & _).
  by rewrite Hr.
Defined.

(** The user does not answer the question of a reset. *)
Lemma nothing_deleted_without_consent_witness :
  let H := reference_world in
  let H0 := reference_node in
  let ss := opening [] [] [] in
  external_outcome (configuration_constructor false None None) = None
  ∧ ("reset" = "destroy" ∨ "reset" = "reset")
  ∧ head (confirms (core ss)) ≠ Some true
  ∧ (configure false None None "reset" false ss).1 = inl (Core Abort).
Proof.
  intros H H0 ss. split; [reflexivity|].
  assert ("reset" = "destroy" ∨ "reset" = "reset") as Hact by (by right).
  assert (head (confirms (core ss)) ≠ Some true) as Hno by discriminate.
  split; [exact Hact|]. split; [exact Hno|].
  exact (proj1 (@nothing_deleted_without_consent H H0 None None "reset" false ss
                  eq_refl Hact Hno)).
Defined.

(** ** [stake] *)

Section Stake2.
Context `{Collaborators} `{NodeCollaborators}.

Lemma echo_each_run {A} (rows : list A) (text : A → string) (ss : Session) :
  n_for_each rows (λ row, echo (text row)) ss
  = (inr tt, logged ((λ row, Echo (text row)) <$> rows) ss).
Proof.
  revert ss. induction rows as [|row rows IH]; intros ss.
  - simpl. by rewrite logged_nil.
  - cbn [n_for_each fmap list_fmap]. rewrite n_bind_run.
    change (echo (text row) ss) with ((inr tt, logged [Echo (text row)] ss)
                                      : (Failure + unit) * Session).
    cbn beta iota. rewrite IH. by rewrite logged_logged.
Qed.

Lemma last_enumerate {A} (l : list A) (start : Z) :
  last (enumerate l start)
  = (λ x, (start + Z.of_nat (length l) - 1, x)) <$> last l.
Proof.
  revert start. induction l as [|x l IH]; intros start; [done|].
  destruct l as [|y l].
  - simpl. do 2 f_equal. lia.
  - change (enumerate (x :: y :: l) start)
      with ((start, x) :: enumerate (y :: l) (start + 1)).
    change (last ((start, x) :: enumerate (y :: l) (start + 1)))
      with (last (enumerate (y :: l) (start + 1))).
    rewrite IH. change (last (x :: y :: l)) with (last (y :: l)).
    destruct (last (y :: l)); simpl; [|done]. do 2 f_equal. lia.
Qed.

(** X26: With [--checksum-address], [stake] never binds the address it works
    on: [list], [confirm-activity] and [divide] end with [UnboundLocalError]
    at once, without a call to the node, and [init] ends with it right after
    the user has agreed to stage a stake. *)
Theorem stake_checksum_address_unbound (action : string) (checksum_address : option string)
    (index value duration : option Z) (ss : Session) :
  given checksum_address = true →
  (action = "list" ∨ action = "confirm-activity" ∨ action = "divide" →
   stake action checksum_address index value duration ss
   = (inl (UnboundLocalError "address"), ss))
  ∧ (∀ cs, confirms (core ss) = true :: cs →
     stake "init" checksum_address index value duration ss
     = (inl (UnboundLocalError "address"),
        mkSession (with_confirms cs (record (Confirm "Stage a new stake?") (core ss)))
          (numbers ss))).
Proof.
  intros Hgiven. unfold stake, select_account. rewrite Hgiven. cbn [negb].
  split.
  - intros [-> | [-> | ->]]; unfold stake_confirm_activity, stake_divide; by nred.
  - intros cs Hcs. rewrite n_bind_run. nred.
    rewrite bool_decide_false by done. rewrite bool_decide_true by done.
    unfold stake_init. nred. rewrite Hcs. by nred.
Qed.

Lemma select_account_run (checksum_address : option string) (index : option Z)
    (ss : Session) (selection : Z) (ns : list Z) :
  given checksum_address = false →
  numbers ss = selection :: ns →
  let node_accounts := accounts (core ss) in
  let n := Z.of_nat (length node_accounts) in
  let asked :=
    mkSession
      (recorded
         (((λ row, Echo (account_row row)) <$> enumerate node_accounts 0)
          ++ [Echo "Select ethereum address"; Prompt ("Enter 0-" +:+ pretty (length node_accounts))])
         (core ss))
      ns in
  select_account checksum_address index ss
  = match py_index node_accounts selection with
    | Some address =>
        (inr (Some address, if bool_decide (node_accounts = []) then index else Some (n - 1)),
         asked)
    | None => (inl (Core IndexError), asked)
    end
  ∧ py_index node_accounts n = None
  ∧ py_index node_accounts (-1) = last node_accounts.
Proof.
  intros Hgiven Hns node_accounts n asked. split; [|split].
  - unfold select_account. rewrite Hgiven. cbn [negb].
    rewrite n_bind_run. unfold n_get at 1. cbn beta iota.
    rewrite n_bind_run, echo_each_run. cbn beta iota.
    fold node_accounts. rewrite last_enumerate.
    nred. lred. rewrite Hns. fold node_accounts.
    assert (mkSession
              (record (Prompt ("Enter 0-" +:+ pretty (length node_accounts)))
                 (record (Echo "Select ethereum address")
                    (recorded ((λ row, Echo (account_row row))
                               <$> enumerate node_accounts 0) (core ss)))) ns
            = asked) as ->.
    { unfold asked. f_equal.
      by rewrite !record_as_recorded, !recorded_twice, <- ?app_assoc. }
    destruct (py_index node_accounts selection) as [address|]; [|done].
    do 3 f_equal. unfold n. clearbody asked. clearbody node_accounts.
    destruct node_accounts as [|a l _] using rev_ind; [done|].
    rewrite bool_decide_false by (by destruct l). rewrite last_snoc. simpl.
    f_equal; rewrite ?length_app; simpl; lia.
  - unfold py_index. rewrite bool_decide_true by lia.
    apply lookup_ge_None_2. unfold n. lia.
  - unfold py_index. rewrite bool_decide_false by lia.
    clearbody asked. clearbody node_accounts.
    destruct node_accounts as [|a l _] using rev_ind.
    + reflexivity.
    + rewrite bool_decide_true by (rewrite length_app; simpl; lia).
      rewrite last_snoc, length_app. simpl length.
      replace (Z.to_nat (Z.of_nat (length l + 1) + -1)) with (length l) by lia.
      by rewrite list_lookup_middle.
Qed.

(** X27: The account of a stake, when no [--checksum-address] is given: the
    accounts are listed, the first as [etherbase], and the user enters a
    number. The question offers the numbers from 0 to the number of
    accounts, but that last number selects nothing and ends the command
    with [IndexError]; a negative number selects from the end. After the
    selection the variable [index] holds the number of the last account,
    whatever [--index] was. *)
Theorem stake_account_selection (checksum_address : option string) (index : option Z)
    (ss : Session) (selection : Z) (ns : list Z) :
  given checksum_address = false →
  numbers ss = selection :: ns →
  let node_accounts := accounts (core ss) in
  let n := Z.of_nat (length node_accounts) in
  let asked :=
    mkSession
      (recorded
         (((λ row, Echo (account_row row)) <$> enumerate node_accounts 0)
          ++ [Echo "Select ethereum address"; Prompt ("Enter 0-" +:+ pretty (length node_accounts))])
         (core ss))
      ns in
  select_account checksum_address index ss
  = match py_index node_accounts selection with
    | Some address =>
        (inr (Some address, if bool_decide (node_accounts = []) then index else Some (n - 1)),
         asked)
    | None => (inl (Core IndexError), asked)
    end
  ∧ py_index node_accounts n = None
  ∧ py_index node_accounts (-1) = last node_accounts.
Proof. apply select_account_run. Qed.

(** X28: [stake divide] without [--checksum-address], on a node with two or
    more accounts: the stake that is divided is never asked for and is not
    the one of [--index]; its number is the number of the last account. The
    value passed on to the division is the option [--value] of the command
    line, absent or not, and not the target value the user has entered; the
    end period shown is the sum of target value and extension. *)
Theorem stake_divide_takes_account_number (index value duration : option Z)
    (ss : Session) (selection target_value extension : Z) (ns : list Z)
    (address : string) (stakes : list string) (stake_info : string) (cs : list bool) :
  let node_accounts := accounts (core ss) in
  let n := Z.of_nat (length node_accounts) in
  let division :=
    "miner_agent.divide_stake(miner_address=" +:+ address
    +:+ ", stake_index=" +:+ pretty (n - 1)
    +:+ ", value=" +:+ py_int value
    +:+ ", periods=" +:+ pretty extension +:+ ")" in
  (2 <= n)%Z →
  numbers ss = selection :: target_value :: extension :: ns →
  py_index node_accounts selection = Some address →
  get_all_stakes address = inr stakes →
  py_index stakes (n - 1) = Some stake_info →
  confirms (core ss) = true :: cs →
  external_outcome division = None →
  stake "divide" None index value duration ss
  = (inr tt,
     mkSession
       (with_confirms cs
          (recorded
             (((λ row, Echo (account_row row)) <$> enumerate node_accounts 0)
              ++ [Echo "Select ethereum address";
                  Prompt ("Enter 0-" +:+ pretty (length node_accounts));
                  External ("miner_agent.get_all_stakes(miner_address="
                            +:+ address +:+ ")");
                  Prompt "Enter new target value";
                  Prompt "Enter number of periods to extend";
                  Echo (divided_stake stake_info target_value extension);
                  Confirm "Is this correct?";
                  External division])
             (core ss)))
       ns).
Proof.
  intros node_accounts n division Hn Hns Hsel Hstakes Hstake Hcs Hcall.
  unfold stake. rewrite n_bind_run.
  destruct (select_account_run None index ss selection (target_value :: extension :: ns)
              eq_refl Hns) as (-> & _).
  fold node_accounts. rewrite Hsel. fold n.
  rewrite (bool_decide_false (node_accounts = []))
    by (intros Hnil; unfold n in Hn; rewrite Hnil in Hn; simpl in Hn; lia).
  cbn beta iota.
  do 4 rewrite bool_decide_false by done. rewrite bool_decide_true by done.
  unfold stake_divide, stakes_of. nred. rewrite Hstakes. nred.
  assert (stakes ≠ []) as Hne.
  { intros ->. unfold py_index in Hstake. repeat case_bool_decide; done. }
  rewrite bool_decide_false by (by destruct stakes).
  unfold nonzero. rewrite bool_decide_true by lia. nred. lred.
  cbn [from_option id]. rewrite Hstake. nred. lred. rewrite Hcs. nred. fold division. rewrite Hcall.
  same_session.
Qed.

(** X29: [stake init] for an address: a node that has a stake already is
    refused with [RuntimeError] before anything is asked about the new one.
    Otherwise the stake is reviewed with the period it ends in, the current
    period plus the duration; tokens are deposited, with the value and the
    duration the user entered, only after a yes to the review, and a no ends
    the command with [NotImplementedError] and no deposit. *)
Theorem stake_init_outcomes (address : string) (ss : Session) (cs : list bool) :
  confirms (core ss) = true :: cs →
  let staging :=
    [Confirm "Stage a new stake?";
     External ("miner_agent.get_all_stakes(miner_address=" +:+ address +:+ ")")] in
  (∀ existing stakes,
     get_all_stakes address = inr (existing :: stakes) →
     stake_init (Some address) ss
     = (inl (RuntimeError ("There is an existing stake for " +:+ address)),
        mkSession (with_confirms cs (recorded staging (core ss))) (numbers ss)))
  ∧ (∀ balance value duration start_period correct cs' ns,
       get_all_stakes address = inr [] →
       get_balance address = inr balance →
       get_current_period = inr start_period →
       cs = correct :: cs' →
       numbers ss = value :: duration :: ns →
       (∀ name, external_outcome name = None) →
       let review :=
         staging
         ++ [External ("token_agent.get_balance(address=" +:+ address +:+ ")");
             Echo ("Current balance: " +:+ pretty balance);
             Prompt "Enter stake value";
             Echo ("Minimum duration: " +:+ min_locked_periods_text
                   +:+ " | Maximum Duration: " +:+ max_reward_periods_text);
             Prompt "Enter stake duration in days";
             External "miner_agent.get_current_period()";
             Echo (staged_stake address value duration start_period
                     (start_period + duration));
             Confirm "Is this correct?"] in
       stake_init (Some address) ss
       = if correct : bool
         then
           (inr tt,
            mkSession
              (with_confirms cs'
                 (recorded
                    (review
                     ++ [External ("miner_agent.deposit_tokens(amount=" +:+ pretty value
                                   +:+ ", lock_periods=" +:+ pretty duration
                                   +:+ ", sender_address=" +:+ address +:+ ")");
                         External "reactor.spawnProcess(nucypher-cli, ['run_ursula'])"])
                    (core ss)))
              ns)
         else
           (inl NotImplementedError,
            mkSession (with_confirms cs' (recorded review (core ss))) ns)).
Proof.
  intros Hcs staging. split.
  - intros existing stakes Hstakes. unfold stake_init, stakes_of. nred.
    rewrite Hcs. nred. rewrite Hstakes. nred.
    rewrite bool_decide_true by (simpl; lia). same_session.
  - intros balance value duration start_period correct cs' ns
      Hstakes Hbalance Hperiod -> Hns Hall review.
    unfold stake_init, stakes_of, spawn_run_ursula. nred.
    rewrite Hcs. nred. rewrite Hstakes. nred.
    rewrite bool_decide_false by (simpl; lia).
    rewrite Hbalance. nred. lred. rewrite Hns. nred. lred.
    rewrite Hperiod. nred. lred.
    destruct correct; nred; rewrite ?Hall; nred; same_session.
Qed.

End Stake2.


(** The stakes of an address given on the command line cannot be listed. *)
Lemma stake_checksum_address_unbound_witness :
  let H := reference_world in
  let H0 := reference_node in
  let ss := connected ["0xA"; "0xB"] [] [] [] in
  given (Some "0xB") = true
  ∧ ("list" = "list" ∨ "list" = "confirm-activity" ∨ "list" = "divide")
  ∧ stake "list" (Some "0xB") None None None ss
    = (inl (UnboundLocalError "address"), ss).
Proof.
  intros H H0 ss. split; [reflexivity|].
  assert ("list" = "list" ∨ "list" = "confirm-activity" ∨ "list" = "divide") as Hact
    by (by left).
  split; [exact Hact|].
  exact (proj1 (@stake_checksum_address_unbound H H0 "list" (Some "0xB") None None None ss
                  eq_refl) Hact).
Defined.

(** Two accounts, and the user enters 2, the upper end of the range the
    question offers. *)
Lemma stake_account_selection_witness :
  let ss := connected ["0xA"; "0xB"] [] [] [2] in
  given None = false
  ∧ numbers ss = [2]
  ∧ (select_account None None ss).1 = inl (Core IndexError).
Proof.
  intros ss. split; [reflexivity|]. split; [reflexivity|].
  destruct (stake_account_selection None None ss 2 [] eq_refl eq_refl) as (Hrun & _).
  rewrite Hrun. reflexivity.
Defined.

(** Two accounts and two stakes: the stake divided is number 1, though
    [--index 0] asks for the first, and the value passed on is absent. *)
Lemma stake_divide_takes_account_number_witness :
  let H := reference_world in
  let H0 := node_staking ["stake-0"; "stake-1"] in
  let ss := connected ["0xA"; "0xB"] [true] [] [0; 500; 10] in
  (2 <= Z.of_nat (length (accounts (core ss))))%Z
  ∧ numbers ss = [0; 500; 10]
  ∧ py_index (accounts (core ss)) 0 = Some "0xA"
  ∧ get_all_stakes "0xA" = inr ["stake-0"; "stake-1"]
  ∧ py_index ["stake-0"; "stake-1"] (2 - 1) = Some "stake-1"
  ∧ confirms (core ss) = [true]
  ∧ last (trace (core (stake "divide" None (Some 0) None None ss).2))
    = Some (External ("miner_agent.divide_stake(miner_address=0xA, "
                      +:+ "stake_index=1, value=None, periods=10)")).
Proof.
  intros H H0 ss.
  assert (2 <= Z.of_nat (length (accounts (core ss))))%Z as Hn by (simpl; lia).
  split; [exact Hn|]. do 5 (split; [reflexivity|]).
  rewrite (@stake_divide_takes_account_number H H0 (Some 0) None None ss 0 500 10 []
             "0xA" ["stake-0"; "stake-1"] "stake-1" [] Hn eq_refl eq_refl eq_refl
             eq_refl eq_refl eq_refl).
  reflexivity.
Defined.

(** A first stake is reviewed and the user says no. *)
Lemma stake_init_outcomes_witness :
  let H := reference_world in
  let H0 := reference_node in
  let ss := connected ["0xA"] [true; false] [] [15000; 30] in
  confirms (core ss) = [true; false]
  ∧ (stake_init (Some "0xA") ss).1 = inl NotImplementedError.
Proof.
  intros H H0 ss. split; [reflexivity|].
  destruct (@stake_init_outcomes H H0 "0xA" ss [false] eq_refl) as [_ Hreview].
  rewrite (Hreview 1000000 15000 30 100 false [] [] eq_refl eq_refl eq_refl eq_refl
             eq_refl (λ _, eq_refl)).
  reflexivity.
Defined.

(** ** Transfers *)

Section Transfers.
Context `{Collaborators} `{NodeCollaborators}.

(** X30: A transfer of tokens or of ETH by [accounts], from the address of
    [--checksum-address]: a destination that is not a checksum address ends
    the command behind a message, before an amount is asked; the transfer is
    sent only after a yes to the question, which speaks of tokens for ETH as
    well; and what is sent then is the amount entered, from the sender to
    the destination. *)
Theorem transfers_are_checked_and_confirmed (eth : bool) (configuration : NodeSource)
    (sender destination : string) (ps : list string) (ss : Session) :
  sender ≠ "" →
  prompts (core ss) = destination :: ps →
  let run := accounts_connected configuration (transfer_action eth) (Some sender) ss in
  let asked := [Prompt "Enter destination checksum_address"] in
  (is_checksum_address destination = false →
   run = (inl (Core Abort),
          mkSession
            (with_prompts ps
               (recorded
                  (asked ++ [Echo (destination
                                   +:+ " is not a valid checksum checksum_address")])
                  (core ss)))
            (numbers ss)))
  ∧ (∀ amount ns,
       is_checksum_address destination = true →
       numbers ss = amount :: ns →
       let question :=
         asked
         ++ [Prompt ("Enter amount of " +:+ transfer_denomination eth +:+ " to transfer");
             Confirm ("Are you sure you want to send " +:+ pretty amount
                      +:+ " tokens to " +:+ destination +:+ "?")] in
       (head (confirms (core ss)) ≠ Some true →
        run.1 = inl (Core Abort)
        ∧ trace (core run.2) = trace (core ss) ++ question)
       ∧ (∀ cs txhash,
            confirms (core ss) = true :: cs →
            transfer_hash eth amount destination sender = inr txhash →
            external_outcome "blockchain.wait_for_receipt" = None →
            run = (inr tt,
                   mkSession
                     (with_confirms cs
                        (with_prompts ps
                           (recorded
                              (question
                               ++ [External (transfer_call eth amount destination sender);
                                   External "blockchain.wait_for_receipt";
                                   Echo ("Sent " +:+ pretty amount +:+ " "
                                         +:+ transfer_denomination eth +:+ " to "
                                         +:+ destination +:+ " | " +:+ txhash)])
                              (core ss))))
                     ns))).
Proof.
  intros Hsender Hps run asked. subst run asked.
  assert (given (Some sender) = true) as Hgiven
    by (unfold given, truthy; by rewrite bool_decide_true).
  unfold accounts_connected. rewrite Hgiven. cbn [negb from_option id].
  split.
  - intros Hbad. destruct eth; unfold transfer_action;
      nred; repeat (rewrite bool_decide_false by done);
      rewrite bool_decide_true by done;
      unfold __collect_transfer_details; nred; rewrite Hps; nred; rewrite Hbad;
      nred; same_session.
  - intros amount ns Hgood Hns. split.
    + intros Hno. destruct eth; unfold transfer_action, transfer_denomination;
        nred; repeat (rewrite bool_decide_false by done);
        rewrite bool_decide_true by done;
        unfold __collect_transfer_details; nred; rewrite Hps; nred; rewrite Hgood;
        nred; lred; rewrite Hns; nred; lred;
        destruct (confirms (core ss)) as [|[] cs]; try done; nred; lred;
        by rewrite <- ?app_assoc.
    + intros cs txhash Hcs Hhash Hwait.
      destruct eth; unfold transfer_action, transfer_denomination, transfer_call,
        transfer_hash in *;
        nred; repeat (rewrite bool_decide_false by done);
        rewrite bool_decide_true by done;
        unfold __collect_transfer_details; nred; rewrite Hps; nred; rewrite Hgood;
        nred; lred; rewrite Hns; nred; lred; rewrite Hcs; nred; rewrite Hhash;
        nred; rewrite Hwait; nred; same_session.
Qed.

End Transfers.

(** ETH for an address that is not a checksum address. *)
Lemma transfers_are_checked_and_confirmed_witness :
  let H := reference_world in
  let H0 := reference_node in
  let ss := connected ["0xA"] [true] ["0xshort"] [7] in
  "0xA" ≠ ""
  ∧ prompts (core ss) = ["0xshort"]
  ∧ is_checksum_address "0xshort" = false
  ∧ (accounts_connected Default "transfer-eth" (Some "0xA") ss).1 = inl (Core Abort).
Proof.
  intros H H0 ss.
  assert ("0xA" ≠ "") as Hne by discriminate.
  split; [exact Hne|]. split; [reflexivity|]. split; [reflexivity|].
  destruct (@transfers_are_checked_and_confirmed H H0 true Default "0xA" "0xshort" [] ss
              Hne eq_refl) as [Hbad _].
  unfold transfer_action in Hbad. by rewrite (Hbad eq_refl).
Defined.

(** ** The registry path that is not defined *)

Section RegistryPath.
Context `{Collaborators}.

Lemma fails_raise {A} (e : Exn) : fails (@raise A e).
Proof. intros s. by exists e. Qed.

Lemma fails_bind_l {A B} (m : M A) (k : A → M B) : fails m → fails (m ≫= k).
Proof.
  intros Hm s. destruct (Hm s) as [e He]. exists e.
  unfold mbind, M_bind, bind. by destruct (m s) as [[e'|a] s']; simplify_eq/=.
Qed.

Lemma fails_bind_r {A B} (m : M A) (k : A → M B) :
  (∀ a, fails (k a)) → fails (m ≫= k).
Proof.
  intros Hk s. unfold mbind, M_bind, bind.
  destruct (m s) as [[e|a] s']; [by exists e|]. apply Hk.
Qed.

(** Line 649 is the last statement of the chain set-up and reads the
    undefined name: the set-up never returns. *)
Lemma bootstrap_contracts_fails (nodes : Z) (uri : string) :
  fails (bootstrap_contracts nodes uri).
Proof.
  unfold bootstrap_contracts.
  repeat first
    [ apply fails_bind_l; unfold DEFAULT_SIMULATION_REGISTRY_FILEPATH; apply fails_raise
    | apply fails_bind_r; first [intros [??] | intros ?]; cbv zeta ].
Qed.

Lemma bootstrap_chain_fails (nodes : Z) (geth pyevm : bool) :
  fails (bootstrap_chain nodes geth pyevm).
Proof.
  rewrite bootstrap_chain_parts.
  apply fails_bind_r; intros _. apply fails_bind_r; intros s.
  case_bool_decide; [|apply bootstrap_contracts_fails].
  apply fails_bind_r; intros _. apply fails_raise.
Qed.

(** After the cleanup, a start ends in the chain set-up, or, in federated
    mode, at the head of the swarm loop. *)
Lemma after_cleanup_run (nodes : Z) (geth pyevm : bool) (s : State) :
  if federated_only s
  then after_cleanup nodes geth pyevm s
       = (inl (TypeError "'NotImplementedType' object is not iterable"),
          record (Echo "Ready to run swarm.") s)
  else ∃ e, (bootstrap_chain nodes geth pyevm s).1 = inl e
            ∧ after_cleanup nodes geth pyevm s
              = (inl e, (bootstrap_chain nodes geth pyevm s).2).
Proof.
  destruct (federated_only s) eqn:Hfed.
  - unfold after_cleanup. mred. rewrite Hfed. exec. reflexivity.
  - destruct (bootstrap_chain_fails nodes geth pyevm s) as [e He]. exists e.
    split; [done|]. unfold after_cleanup. mred. rewrite Hfed. sred. mred.
    by destruct (bootstrap_chain nodes geth pyevm s) as [[e'|v] s']; simplify_eq/=.
Qed.

Lemma prepare_swarm_fails (nodes : Z) (geth pyevm : bool) :
  fails (prepare_swarm nodes geth pyevm).
Proof.
  rewrite prepare_swarm_parts. apply fails_bind_r; intros _ s.
  pose proof (after_cleanup_run nodes geth pyevm s) as Hrun.
  destruct (federated_only s); [rewrite Hrun; by eexists|].
  destruct Hrun as (e & _ & ->). by exists e.
Qed.

(** No [simulate start] gets as far as the reactor: it ends with the
    error and in the state of its preparation. *)
Lemma start_ends_in_preparation (nodes : Z) (geth pyevm : bool) (s : State) :
  ∃ e, simulate "start" nodes geth pyevm s
       = (inl e, (prepare_swarm nodes geth pyevm s).2).
Proof.
  destruct (prepare_swarm_fails nodes geth pyevm s) as [e He]. exists e.
  rewrite simulate_start_run. mred.
  by destruct (prepare_swarm nodes geth pyevm s) as [[e'|v] s']; simplify_eq/=.
Qed.

(** The preparation spawns nothing, whatever the number of nodes. *)
Lemma sat_prepare_swarm (nodes : Z) (geth pyevm : bool) :
  sat preparing (prepare_swarm nodes geth pyevm).
Proof.
  intros s. rewrite prepare_swarm_parts. mred.
  pose proof (sat_reset_sim_processes s) as Hreset.
  destruct (reset_sim_processes s) as [[e|[]] s0]; [done|]. cbn [snd] in *.
  etrans; [exact Hreset|].
  pose proof (after_cleanup_run nodes geth pyevm s0) as Hrun.
  destruct (federated_only s0) eqn:Hfed.
  - rewrite Hrun. split; [by apply extends_record|done].
  - destruct Hrun as (e & _ & ->).
    apply (sat_bootstrap_chain nodes geth pyevm s0).
Qed.

Lemma calm_spawns (t : list Event) : Forall calm t → spawns t = [].
Proof.
  induction 1 as [|e t He _ IH]; [done|]. unfold spawns in *. simpl.
  unfold calm in He. by rewrite He.
Qed.

(** Every [simulate start], in either mode and for every number of nodes,
    ends in an error without a call of [reactor.spawnProcess]. *)
Lemma start_never_spawns (nodes : Z) (geth pyevm : bool) (s : State) :
  let r := simulate "start" nodes geth pyevm s in
  (∃ e, r.1 = inl e) ∧ spawns (trace r.2) = spawns (trace s).
Proof.
  intros r. subst r.
  destruct (start_ends_in_preparation nodes geth pyevm s) as [e ->].
  split; [by exists e|]. cbn [snd].
  destruct (sat_prepare_swarm nodes geth pyevm s) as [(new & -> & Hcalm) _].
  by rewrite spawns_app, (calm_spawns new), app_nil_r.
Qed.

(** The loop of the finally block kills the processes in order. *)
Lemma kill_loop_run (ps : list Process) (s : State) :
  for_each ps (λ process,
    os_kill (pid process) 9;;
    click_echo ("Killed " +:+ process_text process)) s
  = (inr tt,
     recorded (flat_map (λ p, [Kill (pid p) 9; Echo ("Killed " +:+ process_text p)]) ps) s).
Proof.
  revert s. induction ps as [|p ps IH]; intros s.
  - simpl. by rewrite recorded_none.
  - cbn [for_each flat_map]. mred. rewrite IH.
    by rewrite !record_as_recorded, !recorded_twice.
Qed.

(** The finally block of lines 726-733. When the mode is not federated it
    reads the undefined name before [os.remove] is called, and ends there:
    no process is killed. *)
Lemma teardown_run (s : State) :
  teardown s
  = if federated_only s
    then (inr tt, recorded (teardown_events (tracked s)) s)
    else (inl (NameError "DEFAULT_SIMULATION_REGISTRY_FILEPATH"),
          record (Echo "Removing simulation registry") s).
Proof.
  unfold teardown, teardown_events, DEFAULT_SIMULATION_REGISTRY_FILEPATH. mred.
  destruct (federated_only s) eqn:Hfed; sred; mred; [|done].
  unfold tracked at 1. sred. fold (tracked s). rewrite kill_loop_run.
  by rewrite !record_as_recorded, !recorded_twice.
Qed.

End RegistryPath.

(** C5: a start in which every collaborator succeeds and the user agrees,
    for three nodes on the pyevm backend. It ends with [NameError] on line
    649, where the registry path is read: it never calls [reactor.run()],
    so it never waits, and it removes no file and kills no process. The
    finally block, run from the state the start ends in, raises the same
    [NameError] on line 728, before its loop over the processes. *)
Theorem start_ends_before_the_wait :
  let H := reference_world in
  let r := simulate "start" 3 false true (initial [true] []) in
  r.1 = inl (NameError "DEFAULT_SIMULATION_REGISTRY_FILEPATH")
  ∧ last (trace r.2) = Some (Echo "Writing filesystem registry")
  ∧ existsb is_closing_call (trace r.2) = false
  ∧ teardown r.2
    = (inl (NameError "DEFAULT_SIMULATION_REGISTRY_FILEPATH"),
       record (Echo "Removing simulation registry") r.2).
Proof.
  intros H r. split; [vm_compute; reflexivity|].
  split; [vm_compute; reflexivity|]. split; [vm_compute; reflexivity|].
  assert (federated_only r.2 = false) as Hfed by (vm_compute; reflexivity).
  revert Hfed. generalize r.2. intros s Hfed.
  by rewrite teardown_run, Hfed.
Qed.

(** C9: the same start. The chain holds three accounts, the first of which
    is the address of the deployer, and the start ends with [NameError]
    before the swarm loop: no worker is spawned and no process is
    tracked. *)
Theorem start_spawns_no_worker :
  let H := reference_world in
  let r := simulate "start" 3 false true (initial [true] []) in
  tester_accounts 3 = ["0x0"; "0x1"; "0x2"]
  ∧ deployer_address r.2 = "0x0"
  ∧ r.1 = inl (NameError "DEFAULT_SIMULATION_REGISTRY_FILEPATH")
  ∧ spawns (trace r.2) = []
  ∧ tracked r.2 = [].
Proof.
  intros H r. split; [reflexivity|]. split; [vm_compute; reflexivity|].
  split; [vm_compute; reflexivity|]. split; [|vm_compute; reflexivity].
  apply (@start_never_spawns reference_world 3 false true (initial [true] [])).
Qed.
